(** * Storm Radar: the alert engine and the notification gate

    A shallow embedding of [storm_radar/calculators.py],
    [storm_radar/notifiers.py] and of the notification part of
    [storm_radar/main.py], with the properties of the scoring engine, the
    Bora detector, the reading store and the notification gate; then of
    [storm_radar/fetchers.py], of the stations of [storm_radar/config.py] and
    of the level filter of [storm_radar/logging.py].

    Modelling conventions.
    - A Python [float] reading (pressure, wind speed, score, ...) is an exact
      rational [Q]; IEEE rounding, infinities and NaN are outside the model.
      Every score contribution of the engine is an integer literal, so the
      score arithmetic is exact in both worlds.
    - A naive [datetime] is a [Z], the number of microseconds since a fixed
      origin (the resolution of Python's [datetime]); a [timedelta] is a
      number of microseconds.  Each call of [datetime.now()] is an explicit
      argument of the function that makes it.
    - A [str] is a [string] (bytes of the UTF-8 encoding).  [in] is the
      substring test; for the ASCII needles of the source it agrees with
      Python's test on code points.  [upper] and [lower] act on ASCII
      letters.  Lengths and slices count bytes where Python counts code
      points; they only shape the text handed to the transport.
    - A [dict] is a [gmap].
    - A raised exception is [None].  The one division whose divisor is not
      the length of a list just tested non-empty is the average distance of
      the lightning block; it goes through [Py.div], the others are written
      with [/].
    - The logger only prints; its calls are left out. *)

From Stdlib Require Import ZArith QArith Qminmax Qabs Lia Lqa Ascii DecimalString.
From stdpp Require Import gmap strings list fin_maps.

Local Open Scope Z_scope.

(** ** Python strings *)

Module Py.

(** [needle in s] *)
Fixpoint str_in (needle s : string) : bool :=
  String.prefix needle s ||
  match s with
  | EmptyString => false
  | String _ s' => str_in needle s'
  end.

Definition upper_ascii (c : ascii) : ascii :=
  let n := nat_of_ascii c in
  if ((97 <=? n) && (n <=? 122))%nat then ascii_of_nat (n - 32) else c.

Definition lower_ascii (c : ascii) : ascii :=
  let n := nat_of_ascii c in
  if ((65 <=? n) && (n <=? 90))%nat then ascii_of_nat (n + 32) else c.

Fixpoint str_map (f : ascii -> ascii) (s : string) : string :=
  match s with
  | EmptyString => EmptyString
  | String c s' => String (f c) (str_map f s')
  end.

(** [s.upper()] and [s.lower()] *)
Definition upper : string -> string := str_map upper_ascii.
Definition lower : string -> string := str_map lower_ascii.

(** [sep.join(parts)] *)
Fixpoint join (sep : string) (parts : list string) : string :=
  match parts with
  | [] => ""
  | [p] => p
  | p :: ps => p +:+ sep +:+ join sep ps
  end.

(** [s.replace(c, "")] for a one-character [c] *)
Fixpoint remove_char (c : ascii) (s : string) : string :=
  match s with
  | EmptyString => EmptyString
  | String a s' =>
      if Ascii.eqb a c then remove_char c s' else String a (remove_char c s')
  end.

(** [s[:n]] for [n >= 0] *)
Fixpoint str_take (n : nat) (s : string) : string :=
  match n, s with
  | S n', String a s' => String a (str_take n' s')
  | _, _ => EmptyString
  end.

(** [str(n)] for a non-negative integer *)
Definition str_of_N (n : N) : string := NilEmpty.string_of_uint (N.to_uint n).

(** Rounding to the nearest integer, ties to the even one: the rounding of
    the [f] presentation type. *)
Definition round_half_even (x : Q) : Z :=
  let n := Qnum x in
  let d := Z.pos (Qden x) in
  let fl := n / d in
  let twice_rem := 2 * (n mod d) in
  if twice_rem <? d then fl
  else if d <? twice_rem then fl + 1
  else if Z.even fl then fl else fl + 1.

Definition sign_str (x : Q) : string :=
  if Qle_bool 0 x then "" else "-".

(** [f"{x:.1f}"] *)
Definition format_1f (x : Q) : string :=
  let tenths := Z.to_N (round_half_even (Qabs x * 10)) in
  sign_str x +:+ str_of_N (tenths / 10) +:+ "." +:+ str_of_N (tenths mod 10).

(** [f"{x:.0f}"] *)
Definition format_0f (x : Q) : string :=
  sign_str x +:+ str_of_N (Z.to_N (round_half_even (Qabs x))).

(** [x > y] and [x < y] on floats *)
Definition gt (x y : Q) : bool := negb (Qle_bool x y).
Definition lt (x y : Q) : bool := negb (Qle_bool y x).

(** [x / y]: raises [ZeroDivisionError] on a zero divisor *)
Definition div (x y : Q) : option Q :=
  if Qeq_bool y 0 then None else Some (x / y)%Q.

(** [sum(xs)] *)
Definition sum (xs : list Q) : Q := fold_left Qplus xs 0%Q.

(** [max(xs)] on a non-empty sequence: the first item, replaced by each
    later item that is greater. *)
Definition max (x0 : Q) (xs : list Q) : Q :=
  fold_left (fun m x => if gt x m then x else m) xs x0.

(** [min(x, y)]: [y] when [y < x], else [x]. *)
Definition min (x y : Q) : Q := if lt y x then y else x.

(** [len(xs)] as a number *)
Definition len {A} (xs : list A) : Q := inject_Z (Z.of_nat (length xs)).

(** [s in names] for a list of strings *)
Definition str_in_list (s : string) (names : list string) : bool :=
  existsb (String.eqb s) names.

End Py.

(** ** Time *)

Definition datetime := Z.

Definition timedelta_minutes (m : Z) : Z := m * 60000000.
Definition timedelta_hours (h : Z) : Z := h * 3600000000.

(** ** models.py *)

Record WeatherData := {
  station_name : string;
  w_timestamp : datetime;
  temperature : Q;
  pressure : Q;
  humidity : Q;
  wind_speed : Q;
  wind_direction : Q;
  visibility : option Q;
  weather_main : string;
  station_type : string
}.

Record MarineData := {
  m_timestamp : datetime;
  wave_height : Q;
  wave_period : Q;
  wave_direction : Q;
  sea_temperature : Q;
  location : string
}.

Record LightningData := {
  l_timestamp : datetime;
  lat : Q;
  lon : Q;
  distance_km : Q;
  intensity : Q
}.

(** ** config.py: the thresholds the engine and the gate read *)

Record Configuration := {
  BORA_PRESSURE_DIFF_THRESHOLD : Q;
  BORA_WIND_THRESHOLD : Q;
  HIGH_WIND_THRESHOLD : Q;
  WAVE_HEIGHT_THRESHOLD : Q;
  WAVE_PERIOD_THRESHOLD : Q;
  LIGHTNING_DENSITY_THRESHOLD : Z;
  LIGHTNING_APPROACH_DISTANCE : Q;
  THERMAL_GRADIENT_THRESHOLD : Q;
  MIN_ALERT_LEVEL : string;
  DATA_RETENTION_HOURS : Z
}.

(** The defaults of the class [Configuration]. *)
Definition default_config : Configuration := {|
  BORA_PRESSURE_DIFF_THRESHOLD := 10;
  BORA_WIND_THRESHOLD := 40;
  HIGH_WIND_THRESHOLD := 35;
  WAVE_HEIGHT_THRESHOLD := 2;
  WAVE_PERIOD_THRESHOLD := 4;
  LIGHTNING_DENSITY_THRESHOLD := 10;
  LIGHTNING_APPROACH_DISTANCE := 100;
  THERMAL_GRADIENT_THRESHOLD := 8;
  MIN_ALERT_LEVEL := "MEDIUM";
  DATA_RETENTION_HOURS := 12
|}.

(** ** calculators.py *)

(** The object [EnhancedAlertCalculator]: its configuration and the three
    retained streams. *)
Record EnhancedAlertCalculator := {
  config : Configuration;
  historical_weather : gmap string (list WeatherData);
  historical_marine : gmap string (list MarineData);
  historical_lightning : list LightningData
}.

(** [__init__] *)
Definition new_calculator (cfg : Configuration) : EnhancedAlertCalculator := {|
  config := cfg;
  historical_weather := ∅;
  historical_marine := ∅;
  historical_lightning := []
|}.

(** [if k not in h: h[k] = []] followed by [h[k].append(data)] *)
Definition append_at {A} (key : A -> string) (h : gmap string (list A)) (data : A)
  : gmap string (list A) :=
  let h := match h !! key data with
           | None => <[key data := []]> h
           | Some _ => h
           end in
  <[key data := default [] (h !! key data) ++ [data]]> h.

(** [store_data]; [now] is the value of [datetime.now()] read after the
    appends. *)
Definition store_data (self : EnhancedAlertCalculator)
    (weather_data : list WeatherData) (marine_data : list MarineData)
    (lightning_data : list LightningData) (now : datetime)
  : EnhancedAlertCalculator :=
  let hw := fold_left (append_at station_name) weather_data (historical_weather self) in
  let hm := fold_left (append_at location) marine_data (historical_marine self) in
  let hl := historical_lightning self ++ lightning_data in
  let cutoff_time := now - timedelta_hours (DATA_RETENTION_HOURS (config self)) in
  {| config := config self;
     historical_weather := List.filter (fun d => w_timestamp d >? cutoff_time) <$> hw;
     historical_marine := List.filter (fun d => m_timestamp d >? cutoff_time) <$> hm;
     historical_lightning := List.filter (fun d => l_timestamp d >? cutoff_time) hl |}.

Definition ne_station_names : list string := ["Trieste"; "Nova_Gorica"; "Rijeka"].
Definition local_station_names : list string := ["Ancona"; "Falconara"].

(** [check_bora_pattern] *)
Definition check_bora_pattern (cfg : Configuration) (weather_data : list WeatherData)
  : bool * string :=
  let ne_stations :=
    List.filter (fun d => Py.str_in_list (station_name d) ne_station_names) weather_data in
  let local_stations :=
    List.filter (fun d => Py.str_in_list (station_name d) local_station_names) weather_data in
  match ne_stations, local_stations with
  | [], _ | _, [] => (false, "")
  | s0 :: ne_rest, _ :: _ =>
      let avg_ne_pressure := (Py.sum (map pressure ne_stations) / Py.len ne_stations)%Q in
      let avg_local_pressure :=
        (Py.sum (map pressure local_stations) / Py.len local_stations)%Q in
      let pressure_diff := (avg_ne_pressure - avg_local_pressure)%Q in
      let max_ne_wind := Py.max (wind_speed s0) (map wind_speed ne_rest) in
      let ne_wind_from_correct_direction :=
        existsb (fun s => Py.gt (wind_speed s) 30
                          && (Qle_bool 0 (wind_direction s)
                              && Qle_bool (wind_direction s) 90))
                ne_stations in
      if Py.gt pressure_diff (BORA_PRESSURE_DIFF_THRESHOLD cfg)
         && Py.gt max_ne_wind (BORA_WIND_THRESHOLD cfg)
         && ne_wind_from_correct_direction
      then (true,
            "BORA PATTERN DETECTED: Pressure diff " +:+ Py.format_1f pressure_diff
            +:+ "hPa, NE winds " +:+ Py.format_1f max_ne_wind +:+ "km/h")
      else (false, "")
  end.

(** The body of the loop of [_calculate_traditional_patterns]. *)
Definition traditional_step (cfg : Configuration) (score : Q) (data : WeatherData) : Q :=
  let score := if Py.gt (wind_speed data) (HIGH_WIND_THRESHOLD cfg)
               then (score + 10)%Q else score in
  let score := if Py.str_in_list (weather_main data) ["Thunderstorm"; "Rain"]
               then (score + 15)%Q else score in
  let score := if Py.gt (humidity data) 85
               then (score + 5)%Q else score in
  score.

(** [_calculate_traditional_patterns] *)
Definition _calculate_traditional_patterns (cfg : Configuration)
    (weather_data : list WeatherData) : Q :=
  fold_left (traditional_step cfg) weather_data 0%Q.

(** [get_enhanced_eta] *)
Definition get_enhanced_eta (reasons : list string) (bora_detected : bool) : string :=
  if bora_detected then "15-45 minutes (BORA - IMMEDIATE DANGER)"
  else if existsb (Py.str_in "LIGHTNING") reasons then "30-60 minutes"
  else if existsb (Py.str_in "MARINE") reasons then "45-90 minutes"
  else if existsb (fun reason => Py.str_in "Gubbio" reason || Py.str_in "Fabriano" reason)
                  reasons
       then "1-2 hours"
  else "2-3 hours".

(** The body of the loop over [marine_data]. *)
Definition marine_step (cfg : Configuration) (marine_alerts : list string)
    (data : MarineData) : list string :=
  let marine_alerts :=
    if Py.lt (wave_period data) (WAVE_PERIOD_THRESHOLD cfg)
    then marine_alerts ++
         [location data +:+ ": Short wave period "
          +:+ Py.format_1f (wave_period data) +:+ "s"]
    else marine_alerts in
  let marine_alerts :=
    if Py.gt (wave_height data) (WAVE_HEIGHT_THRESHOLD cfg)
    then marine_alerts ++
         [location data +:+ ": High waves "
          +:+ Py.format_1f (wave_height data) +:+ "m"]
    else marine_alerts in
  marine_alerts.

(** The fragments collected by the loop over [marine_data]. *)
Definition marine_alerts_of (cfg : Configuration) (marine_data : list MarineData)
  : list string :=
  fold_left (marine_step cfg) marine_data [].

(** Block 2 of [calculate_enhanced_alerts], marine conditions, on the
    running [score] and [reasons]. *)
Definition marine_conditions (cfg : Configuration) (marine_data : list MarineData)
    (score : Q) (reasons : list string) : Q * list string :=
  match marine_data with
  | [] => (score, reasons)
  | _ :: _ =>
      let marine_alerts := marine_alerts_of cfg marine_data in
      match marine_alerts with
      | [] => (score, reasons)
      | _ :: _ =>
          ((score + 25)%Q,
           reasons ++ ["🌊 MARINE: " +:+ Py.join "; " marine_alerts])
      end
  end.

(** The comprehension [nearby_strikes]. *)
Definition nearby_strikes_of (cfg : Configuration) (lightning_data : list LightningData)
    (now : datetime) : list LightningData :=
  let recent_time := now - timedelta_minutes 10 in
  List.filter
    (fun strike => (l_timestamp strike >? recent_time)
                   && Py.lt (distance_km strike) (LIGHTNING_APPROACH_DISTANCE cfg))
    lightning_data.

(** Block 3, lightning activity; [now] is the value of [datetime.now()]. *)
Definition lightning_activity (cfg : Configuration) (lightning_data : list LightningData)
    (now : datetime) (score : Q) (reasons : list string) : option (Q * list string) :=
  match lightning_data with
  | [] => Some (score, reasons)
  | _ :: _ =>
      let nearby_strikes := nearby_strikes_of cfg lightning_data now in
      if Z.of_nat (length nearby_strikes) >? LIGHTNING_DENSITY_THRESHOLD cfg
      then
        avg_distance ← Py.div (Py.sum (map distance_km nearby_strikes))
                              (Py.len nearby_strikes);
        Some ((score + 30)%Q,
              reasons ++
              ["⚡ LIGHTNING: Lightning approaching: "
               +:+ Py.str_of_N (N.of_nat (length nearby_strikes))
               +:+ " strikes, avg distance " +:+ Py.format_1f avg_distance +:+ "km"])
      else Some (score, reasons)
  end.

(** Block 4, thermal gradient. *)
Definition thermal_gradient (cfg : Configuration) (weather_data : list WeatherData)
    (score : Q) (reasons : list string) : Q * list string :=
  let coastal_temps :=
    map temperature
        (List.filter (fun d => String.eqb (station_type d) "coastal") weather_data) in
  let inland_temps :=
    map temperature
        (List.filter (fun d => String.eqb (station_type d) "inland") weather_data) in
  match coastal_temps, inland_temps with
  | _ :: _, _ :: _ =>
      let avg_coastal := (Py.sum coastal_temps / Py.len coastal_temps)%Q in
      let avg_inland := (Py.sum inland_temps / Py.len inland_temps)%Q in
      let gradient := Qabs (avg_inland - avg_coastal) in
      if Py.gt gradient (THERMAL_GRADIENT_THRESHOLD cfg)
      then ((score + 15)%Q,
            reasons ++
            ["🌡️ THERMAL: High thermal gradient: " +:+ Py.format_1f gradient
             +:+ "°C difference (Inland: " +:+ Py.format_1f avg_inland
             +:+ "°C, Coastal: " +:+ Py.format_1f avg_coastal +:+ "°C)"])
      else (score, reasons)
  | _, _ => (score, reasons)
  end.

(** The level assignment; CRITICAL from Bora is kept. *)
Definition determine_alert_level (alert_level : string) (score : Q) : string :=
  if negb (String.eqb alert_level "CRITICAL") then
    if Py.gt score 70 then "HIGH"
    else if Py.gt score 40 then "MEDIUM"
    else if Py.gt score 20 then "LOW"
    else alert_level
  else alert_level.

(** The local variables of [calculate_enhanced_alerts]. *)
Record AlertLocals := {
  score : Q;
  reasons : list string;
  alert_level : string;
  bora_detected : bool
}.

(** The body of [calculate_enhanced_alerts] up to the level assignment: the
    locals just before [final_score = min(score, 100)].  [now] is the value
    of [datetime.now()] read by the lightning block. *)
Definition alert_locals (cfg : Configuration)
    (weather_data : list WeatherData) (marine_data : list MarineData)
    (lightning_data : list LightningData) (now : datetime) : option AlertLocals :=
  let score := 0%Q in
  let reasons : list string := [] in
  let alert_level := "LOW" in
  (* 1. Bora detection *)
  let '(bora_detected, bora_reason) := check_bora_pattern cfg weather_data in
  let '(score, reasons, alert_level) :=
    if bora_detected
    then ((score + 60)%Q, reasons ++ ["🌪️ BORA: " +:+ bora_reason], "CRITICAL")
    else (score, reasons, alert_level) in
  (* 2. Marine conditions *)
  let '(score, reasons) := marine_conditions cfg marine_data score reasons in
  (* 3. Lightning activity *)
  '(score, reasons) ← lightning_activity cfg lightning_data now score reasons;
  (* 4. Thermal gradient *)
  let '(score, reasons) := thermal_gradient cfg weather_data score reasons in
  (* 5. Traditional weather patterns *)
  let traditional_score := _calculate_traditional_patterns cfg weather_data in
  let score := (score + traditional_score)%Q in
  let alert_level := determine_alert_level alert_level score in
  Some {| score := score; reasons := reasons;
          alert_level := alert_level; bora_detected := bora_detected |}.

(** [calculate_enhanced_alerts]: [(final_score, reasons, alert_level)] *)
Definition calculate_enhanced_alerts (cfg : Configuration)
    (weather_data : list WeatherData) (marine_data : list MarineData)
    (lightning_data : list LightningData) (now : datetime)
  : option (Q * list string * string) :=
  locals ← alert_locals cfg weather_data marine_data lightning_data now;
  let final_score := Py.min (score locals) 100 in
  Some (final_score, reasons locals, alert_level locals).

(** The ETA that [calculate_enhanced_alerts] computes for its log line, from
    its own reasons and Bora flag. *)
Definition calculated_eta (cfg : Configuration)
    (weather_data : list WeatherData) (marine_data : list MarineData)
    (lightning_data : list LightningData) (now : datetime) : option string :=
  locals ← alert_locals cfg weather_data marine_data lightning_data now;
  Some (get_enhanced_eta (reasons locals) (bora_detected locals)).

(** ** notifiers.py *)

(** The object [TelegramNotifier].  [chat_id] is kept as text: whether it is
    sent as a JSON number or a JSON string does not reach the gate. *)
Record TelegramNotifier := {
  bot_token : string;
  chat_id : string;
  last_alert_time : option datetime;
  last_alert_score : Q;
  min_alert_level : string
}.

(** [__init__] *)
Definition new_notifier (bot_token chat_id min_alert_level : string) : TelegramNotifier := {|
  bot_token := bot_token;
  chat_id := chat_id;
  last_alert_time := None;
  last_alert_score := 0;
  min_alert_level := Py.upper min_alert_level
|}.

(** [self.last_alert_time = t] and [self.last_alert_score = s] *)
Definition set_last_alert_time (self : TelegramNotifier) (t : datetime) : TelegramNotifier := {|
  bot_token := bot_token self;
  chat_id := chat_id self;
  last_alert_time := Some t;
  last_alert_score := last_alert_score self;
  min_alert_level := min_alert_level self
|}.

Definition set_last_alert_score (self : TelegramNotifier) (s : Q) : TelegramNotifier := {|
  bot_token := bot_token self;
  chat_id := chat_id self;
  last_alert_time := last_alert_time self;
  last_alert_score := s;
  min_alert_level := min_alert_level self
|}.

(** [self.alert_levels] *)
Definition alert_levels : gmap string Z :=
  <["LOW" := 1]> (<["MEDIUM" := 2]> (<["HIGH" := 3]> (<["CRITICAL" := 4]> ∅))).

(** [self.last_alert_time is None or now - self.last_alert_time > delta] *)
Definition no_alert_within (self : TelegramNotifier) (now : datetime) (delta : Z) : bool :=
  match last_alert_time self with
  | None => true
  | Some t => now - t >? delta
  end.

(** [should_send_alert]; [now] is the value of [datetime.now()] read on
    entry.  The function reads [self] and returns a verdict: it has no
    assignment to [self]. *)
Definition should_send_alert (self : TelegramNotifier) (now : datetime)
    (score : Q) (alert_level : string) : bool :=
  let current_level_value := default 0 (alert_levels !! Py.upper alert_level) in
  let min_level_value := default 2 (alert_levels !! min_alert_level self) in
  if current_level_value <? min_level_value then false
  else if String.eqb alert_level "CRITICAL" then true
  else if String.eqb alert_level "HIGH" && Py.gt score 60
          && no_alert_within self now (timedelta_minutes 20) then true
  else if String.eqb alert_level "MEDIUM" && Py.gt score 40
          && no_alert_within self now (timedelta_minutes 45) then true
  else if String.eqb alert_level "LOW" && Py.gt score 20
          && no_alert_within self now (timedelta_hours 2) then true
  else if Py.gt score (last_alert_score self + 25) then true
  else false.

(** *** The transport seen by [send_message] *)

(** The JSON document of [sendMessage]. *)
Record Payload := {
  p_chat_id : string;
  p_text : string;
  p_parse_mode : option string
}.

(** What [send_message] reads of a [requests.Response]: the status code, the
    [content-type] header (empty when absent) and the outcome of
    [response.json()] followed by [.get("description", ...)]: [None] when
    either raises, [Some d] for an object whose optional description is [d]. *)
Record Response := {
  status_code : Z;
  content_type : string;
  json_description : option (option string)
}.

(** A call of [requests.post] raises or returns a response. *)
Inductive PostResult :=
  | PostRaises
  | PostReturns (response : Response).

(** The transport: the result of the [n]-th call of [requests.post] made by
    one [send_message], for the URL and the document it is given. *)
Definition Transport := nat -> string -> Payload -> PostResult.

(** [_strip_markdown] *)
Definition _strip_markdown (text : string) : string :=
  let text := Py.remove_char "`" (Py.remove_char "_" (Py.remove_char "*" text)) in
  Py.remove_char ")" (Py.remove_char "(" (Py.remove_char "]" (Py.remove_char "[" text))).

(** [response.raise_for_status()] raises for the 4xx and 5xx codes. *)
Definition raises_for_status (response : Response) : bool :=
  (400 <=? status_code response) && (status_code response <? 600).

(** The [try] block of [send_message] up to [raise_for_status], in the
    exception monad: [None] is a raised exception, [Some tt] a delivery the
    transport accepted. *)
Definition post_message (self : TelegramNotifier) (post : Transport) (message : string)
  : option unit :=
  let message :=
    if (4096 <? String.length message)%nat
    then Py.str_take 4090 message +:+ "..." else message in
  let url := "https://api.telegram.org/bot" +:+ bot_token self +:+ "/sendMessage" in
  let payload := {| p_chat_id := chat_id self; p_text := message;
                    p_parse_mode := Some "Markdown" |} in
  let call n doc := match post n url doc with
                    | PostRaises => None
                    | PostReturns r => Some r
                    end in
  response ← call 0%nat payload;
  response ←
    (if status_code response =? 400 then
       error_data ←
         (if String.prefix "application/json" (content_type response)
          then json_description response else Some None);
       let error_description := default "Bad Request" error_data in
       if Py.str_in "parse" (Py.lower error_description)
          || Py.str_in "markdown" (Py.lower error_description)
       then
         let payload_plain := {| p_chat_id := chat_id self;
                                 p_text := _strip_markdown message;
                                 p_parse_mode := None |} in
         call 1%nat payload_plain
       else Some response
     else Some response);
  if raises_for_status response then None else Some tt.

(** [send_message]: the verdict and the notifier afterwards.  Both [except]
    branches return [False] and assign nothing; [now] is the value of
    [datetime.now()] read after an accepted delivery. *)
Definition send_message (self : TelegramNotifier) (post : Transport)
    (now : datetime) (message : string) : bool * TelegramNotifier :=
  match post_message self post message with
  | Some tt => (true, set_last_alert_time self now)
  | None => (false, self)
  end.

(** *** The message text *)

(** The civil date of a day number counted from 0001-01-01 (day 0), in the
    proleptic Gregorian calendar of [datetime]: (year, month, day). *)
Definition civil_from_days (days : Z) : Z * Z * Z :=
  let z := days + 306 in
  let era := z / 146097 in
  let doe := z - era * 146097 in
  let yoe := (doe - doe / 1460 + doe / 36524 - doe / 146096) / 365 in
  let doy := doe - (365 * yoe + yoe / 4 - yoe / 100) in
  let mp := (5 * doy + 2) / 153 in
  let d := doy - (153 * mp + 2) / 5 + 1 in
  let m := if mp <? 10 then mp + 3 else mp - 9 in
  let y := yoe + era * 400 + (if m <=? 2 then 1 else 0) in
  (y, m, d).

Definition two_digits (n : Z) : string :=
  (if n <? 10 then "0" else "") +:+ Py.str_of_N (Z.to_N n).

(** [now.strftime('%H:%M - %d/%m/%Y')] *)
Definition strftime_HM_dmY (now : datetime) : string :=
  let seconds := now / 1000000 in
  let days := seconds / 86400 in
  let second_of_day := seconds mod 86400 in
  let '(y, m, d) := civil_from_days days in
  two_digits (second_of_day / 3600) +:+ ":" +:+ two_digits (second_of_day mod 3600 / 60)
  +:+ " - " +:+ two_digits d +:+ "/" +:+ two_digits m +:+ "/" +:+ Py.str_of_N (Z.to_N y).

Definition level_icons : gmap string string :=
  <["CRITICAL" := "🚨🚨🚨 CRITICAL ALERT"]>
  (<["HIGH" := "🚨 HIGH ALERT"]>
  (<["MEDIUM" := "⚠️ MEDIUM ALERT"]>
  (<["LOW" := "ℹ️ LOW ALERT"]> ∅))).

Definition newline : string := String (ascii_of_nat 10) EmptyString.

(** [format_enhanced_message] *)
Definition format_enhanced_message (score : Q) (reasons : list string)
    (alert_level eta : string) (now : datetime) : string :=
  let message :=
    "*" +:+ default "📊 ALERT" (level_icons !! alert_level)
    +:+ " - Falconara Marittima*" +:+ newline in
  let message := message +:+ "*Risk Score:* " +:+ Py.format_0f score +:+ "%" +:+ newline in
  let message := message +:+ "*Estimated Arrival:* " +:+ eta +:+ newline +:+ newline in
  let message :=
    match reasons with
    | [] => message
    | _ :: _ =>
        fold_left
          (fun message reason =>
             let safe_reason :=
               Py.remove_char "`" (Py.remove_char "_" (Py.remove_char "*" reason)) in
             message +:+ "• " +:+ safe_reason +:+ newline)
          (take 6 reasons)
          (message +:+ "*⚡ Active Conditions:*" +:+ newline)
    end in
  let message :=
    if String.eqb alert_level "CRITICAL"
    then message +:+ newline +:+ "*🚨 IMMEDIATE ACTION REQUIRED:*" +:+ newline
         +:+ "• Secure all outdoor items NOW" +:+ newline
         +:+ "• Avoid coastal areas" +:+ newline
         +:+ "• Check mooring lines" +:+ newline
    else message in
  message +:+ newline +:+ "*🕐 Time:* " +:+ strftime_HM_dmY now.

(** ** main.py *)

(** The object [EnhancedWeatherAlertSystem], without its fetcher. *)
Record EnhancedWeatherAlertSystem := {
  sys_config : Configuration;
  calculator : EnhancedAlertCalculator;
  notifier : TelegramNotifier
}.

(** [__init__]; the two credentials come from the environment. *)
Definition new_system (cfg : Configuration) (bot_token chat_id : string)
  : EnhancedWeatherAlertSystem := {|
  sys_config := cfg;
  calculator := new_calculator cfg;
  notifier := new_notifier bot_token chat_id (MIN_ALERT_LEVEL cfg)
|}.

(** The values [datetime.now()] takes at its five calls of one cycle. *)
Record Clock := {
  now_store : datetime;
  now_calculate : datetime;
  now_gate : datetime;
  now_format : datetime;
  now_sent : datetime
}.

(** The text built under [if self.notifier.should_send_alert(...)]. *)
Definition alert_message (clock : Clock) (score : Q) (reasons : list string)
    (alert_level : string) : string :=
  let bora_detected := existsb (Py.str_in "BORA") reasons in
  let eta := get_enhanced_eta reasons bora_detected in
  format_enhanced_message score reasons alert_level eta (now_format clock).

(** The block under [if self.notifier.should_send_alert(score, alert_level)]:
    the message is built and sent, and the score is recorded when
    [send_message] returns [True]. *)
Definition deliver_alert (self : TelegramNotifier) (post : Transport) (clock : Clock)
    (score : Q) (reasons : list string) (alert_level : string) : TelegramNotifier :=
  let message := alert_message clock score reasons alert_level in
  let '(sent, self) := send_message self post (now_sent clock) message in
  if sent then set_last_alert_score self score else self.

(** [run_enhanced_check]; the three lists are what [fetch_all_data] returned.
    The result is the system afterwards, and whether the call returned or
    let an exception of the calculator through (the store was then already
    updated). *)
Inductive Outcome := Returned | Raised.

Definition run_enhanced_check (self : EnhancedWeatherAlertSystem)
    (weather_data : list WeatherData) (marine_data : list MarineData)
    (lightning_data : list LightningData) (post : Transport) (clock : Clock)
  : Outcome * EnhancedWeatherAlertSystem :=
  match weather_data with
  | [] => (Returned, self)
  | _ :: _ =>
      let calculator :=
        store_data (calculator self) weather_data marine_data lightning_data
                   (now_store clock) in
      match calculate_enhanced_alerts (config calculator) weather_data marine_data
                                      lightning_data (now_calculate clock) with
      | None =>
          (Raised, {| sys_config := sys_config self; calculator := calculator;
                      notifier := notifier self |})
      | Some (score, reasons, alert_level) =>
          let notifier :=
            if should_send_alert (notifier self) (now_gate clock) score alert_level
            then deliver_alert (notifier self) post clock score reasons alert_level
            else notifier self in
          (Returned, {| sys_config := sys_config self; calculator := calculator;
                        notifier := notifier |})
      end
  end.

(** ** The vocabulary of the specification *)

(** The severity levels, their names and their ordinals
    [{LOW:1, MEDIUM:2, HIGH:3, CRITICAL:4}]. *)
Inductive Level := LOW | MEDIUM | HIGH | CRITICAL.

Definition level_name (l : Level) : string :=
  match l with
  | LOW => "LOW"
  | MEDIUM => "MEDIUM"
  | HIGH => "HIGH"
  | CRITICAL => "CRITICAL"
  end.

Definition ordinal (l : Level) : Z :=
  match l with
  | LOW => 1
  | MEDIUM => 2
  | HIGH => 3
  | CRITICAL => 4
  end.

(** A notifier that last notified at [t] with score [s]. *)
Definition notified (min_level : string) (t : datetime) (s : Q) : TelegramNotifier :=
  set_last_alert_score (set_last_alert_time (new_notifier "token" "chat" min_level) t) s.

(** A transport that is down: every call of [requests.post] raises. *)
Definition transport_down : Transport := fun _ _ _ => PostRaises.

(** A transport that answers every call with the given status code. *)
Definition transport_status (code : Z) : Transport :=
  fun _ _ _ => PostReturns {| status_code := code; content_type := "";
                              json_description := None |}.

Definition noon : Clock := {|
  now_store := 43200000000; now_calculate := 43200000001; now_gate := 43200000002;
  now_format := 43200000003; now_sent := 43200000004
|}.

(** The retention horizon of a store operation performed at [now]. *)
Definition horizon (self : EnhancedAlertCalculator) (now : datetime) : Z :=
  now - timedelta_hours (DATA_RETENTION_HOURS (config self)).

(** Every reading retained in the three streams is strictly newer than [h]. *)
Definition retained_after (self : EnhancedAlertCalculator) (h : Z) : Prop :=
  (forall name readings d,
      historical_weather self !! name = Some readings -> d ∈ readings -> h < w_timestamp d)
  /\ (forall name readings d,
      historical_marine self !! name = Some readings -> d ∈ readings -> h < m_timestamp d)
  /\ (forall d, d ∈ historical_lightning self -> h < l_timestamp d).

Definition weather_at (name : string) (t : datetime) : WeatherData := {|
  station_name := name; w_timestamp := t; temperature := 15; pressure := 1013;
  humidity := 60; wind_speed := 10; wind_direction := 180; visibility := None;
  weather_main := "Clear"; station_type := "coastal"
|}.

(** The two station subsets of the Bora detector, by name. *)
Definition is_reference (d : WeatherData) : Prop :=
  station_name d = "Trieste" \/ station_name d = "Nova_Gorica" \/ station_name d = "Rijeka".

Definition is_local (d : WeatherData) : Prop :=
  station_name d = "Ancona" \/ station_name d = "Falconara".

Definition reference_subset (weather_data : list WeatherData) : list WeatherData :=
  List.filter (fun d => bool_decide (is_reference d)) weather_data.

Definition local_subset (weather_data : list WeatherData) : list WeatherData :=
  List.filter (fun d => bool_decide (is_local d)) weather_data.

(** The arithmetic mean and the maximum of a list of readings. *)
Definition mean (xs : list Q) : Q :=
  (fold_right Qplus 0 xs / inject_Z (Z.of_nat (length xs)))%Q.

Definition is_maximum (m : Q) (xs : list Q) : Prop :=
  In m xs /\ forall x, In x xs -> (x <= m)%Q.

(** The conditions of the Bora pattern, as the specification lists them. *)
Definition bora_conditions (cfg : Configuration) (weather_data : list WeatherData) : Prop :=
  reference_subset weather_data <> []
  /\ local_subset weather_data <> []
  /\ (BORA_PRESSURE_DIFF_THRESHOLD cfg
      < mean (map pressure (reference_subset weather_data))
        - mean (map pressure (local_subset weather_data)))%Q
  /\ (exists m, is_maximum m (map wind_speed (reference_subset weather_data))
                /\ (BORA_WIND_THRESHOLD cfg < m)%Q)
  /\ (exists s, In s (reference_subset weather_data)
                /\ (30 < wind_speed s)%Q
                /\ (0 <= wind_direction s)%Q /\ (wind_direction s <= 90)%Q).

Definition station (name : string) (p ws wdir t hum : Q) (kind main : string)
  : WeatherData := {|
  station_name := name; w_timestamp := 0; temperature := t; pressure := p;
  humidity := hum; wind_speed := ws; wind_direction := wdir; visibility := None;
  weather_main := main; station_type := kind
|}.

(** Trieste under Bora, Ancona calm. *)
Definition bora_day : list WeatherData :=
  [station "Trieste" 1025 50 45 10 70 "coastal" "Clear";
   station "Ancona" 1010 20 100 18 50 "coastal" "Clear"].

(** *** The score, bucket by bucket *)

#[global] Instance Qlt_decision (x y : Q) : Decision (x < y)%Q.
Proof.
  destruct (Qlt_le_dec x y) as [H | H]; [left; exact H | right].
  intros Hlt. exact (Qlt_not_le _ _ Hlt H).
Defined.

(** A marine reading is flagged when its wave period is below, or its wave
    height above, the threshold; its fragments are the texts it contributes. *)
Definition marine_flagged (cfg : Configuration) (d : MarineData) : Prop :=
  (wave_period d < WAVE_PERIOD_THRESHOLD cfg)%Q
  \/ (WAVE_HEIGHT_THRESHOLD cfg < wave_height d)%Q.

Definition marine_fragments (cfg : Configuration) (d : MarineData) : list string :=
  (if Py.lt (wave_period d) (WAVE_PERIOD_THRESHOLD cfg)
   then [location d +:+ ": Short wave period " +:+ Py.format_1f (wave_period d) +:+ "s"]
   else [])
  ++
  (if Py.gt (wave_height d) (WAVE_HEIGHT_THRESHOLD cfg)
   then [location d +:+ ": High waves " +:+ Py.format_1f (wave_height d) +:+ "m"]
   else []).

(** The one marine reason of a call with a flagged reading. *)
Definition marine_reason (cfg : Configuration) (marine_data : list MarineData) : string :=
  "🌊 MARINE: " +:+ Py.join "; " (flat_map (marine_fragments cfg) marine_data).

Definition bora_points (cfg : Configuration) (weather_data : list WeatherData) : Q :=
  if fst (check_bora_pattern cfg weather_data) then 60 else 0.

Definition marine_points (cfg : Configuration) (marine_data : list MarineData) : Q :=
  if bool_decide (Exists (marine_flagged cfg) marine_data) then 25 else 0.

Definition lightning_points (cfg : Configuration) (lightning_data : list LightningData)
    (now : datetime) : Q :=
  if bool_decide (LIGHTNING_DENSITY_THRESHOLD cfg
                  < Z.of_nat (length (nearby_strikes_of cfg lightning_data now)))
  then 30 else 0.

Definition temperatures_of (kind : string) (weather_data : list WeatherData) : list Q :=
  map temperature
      (List.filter (fun d => bool_decide (station_type d = kind)) weather_data).

Definition thermal_points (cfg : Configuration) (weather_data : list WeatherData) : Q :=
  match temperatures_of "coastal" weather_data, temperatures_of "inland" weather_data with
  | _ :: _, _ :: _ =>
      if bool_decide (THERMAL_GRADIENT_THRESHOLD cfg
                      < Qabs (mean (temperatures_of "inland" weather_data)
                              - mean (temperatures_of "coastal" weather_data)))%Q
      then 15 else 0
  | _, _ => 0
  end.

(** The points of one weather reading in the per-station bucket. *)
Definition station_points (cfg : Configuration) (d : WeatherData) : Q :=
  (if Py.gt (wind_speed d) (HIGH_WIND_THRESHOLD cfg) then 10 else 0)
  + (if Py.str_in_list (weather_main d) ["Thunderstorm"; "Rain"] then 15 else 0)
  + (if Py.gt (humidity d) 85 then 5 else 0).

(** A configuration whose lightning density threshold is not negative, as
    a count of strikes is. *)
Definition sane (cfg : Configuration) : Prop := 0 <= LIGHTNING_DENSITY_THRESHOLD cfg.

(** The raw additive sum of the five buckets. *)
Definition raw_sum (cfg : Configuration)
    (weather_data : list WeatherData) (marine_data : list MarineData)
    (lightning_data : list LightningData) (now : datetime) : Q :=
  bora_points cfg weather_data
  + marine_points cfg marine_data
  + lightning_points cfg lightning_data now
  + thermal_points cfg weather_data
  + fold_right (fun d total => (station_points cfg d + total)%Q) 0%Q weather_data.

(** The reasons of each block, in the order the engine appends them. *)
Definition bora_reasons (cfg : Configuration) (weather_data : list WeatherData)
  : list string :=
  if fst (check_bora_pattern cfg weather_data)
  then ["🌪️ BORA: " +:+ snd (check_bora_pattern cfg weather_data)] else [].

Definition marine_reasons (cfg : Configuration) (marine_data : list MarineData)
  : list string :=
  if bool_decide (Exists (marine_flagged cfg) marine_data)
  then [marine_reason cfg marine_data] else [].

Definition lightning_reasons (cfg : Configuration) (lightning_data : list LightningData)
    (now : datetime) : list string :=
  match lightning_activity cfg lightning_data now 0 [] with
  | Some (_, added) => added
  | None => []
  end.

Definition thermal_reasons (cfg : Configuration) (weather_data : list WeatherData)
  : list string :=
  snd (thermal_gradient cfg weather_data 0 []).

(** A cycle in which every bucket fires: Bora over Trieste, a warm inland
    station, rain and wind, a rough sea and eleven strikes 50 km away. *)
Definition storm_weather : list WeatherData :=
  [station "Trieste" 1025 50 45 10 90 "coastal" "Rain";
   station "Ancona" 1010 40 100 12 90 "coastal" "Thunderstorm";
   station "Foligno" 1008 20 200 25 50 "inland" "Clear"].

Definition rough_sea : list MarineData :=
  [{| m_timestamp := 0; wave_height := 3; wave_period := 3; wave_direction := 45;
      sea_temperature := 16; location := "Falconara_Offshore" |};
   {| m_timestamp := 0; wave_height := 5 # 2; wave_period := 6; wave_direction := 45;
      sea_temperature := 16; location := "Ancona_Bay" |}].

Definition eleven_strikes : list LightningData :=
  repeat {| l_timestamp := 0; lat := 43; lon := 13; distance_km := 50; intensity := 1 |}
         11.

(** Five minutes after the strikes of [eleven_strikes]. *)
Definition just_now : datetime := timedelta_minutes 5.

(** *** Texts without the initials of Gubbio and Fabriano *)

Fixpoint mentions_char (c : ascii) (s : string) : bool :=
  match s with
  | EmptyString => false
  | String a s' => Ascii.eqb a c || mentions_char c s'
  end.

(** A text with neither a capital G nor a capital F. *)
Definition plain (s : string) : bool :=
  negb (mentions_char "G" s) && negb (mentions_char "F" s).

(** A reason that carries the tag LIGHTNING or MARINE, or is plain. *)
Definition tagged_or_plain (reason : string) : Prop :=
  Py.str_in "LIGHTNING" reason = true
  \/ Py.str_in "MARINE" reason = true
  \/ plain reason = true.

(** The cooldown and the score threshold of each level in the gate. *)
Definition cooldown (l : Level) : Z :=
  match l with
  | LOW => timedelta_hours 2
  | MEDIUM => timedelta_minutes 45
  | HIGH => timedelta_minutes 20
  | CRITICAL => 0
  end.

Definition score_threshold (l : Level) : Q :=
  match l with
  | LOW => 20
  | MEDIUM => 40
  | HIGH => 60
  | CRITICAL => 0
  end.

(** A configuration with a negative density threshold, and one far strike. *)
Definition negative_density : Configuration := {|
  BORA_PRESSURE_DIFF_THRESHOLD := 10;
  BORA_WIND_THRESHOLD := 40;
  HIGH_WIND_THRESHOLD := 35;
  WAVE_HEIGHT_THRESHOLD := 2;
  WAVE_PERIOD_THRESHOLD := 4;
  LIGHTNING_DENSITY_THRESHOLD := -1;
  LIGHTNING_APPROACH_DISTANCE := 100;
  THERMAL_GRADIENT_THRESHOLD := 8;
  MIN_ALERT_LEVEL := "MEDIUM";
  DATA_RETENTION_HOURS := 12
|}.

Definition far_strike : LightningData :=
  {| l_timestamp := 0; lat := 45; lon := 10; distance_km := 400; intensity := 1 |}.

Definition close_strike : LightningData :=
  {| l_timestamp := 0; lat := 43; lon := 13; distance_km := 50; intensity := 1 |}.

(** 2024-01-15 14:30:00, in microseconds since 0001-01-01. *)
Definition jan_15_2024_14_30 : datetime :=
  (738899 * 86400 + 14 * 3600 + 30 * 60) * 1000000.

(** ** Further vocabulary *)

(** [self.min_alert_level = name] *)
Definition set_min_alert_level (self : TelegramNotifier) (name : string)
  : TelegramNotifier := {|
  bot_token := bot_token self;
  chat_id := chat_id self;
  last_alert_time := last_alert_time self;
  last_alert_score := last_alert_score self;
  min_alert_level := name
|}.

(** The floor test of the gate passes. *)
Definition clears_floor (self : TelegramNotifier) (alert_level : string) : Prop :=
  default 2 (alert_levels !! min_alert_level self)
  <= default 0 (alert_levels !! Py.upper alert_level).

(** The characters that [_strip_markdown] removes. *)
Definition markdown_chars : list ascii :=
  ["*"; "_"; "`"; "["; "]"; "("; ")"]%char.

Definition has_markdown (text : string) : bool :=
  existsb (fun c => mentions_char c text) markdown_chars.

(** A transport that refuses what [send_message] is not expected to send: a
    second call whose document still asks for Markdown or carries one of the
    Markdown characters, and every call after the second. *)
Definition plain_retry_only (post : Transport) : Transport :=
  fun n url doc =>
    match n with
    | O => post O url doc
    | S O =>
        match p_parse_mode doc with
        | None => if has_markdown (p_text doc) then PostRaises else post 1%nat url doc
        | Some _ => PostRaises
        end
    | _ => PostRaises
    end.

(** The first answer of the transport is a 400 whose description, as
    [send_message] reads it, mentions neither "parse" nor "markdown". *)
Definition plain_bad_request (response : Response) : Prop :=
  status_code response = 400
  /\ exists description,
       (if String.prefix "application/json" (content_type response)
        then json_description response else Some None) = Some description
       /\ Py.str_in "parse" (Py.lower (default "Bad Request" description)) = false
       /\ Py.str_in "markdown" (Py.lower (default "Bad Request" description)) = false.

(** A transport whose first answer is fixed, and one that accepts a plain
    retry after rejecting the markup. *)
Definition transport_first (response : Response) : Transport :=
  fun n _ _ =>
    match n with
    | O => PostReturns response
    | _ => PostReturns {| status_code := 200; content_type := "";
                          json_description := None |}
    end.

Definition chat_not_found : Response := {|
  status_code := 400; content_type := "application/json";
  json_description := Some (Some "Bad Request: chat not found")
|}.

Definition cannot_parse : Response := {|
  status_code := 400; content_type := "application/json";
  json_description := Some (Some "Bad Request: can't parse entities")
|}.

(** The characters of [s] that satisfy [keep], in order. *)
Fixpoint str_filter (keep : ascii -> bool) (s : string) : string :=
  match s with
  | EmptyString => EmptyString
  | String a s' => if keep a then String a (str_filter keep s') else str_filter keep s'
  end.

Definition is_markdown_char (c : ascii) : bool :=
  existsb (Ascii.eqb c) markdown_chars.

(** A reading of one of the five stations the Bora detector names. *)
Definition bora_station (d : WeatherData) : Prop := is_reference d \/ is_local d.

(** A notifier that has not notified yet. *)
Definition fresh_notifier (min_level : string) : TelegramNotifier :=
  new_notifier "token" "chat" min_level.

(** A rainy, windy day without Bora: three stations at 30 points each. *)
Definition rainy_day : list WeatherData :=
  [station "Pesaro" 1012 40 200 15 90 "coastal" "Rain";
   station "Fano" 1012 40 200 15 90 "coastal" "Rain";
   station "Rimini" 1012 40 200 15 90 "coastal" "Rain"].

(** *** Substring search across a concatenation *)

(** [needle] and [t] differ at a position both have. *)
Fixpoint mismatch (needle t : string) : bool :=
  match needle, t with
  | String x needle', String y t' =>
      if Ascii.eqb x y then mismatch needle' t' else true
  | _, _ => false
  end.

(** No occurrence of [needle] starts inside [a], whatever follows [a]. *)
Fixpoint clear_of (needle a : string) : bool :=
  match a with
  | EmptyString => true
  | String _ a' => mismatch needle a && clear_of needle a'
  end.

Fixpoint all_chars (p : ascii -> bool) (s : string) : bool :=
  match s with
  | EmptyString => true
  | String a s' => p a && all_chars p s'
  end.

(** The characters of a formatted number. *)
Definition is_number_char (c : ascii) : bool := mentions_char c "0123456789-.".

(** The ETA bucket as the detectors decide it. *)
Definition eta_of_detectors (cfg : Configuration) (weather_data : list WeatherData)
    (marine_data : list MarineData) (lightning_data : list LightningData)
    (now : datetime) : string :=
  if fst (check_bora_pattern cfg weather_data)
  then "15-45 minutes (BORA - IMMEDIATE DANGER)"
  else if bool_decide (LIGHTNING_DENSITY_THRESHOLD cfg
                       < Z.of_nat (length (nearby_strikes_of cfg lightning_data now)))
       then "30-60 minutes"
  else if bool_decide (Exists (marine_flagged cfg) marine_data) then "45-90 minutes"
  else "2-3 hours".

(** What the marine reason needs of a needle for its occurrences to lie
    within the location names: the needle starts with no character of a
    number, has no colon, and starts nowhere in the fixed texts. *)
Definition marine_safe (needle : string) : bool :=
  match needle with
  | EmptyString => false
  | String c _ =>
      negb (is_number_char c) && negb (mentions_char ":" needle)
      && clear_of needle "🌊 MARINE: "
      && clear_of needle ": Short wave period " && clear_of needle ": High waves "
      && clear_of needle "s" && clear_of needle "m" && clear_of needle "; "
  end.

(** The same for the thermal reason, which has no free text. *)
Definition thermal_safe (needle : string) : bool :=
  match needle with
  | EmptyString => false
  | String c _ =>
      negb (is_number_char c)
      && clear_of needle "🌡️ THERMAL: High thermal gradient: "
      && clear_of needle "°C difference (Inland: "
      && clear_of needle "°C, Coastal: "
      && negb (Py.str_in needle "°C)")
  end.

(** A sea that is rough at a point named after the wind. *)
Definition bora_bay : list MarineData :=
  [{| m_timestamp := 0; wave_height := 3; wave_period := 6; wave_direction := 45;
      sea_temperature := 16; location := "BORA_Bay" |}].

(** The ETA that [run_enhanced_check] writes in the message: the Bora flag
    is read back from the reasons. *)
Definition message_eta (reasons : list string) : string :=
  get_enhanced_eta reasons (existsb (Py.str_in "BORA") reasons).

(** The readings of a batch that go under one key, in their order. *)
Definition readings_of {A : Type} (key : A -> string) (name : string) (batch : list A)
  : list A :=
  List.filter (fun d => String.eqb (key d) name) batch.

(** A transport that accepts the first call. *)
Definition transport_ok : Transport := transport_status 200.

(** ** fetchers.py *)

(** A parsed JSON document, as [response.json()] returns it: [None],
    [bool], number, [str], [list], and [dict] given by its items (each key
    once). *)
#[warnings="-register-all"]
Inductive json :=
  | JNull
  | JBool (b : bool)
  | JNum (x : Q)
  | JStr (s : string)
  | JArr (items : list json)
  | JObj (members : list (string * json)).

Module Json.

Fixpoint lookup (key : string) (members : list (string * json)) : option json :=
  match members with
  | [] => None
  | (k, v) :: rest => if String.eqb k key then Some v else lookup key rest
  end.

(** [v[key]] for a string key: [KeyError] on a dict without the key,
    [TypeError] on anything but a dict. *)
Definition getitem (v : json) (key : string) : option json :=
  match v with
  | JObj members => lookup key members
  | _ => None
  end.

(** [v.get(key, fallback)]: [AttributeError] on anything but a dict. *)
Definition get (v : json) (key : string) (fallback : json) : option json :=
  match v with
  | JObj members => Some (default fallback (lookup key members))
  | _ => None
  end.

(** A continuation byte of UTF-8. *)
Definition is_continuation (a : ascii) : bool :=
  ((128 <=? nat_of_ascii a) && (nat_of_ascii a <? 192))%nat.

(** The code points of a text: each leading byte with the continuation
    bytes that follow it.  The first component holds continuation bytes
    without a leading byte. *)
Fixpoint split_code_points (s : string) : string * list string :=
  match s with
  | EmptyString => (EmptyString, [])
  | String a s' =>
      let '(pending, points) := split_code_points s' in
      if is_continuation a then (String a pending, points)
      else (EmptyString, String a pending :: points)
  end.

Definition code_points (s : string) : list string := snd (split_code_points s).

(** [v[i]] for an index [i >= 0]: [IndexError] out of range, [KeyError] on
    a dict (its keys are strings), [TypeError] on a number, a bool or
    [None]. *)
Definition index (v : json) (i : nat) : option json :=
  match v with
  | JArr items => items !! i
  | JStr s => JStr <$> code_points s !! i
  | _ => None
  end.

(** The truth value of a document. *)
Definition truthy (v : json) : bool :=
  match v with
  | JNull => false
  | JBool b => b
  | JNum x => negb (Qeq_bool x 0)
  | JStr s => negb (String.eqb s "")
  | JArr items => match items with [] => false | _ :: _ => true end
  | JObj members => match members with [] => false | _ :: _ => true end
  end.

(** [v or fallback] *)
Definition or_else (v fallback : json) : json := if truthy v then v else fallback.

(** The value of a number or a bool; the other documents raise when
    multiplied by a float or formatted with [f]. *)
Definition number (v : json) : option Q :=
  match v with
  | JNum x => Some x
  | JBool b => Some (if b then 1 else 0)%Q
  | _ => None
  end.

End Json.

(** [WeatherStation] of models.py *)
Record WeatherStation := {
  ws_name : string;
  ws_lat : Q;
  ws_lon : Q;
  ws_distance_km : Q;
  ws_direction : string;
  ws_priority : Z;
  ws_station_type : string
}.

(** An item of [MARINE_POINTS]. *)
Record MarinePoint := {
  mp_name : string;
  mp_lat : Q;
  mp_lon : Q
}.

(** What a fetch returns: [None], a reading, or an object one of whose
    fields holds a document outside its annotated type (a text where a
    number is declared), for which the records above have no value. *)
Inductive Fetched (A : Type) :=
  | NoReading
  | Reading (a : A)
  | Untyped.

Arguments NoReading {A}.
Arguments Reading {A} a.
Arguments Untyped {A}.

(** [fetch_station_data].  [response] is the document of
    [requests.get(...).json()], [None] when the request,
    [raise_for_status] or the parsing raised; [now] is the value of
    [datetime.now()].  The two [Json.number] at the end are the [f]
    formats of the debug line, which are evaluated at every log level. *)
Definition fetch_station_data (station : WeatherStation) (response : option json)
    (now : datetime) : Fetched WeatherData :=
  let fields :=
    data ← response;
    main ← Json.getitem data "main";
    temp ← Json.getitem main "temp";
    press ← Json.getitem main "pressure";
    hum ← Json.getitem main "humidity";
    wind ← Json.getitem data "wind";
    speed ← Json.getitem wind "speed";
    speed_ms ← Json.number speed;
    deg ← Json.get wind "deg" (JNum 0);
    vis ← Json.get data "visibility" JNull;
    weather ← Json.getitem data "weather";
    first ← Json.index weather 0;
    main_text ← Json.getitem first "main";
    temperature ← Json.number temp;
    pressure ← Json.number press;
    Some (temperature, pressure, hum, (speed_ms * (36 # 10))%Q, deg, vis, main_text) in
  match fields with
  | None => NoReading
  | Some (temperature, pressure, hum, wind_speed, deg, vis, main_text) =>
      match Json.number hum, Json.number deg, main_text with
      | Some humidity, Some wind_direction, JStr weather_main =>
          match vis with
          | JNull =>
              Reading {| station_name := ws_name station; w_timestamp := now;
                         temperature := temperature; pressure := pressure;
                         humidity := humidity; wind_speed := wind_speed;
                         wind_direction := wind_direction; visibility := None;
                         weather_main := weather_main;
                         station_type := ws_station_type station |}
          | _ =>
              match Json.number vis with
              | Some visibility =>
                  Reading {| station_name := ws_name station; w_timestamp := now;
                             temperature := temperature; pressure := pressure;
                             humidity := humidity; wind_speed := wind_speed;
                             wind_direction := wind_direction;
                             visibility := Some visibility;
                             weather_main := weather_main;
                             station_type := ws_station_type station |}
              | None => Untyped
              end
          end
      | _, _, _ => Untyped
      end
  end.

(** [datetime.hour] *)
Definition hour_of (now : datetime) : nat := Z.to_nat ((now / 3600000000) mod 24).

(** [hourly.get(key, [fallback])[current_hour] or fallback] *)
Definition hourly_value (hourly : json) (key : string) (fallback : Q)
    (current_hour : nat) : option json :=
  series ← Json.get hourly key (JArr [JNum fallback]);
  v ← Json.index series current_hour;
  Some (Json.or_else v (JNum fallback)).

(** [fetch_marine_data]; [hour_now] and [now] are the two values of
    [datetime.now()], read for the hour and for the timestamp. *)
Definition fetch_marine_data (point : MarinePoint) (response : option json)
    (hour_now now : datetime) : Fetched MarineData :=
  let current_hour := hour_of hour_now in
  let fields :=
    data ← response;
    hourly ← Json.get data "hourly" (JObj []);
    height ← hourly_value hourly "wave_height" 0 current_hour;
    period ← hourly_value hourly "wave_period" 8 current_hour;
    direction ← hourly_value hourly "wave_direction" 0 current_hour;
    wave_height ← Json.number height;
    wave_period ← Json.number period;
    Some (wave_height, wave_period, direction) in
  match fields with
  | None => NoReading
  | Some (wave_height, wave_period, direction) =>
      match Json.number direction with
      | Some wave_direction =>
          Reading {| m_timestamp := now; wave_height := wave_height;
                     wave_period := wave_period; wave_direction := wave_direction;
                     sea_temperature := 20; location := mp_name point |}
      | None => Untyped
      end
  end.

(** [fetch_lightning_data]: the placeholder returns no strike. *)
Definition fetch_lightning_data (radius_km : Z) : list LightningData := [].

(** What the providers answer during one [fetch_all_data], by position in
    the list of stations and in the list of points, with the values of
    [datetime.now()] at each fetch. *)
Record Providers := {
  weather_response : nat -> option json;
  weather_now : nat -> datetime;
  marine_response : nat -> option json;
  marine_hour_now : nat -> datetime;
  marine_now : nat -> datetime
}.

(** [if data: out.append(data)] over the results; an instance of a
    dataclass is true.  [None] when one of the objects is [Untyped]. *)
Fixpoint collect {A : Type} (results : list (Fetched A)) : option (list A) :=
  match results with
  | [] => Some []
  | NoReading :: rest => collect rest
  | Reading a :: rest => cons a <$> collect rest
  | Untyped :: _ => None
  end.

(** [fetch_all_data] *)
Definition fetch_all_data (stations : list WeatherStation) (marine_points : list MarinePoint)
    (providers : Providers)
  : option (list WeatherData * list MarineData * list LightningData) :=
  weather_data ←
    collect (imap (fun i station =>
                     fetch_station_data station (weather_response providers i)
                                        (weather_now providers i))
                  stations);
  marine_data ←
    collect (imap (fun i point =>
                     fetch_marine_data point (marine_response providers i)
                                       (marine_hour_now providers i)
                                       (marine_now providers i))
                  marine_points);
  let lightning_data := fetch_lightning_data 100 in
  Some (weather_data, marine_data, lightning_data).

(** ** config.py: the stations and the marine points *)

Definition STATIONS : list WeatherStation := [
  {| ws_name := "Trieste"; ws_lat := 45.6469; ws_lon := 13.7780; ws_distance_km := 150;
     ws_direction := "NE"; ws_priority := 1; ws_station_type := "coastal" |};
  {| ws_name := "Nova_Gorica"; ws_lat := 45.9564; ws_lon := 13.6581; ws_distance_km := 140;
     ws_direction := "NE"; ws_priority := 1; ws_station_type := "mountain" |};
  {| ws_name := "Rijeka"; ws_lat := 45.3431; ws_lon := 14.4078; ws_distance_km := 180;
     ws_direction := "NE"; ws_priority := 1; ws_station_type := "coastal" |};
  {| ws_name := "Gubbio"; ws_lat := 43.3506; ws_lon := 12.5781; ws_distance_km := 60;
     ws_direction := "SW"; ws_priority := 1; ws_station_type := "mountain" |};
  {| ws_name := "Foligno"; ws_lat := 42.9563; ws_lon := 12.7033; ws_distance_km := 70;
     ws_direction := "SW"; ws_priority := 1; ws_station_type := "inland" |};
  {| ws_name := "Fabriano"; ws_lat := 43.3359; ws_lon := 12.9044; ws_distance_km := 45;
     ws_direction := "W"; ws_priority := 1; ws_station_type := "mountain" |};
  {| ws_name := "Pesaro"; ws_lat := 43.9073; ws_lon := 12.8946; ws_distance_km := 35;
     ws_direction := "N"; ws_priority := 2; ws_station_type := "coastal" |};
  {| ws_name := "Fano"; ws_lat := 43.8433; ws_lon := 13.0172; ws_distance_km := 25;
     ws_direction := "NW"; ws_priority := 2; ws_station_type := "coastal" |};
  {| ws_name := "Ancona"; ws_lat := 43.6167; ws_lon := 13.4000; ws_distance_km := 5;
     ws_direction := "LOCAL"; ws_priority := 1; ws_station_type := "coastal" |};
  {| ws_name := "Macerata"; ws_lat := 43.3007; ws_lon := 13.4527; ws_distance_km := 35;
     ws_direction := "S"; ws_priority := 2; ws_station_type := "inland" |};
  {| ws_name := "Rimini"; ws_lat := 44.0527; ws_lon := 12.5664; ws_distance_km := 60;
     ws_direction := "N"; ws_priority := 3; ws_station_type := "coastal" |};
  {| ws_name := "Bologna"; ws_lat := 44.4949; ws_lon := 11.3426; ws_distance_km := 120;
     ws_direction := "NW"; ws_priority := 3; ws_station_type := "inland" |}
].

Definition MARINE_POINTS : list MarinePoint := [
  {| mp_name := "Falconara_Offshore"; mp_lat := 43.7; mp_lon := 13.6 |};
  {| mp_name := "Ancona_Bay"; mp_lat := 43.6; mp_lon := 13.5 |};
  {| mp_name := "Rimini_Offshore"; mp_lat := 44.1; mp_lon := 12.8 |}
].

(** The position of Ancona in [STATIONS]. *)
Definition ancona_index : nat := 8.

(** ** main.py: the cycle with its fetch *)


(** ** logging.py: the level filter *)

(** [levels] of [_should_log] *)
Definition log_levels : gmap string Z :=
  <["DEBUG" := 0]> (<["INFO" := 1]> (<["WARNING" := 2]> (<["ERROR" := 3]> ∅))).

(** [_should_log]; [log_level] is [self.log_level]. *)
Definition _should_log (log_level level : string) : bool :=
  default 1 (log_levels !! level) >=? default 1 (log_levels !! log_level).

(** [WeatherLogger.__init__]: the level read from the environment, if set. *)
Definition logger_level (env_LOG_LEVEL : option string) : string :=
  Py.upper (default "INFO" env_LOG_LEVEL).

(** *** Documents for the examples *)

Definition owm_document (temp press hum speed : Q) (wind_extra : list (string * json))
    (main_text : string) : json :=
  JObj [("main", JObj [("temp", JNum temp); ("pressure", JNum press);
                       ("humidity", JNum hum)]);
        ("wind", JObj (("speed", JNum speed) :: wind_extra));
        ("weather", JArr [JObj [("main", JStr main_text)]])].


(** An Open-Meteo document whose wave period is null all day. *)
Definition null_period_document : json :=
  JObj [("hourly", JObj [("wave_height", JArr (repeat (JNum 1.2) 24));
                         ("wave_period", JArr (repeat JNull 24));
                         ("wave_direction", JArr (repeat (JNum 90) 24))])].

Definition ancona_bay : MarinePoint :=
  {| mp_name := "Ancona_Bay"; mp_lat := 43.6; mp_lon := 13.5 |}.

Definition ancona_station : WeatherStation :=
  {| ws_name := "Ancona"; ws_lat := 43.6167; ws_lon := 13.4000; ws_distance_km := 5;
     ws_direction := "LOCAL"; ws_priority := 1; ws_station_type := "coastal" |}.

(** 10:00 on day 0. *)
Definition ten_o_clock : datetime := 36000000000.

(** The reading of [null_period_document] at ten. *)
Definition null_period_reading : MarineData := {|
  m_timestamp := ten_o_clock; wave_height := 1.2; wave_period := 8;
  wave_direction := 90; sea_temperature := 20; location := "Ancona_Bay"
|}.

(** Providers that answer every station but Ancona, under a Bora over the
    three reference stations. *)
Definition ancona_down : Providers := {|
  weather_response := fun i =>
    if (i =? ancona_index)%nat then None
    else Some (owm_document 10 1030 70 20 [("deg", JNum 45)] "Clear");
  weather_now := fun _ => 43200000000;
  marine_response := fun _ => None;
  marine_hour_now := fun _ => 43200000000;
  marine_now := fun _ => 43200000000
|}.

(** The reading of Ancona for a speed of 3 m/s and no direction. *)
Definition ancona_reading : WeatherData := {|
  station_name := "Ancona"; w_timestamp := ten_o_clock; temperature := 15;
  pressure := 1013; humidity := 60; wind_speed := 108 # 10; wind_direction := 0;
  visibility := None; weather_main := "Clear"; station_type := "coastal"
|}.

(** The text of a reason in the message: without [*], [_] and the backquote. *)
Definition safe_reason (reason : string) : string :=
  Py.remove_char "`" (Py.remove_char "_" (Py.remove_char "*" reason)).

(** The line of a reason in the message. *)
Definition reason_line (reason : string) : string :=
  "• " +:+ safe_reason reason +:+ newline.

(** * Properties *)

(** ** The embedding on the cases of the test suite *)

Example empty_cycle :
  calculate_enhanced_alerts default_config [] [] [] just_now = Some (0%Q, [], "LOW").
Proof. reflexivity. Qed.

Example bora_day_detected :
  check_bora_pattern default_config bora_day
  = (true, "BORA PATTERN DETECTED: Pressure diff 15.0hPa, NE winds 50.0km/h").
Proof. vm_compute. reflexivity. Qed.

Example eleven_strikes_score :
  calculate_enhanced_alerts default_config [] [] eleven_strikes just_now
  = Some (30%Q,
          ["⚡ LIGHTNING: Lightning approaching: 11 strikes, avg distance 50.0km"],
          "LOW").
Proof. vm_compute. reflexivity. Qed.

Example ten_strikes_score :
  calculate_enhanced_alerts default_config [] [] (repeat close_strike 10) just_now
  = Some (0%Q, [], "LOW").
Proof. vm_compute. reflexivity. Qed.

(** With a negative density threshold and no strike nearby, the average
    distance divides by zero. *)
Example negative_density_raises :
  calculate_enhanced_alerts negative_density [] [] [far_strike] just_now = None.
Proof. vm_compute. reflexivity. Qed.

Example first_high_alert :
  should_send_alert (new_notifier "token" "chat" "MEDIUM") just_now 65 "HIGH" = true.
Proof. reflexivity. Qed.

Example strftime_of_test :
  strftime_HM_dmY jan_15_2024_14_30 = "14:30 - 15/01/2024".
Proof. vm_compute. reflexivity. Qed.

Example six_reasons_at_most :
  format_enhanced_message 60 ["r0"; "r1"; "r2"; "r3"; "r4"; "r5"; "r6"; "r7"] "HIGH"
                          "1 hour" jan_15_2024_14_30
  = format_enhanced_message 60 ["r0"; "r1"; "r2"; "r3"; "r4"; "r5"] "HIGH"
                            "1 hour" jan_15_2024_14_30.
Proof. vm_compute. reflexivity. Qed.

(** ** Comparisons *)

Lemma gt_true (x y : Q) : Py.gt x y = true <-> (y < x)%Q.
Proof.
  unfold Py.gt. rewrite negb_true_iff, <- not_true_iff_false, Qle_bool_iff.
  split; [apply Qnot_le_lt | apply Qlt_not_le].
Qed.

Lemma gt_false (x y : Q) : Py.gt x y = false <-> (x <= y)%Q.
Proof. unfold Py.gt. rewrite negb_false_iff. apply Qle_bool_iff. Qed.

Lemma lt_true (x y : Q) : Py.lt x y = true <-> (x < y)%Q.
Proof. apply gt_true. Qed.

Lemma lt_false (x y : Q) : Py.lt x y = false <-> (y <= x)%Q.
Proof. apply gt_false. Qed.

Lemma gtb_true (x y : Z) : (x >? y) = true <-> y < x.
Proof. rewrite Z.gtb_ltb. apply Z.ltb_lt. Qed.

Lemma gtb_false (x y : Z) : (x >? y) = false <-> x <= y.
Proof. rewrite Z.gtb_ltb. apply Z.ltb_ge. Qed.

(** ** The notification gate *)

Lemma alert_levels_range (name : string) (v : Z) :
  alert_levels !! name = Some v -> 1 <= v <= 4.
Proof.
  unfold alert_levels. rewrite !lookup_insert, lookup_empty.
  repeat case_decide; intros; simplify_eq; lia.
Qed.

Lemma alert_levels_name (l : Level) :
  alert_levels !! Py.upper (level_name l) = Some (ordinal l)
  /\ alert_levels !! level_name l = Some (ordinal l).
Proof. destruct l; split; reflexivity. Qed.

(** The first test of [should_send_alert]: a level value below the minimum
    value ends the evaluation with [False]. *)
Lemma should_send_alert_floor (self : TelegramNotifier) (now : datetime)
    (score : Q) (alert_level : string) :
  default 0 (alert_levels !! Py.upper alert_level)
    < default 2 (alert_levels !! min_alert_level self) ->
  should_send_alert self now score alert_level = false.
Proof.
  intros H. unfold should_send_alert.
  apply Z.ltb_lt in H. now rewrite H.
Qed.

(** C4: a level whose ordinal is strictly below the ordinal of the configured
    minimum level is never notified, whatever the score and the notifier's
    history; in particular not on a score more than 25 points above the
    last notified score. *)
Theorem minimum_level_floor_dominates (self : TelegramNotifier) (now : datetime)
    (score : Q) (level minimum : Level) :
  min_alert_level self = level_name minimum ->
  ordinal level < ordinal minimum ->
  should_send_alert self now score (level_name level) = false.
Proof.
  intros Hmin Hlt. apply should_send_alert_floor.
  rewrite Hmin.
  destruct (alert_levels_name level) as [-> _].
  destruct (alert_levels_name minimum) as [_ ->].
  exact Hlt.
Qed.

Lemma minimum_level_floor_dominates_witness :
  (last_alert_score (notified "MEDIUM" 0%Z 10) + 25 < 90)%Q
  /\ should_send_alert (notified "MEDIUM" 0 10) 86400000000 90 "LOW" = false.
Proof.
  split; [reflexivity |].
  apply (minimum_level_floor_dominates (notified "MEDIUM" 0 10) 86400000000 90 LOW MEDIUM);
    [reflexivity | simpl; lia].
Defined.

(** C5: a CRITICAL alert is notified whatever the score, the time and score
    of the last notification and the configured minimum level (LOW, MEDIUM,
    HIGH, CRITICAL, or a name outside the table, which counts as MEDIUM). *)
Theorem critical_always_notified (self : TelegramNotifier) (now : datetime) (score : Q) :
  should_send_alert self now score "CRITICAL" = true.
Proof.
  unfold should_send_alert.
  replace (alert_levels !! Py.upper "CRITICAL") with (Some 4) by reflexivity.
  assert (Hmin : default 2 (alert_levels !! min_alert_level self) <= 4).
  { destruct (alert_levels !! min_alert_level self) as [v|] eqn:E; simpl; [|lia].
    apply alert_levels_range in E. lia. }
  simpl default at 1.
  apply Z.ltb_ge in Hmin. rewrite Hmin. reflexivity.
Qed.

Lemma no_alert_within_exact (min_level : string) (now : datetime) (delta : Z) (s : Q) :
  no_alert_within (notified min_level (now - delta) s) now delta = false.
Proof.
  unfold no_alert_within, notified. simpl.
  apply gtb_false. lia.
Qed.

(** C1: at an elapsed time of exactly 20 minutes (HIGH), 45 minutes (MEDIUM)
    and 2 hours (LOW) the gate answers [False] when the score is above the
    level's threshold, the level is at or above the minimum level and the
    score is not more than 25 above the last notified score: the cooldown
    comparison of the code is strict. *)
Theorem cooldown_boundary_not_notified (now : datetime) :
  should_send_alert (notified "MEDIUM" (now - timedelta_minutes 20) 65) now 65 "HIGH" = false
  /\ should_send_alert (notified "MEDIUM" (now - timedelta_minutes 45) 45) now 45 "MEDIUM" = false
  /\ should_send_alert (notified "LOW" (now - timedelta_hours 2) 25) now 25 "LOW" = false.
Proof.
  unfold should_send_alert.
  rewrite !no_alert_within_exact.
  repeat split; reflexivity.
Qed.

(** The cooldown in general: within the cooldown, its last instant
    included, only a score jump notifies; strictly after it, a score above
    the level's threshold does. *)
Lemma gate_within_cooldown (self : TelegramNotifier) (now t : datetime)
    (score : Q) (level : Level) :
  last_alert_time self = Some t ->
  now - t <= cooldown level ->
  (score <= last_alert_score self + 25)%Q ->
  level <> CRITICAL ->
  should_send_alert self now score (level_name level) = false.
Proof.
  intros Ht Hel Hjump Hlevel. unfold should_send_alert, no_alert_within.
  rewrite Ht. apply gt_false in Hjump. rewrite Hjump.
  destruct (_ <? _); [reflexivity |].
  destruct level; [| | | congruence]; simpl in Hel |- *;
    apply gtb_false in Hel; rewrite Hel, ?andb_false_r; reflexivity.
Qed.

Lemma gate_after_cooldown (self : TelegramNotifier) (now t : datetime)
    (score : Q) (level minimum : Level) :
  min_alert_level self = level_name minimum ->
  ordinal minimum <= ordinal level ->
  last_alert_time self = Some t ->
  cooldown level < now - t ->
  (score_threshold level < score)%Q ->
  should_send_alert self now score (level_name level) = true.
Proof.
  intros Hmin Hord Ht Hel Hscore. unfold should_send_alert, no_alert_within.
  rewrite Ht, Hmin.
  destruct (alert_levels_name level) as [-> _].
  destruct (alert_levels_name minimum) as [_ ->].
  simpl default. apply Z.ltb_ge in Hord. rewrite Hord.
  apply gt_true in Hscore.
  destruct level; simpl in Hel, Hscore |- *; try reflexivity;
    apply gtb_true in Hel; rewrite Hel, Hscore; reflexivity.
Qed.

(** ** Delivery and the notifier state *)

Lemma send_message_false (self self' : TelegramNotifier) (post : Transport)
    (now : datetime) (message : string) :
  send_message self post now message = (false, self') -> self' = self.
Proof.
  unfold send_message.
  destruct (post_message self post message) as [[]|]; intros H; inversion H; reflexivity.
Qed.

Lemma send_message_true (self self' : TelegramNotifier) (post : Transport)
    (now : datetime) (message : string) :
  send_message self post now message = (true, self') ->
  self' = set_last_alert_time self now.
Proof.
  unfold send_message.
  destruct (post_message self post message) as [[]|]; intros H; inversion H; reflexivity.
Qed.

(** [send_message] returns [True] exactly when no exception was raised up
    to and including [raise_for_status]. *)
Lemma send_message_verdict (self : TelegramNotifier) (post : Transport)
    (now : datetime) (message : string) :
  fst (send_message self post now message) = true
  <-> post_message self post message = Some tt.
Proof.
  unfold send_message.
  destruct (post_message self post message) as [[]|]; simpl; split; congruence.
Qed.

(** A first call that raises, and a final response with a 4xx or 5xx
    status, are failures. *)
Lemma send_message_post_raises (self : TelegramNotifier) (post : Transport)
    (now : datetime) (message : string) :
  (forall url doc, post 0%nat url doc = PostRaises) ->
  send_message self post now message = (false, self).
Proof.
  intros H. unfold send_message, post_message. rewrite H. reflexivity.
Qed.

Lemma send_message_error_status (self : TelegramNotifier) (code : Z)
    (now : datetime) (message : string) :
  400 <= code < 600 ->
  send_message self (transport_status code) now message = (false, self).
Proof.
  intros H. unfold send_message, post_message, transport_status. simpl.
  destruct (code =? 400) eqn:E; simpl.
  - apply Z.eqb_eq in E. subst code. reflexivity.
  - unfold raises_for_status. simpl.
    replace (400 <=? code) with true by (symmetry; apply Z.leb_le; lia).
    replace (code <? 600) with true by (symmetry; apply Z.ltb_lt; lia).
    reflexivity.
Qed.

Lemma deliver_alert_cases (self : TelegramNotifier) (post : Transport) (clock : Clock)
    (score : Q) (reasons : list string) (alert_level : string) :
  deliver_alert self post clock score reasons alert_level =
  match post_message self post (alert_message clock score reasons alert_level) with
  | Some _ => set_last_alert_score (set_last_alert_time self (now_sent clock)) score
  | None => self
  end.
Proof.
  unfold deliver_alert, send_message.
  destruct (post_message self post _) as [[]|]; reflexivity.
Qed.

(** C6: when [send_message] reports failure, it leaves the notifier as it
    was and so does the delivery block of [run_enhanced_check]: the time and
    the score of the last notification are unchanged and every later gate
    evaluation answers as it would have before.  Conversely a notifier that
    the delivery block changed was changed after [send_message] reported
    success, and then holds the send time and the score.  The gate itself is
    a function of the notifier to [bool]: it returns no notifier. *)
Theorem delivery_failure_keeps_notifier (self : TelegramNotifier) (post : Transport)
    (clock : Clock) (score : Q) (reasons : list string) (alert_level : string) :
  (fst (send_message self post (now_sent clock)
                     (alert_message clock score reasons alert_level)) = false ->
   snd (send_message self post (now_sent clock)
                     (alert_message clock score reasons alert_level)) = self
   /\ deliver_alert self post clock score reasons alert_level = self
   /\ forall now score' level',
        should_send_alert (deliver_alert self post clock score reasons alert_level)
                          now score' level'
        = should_send_alert self now score' level')
  /\ (deliver_alert self post clock score reasons alert_level <> self ->
      fst (send_message self post (now_sent clock)
                        (alert_message clock score reasons alert_level)) = true
      /\ last_alert_time (deliver_alert self post clock score reasons alert_level)
         = Some (now_sent clock)
      /\ last_alert_score (deliver_alert self post clock score reasons alert_level)
         = score).
Proof.
  rewrite deliver_alert_cases. unfold send_message.
  destruct (post_message self post _) as [[]|]; simpl; split.
  - discriminate.
  - intros _. repeat split.
  - intros _. repeat split.
  - intros H. now contradiction H.
Qed.

Lemma delivery_failure_keeps_notifier_witness :
  deliver_alert (notified "MEDIUM" 0 50) transport_down noon 80 ["reason"] "HIGH"
  = notified "MEDIUM" 0 50
  /\ deliver_alert (notified "MEDIUM" 0 50) (transport_status 502) noon 80 ["reason"] "HIGH"
     = notified "MEDIUM" 0 50.
Proof.
  split.
  - apply (delivery_failure_keeps_notifier
             (notified "MEDIUM" 0 50) transport_down noon 80 ["reason"] "HIGH").
    reflexivity.
  - apply (delivery_failure_keeps_notifier
             (notified "MEDIUM" 0 50) (transport_status 502) noon 80 ["reason"] "HIGH").
    reflexivity.
Defined.

(** One cycle changes the notifier only through an approved and successful
    delivery. *)
Lemma run_enhanced_check_notifier (self : EnhancedWeatherAlertSystem)
    (weather_data : list WeatherData) (marine_data : list MarineData)
    (lightning_data : list LightningData) (post : Transport) (clock : Clock) :
  let after := notifier (snd (run_enhanced_check self weather_data marine_data
                                                 lightning_data post clock)) in
  after = notifier self
  \/ exists score reasons alert_level,
       should_send_alert (notifier self) (now_gate clock) score alert_level = true
       /\ fst (send_message (notifier self) post (now_sent clock)
                            (alert_message clock score reasons alert_level)) = true
       /\ after = set_last_alert_score
                    (set_last_alert_time (notifier self) (now_sent clock)) score.
Proof.
  unfold run_enhanced_check.
  destruct weather_data as [|w ws]; [now left |].
  destruct (calculate_enhanced_alerts _ _ _ _ _) as [[[score reasons] alert_level]|];
    [| now left].
  simpl.
  destruct (should_send_alert (notifier self) (now_gate clock) score alert_level) eqn:G;
    [| now left].
  rewrite deliver_alert_cases.
  destruct (post_message (notifier self) post _) as [[]|] eqn:P; [| now left].
  right. exists score, reasons, alert_level.
  repeat split; [exact G |].
  apply send_message_verdict. exact P.
Qed.

(** ** The reading store *)

Section Append.
Context {A : Type} (key : A -> string).

Lemma lookup_append_at_eq (h : gmap string (list A)) (d : A) :
  append_at key h d !! key d = Some (default [] (h !! key d) ++ [d]).
Proof.
  unfold append_at. rewrite lookup_insert_eq.
  destruct (h !! key d) eqn:E; [now rewrite E |].
  now rewrite lookup_insert_eq.
Qed.

Lemma lookup_append_at_ne (h : gmap string (list A)) (d : A) (name : string) :
  name <> key d -> append_at key h d !! name = h !! name.
Proof.
  intros Hne. unfold append_at.
  rewrite lookup_insert_ne by congruence.
  destruct (h !! key d); [reflexivity |].
  now rewrite lookup_insert_ne by congruence.
Qed.

End Append.

Lemma elem_of_filter_newer {A : Type} (ts : A -> datetime) (cutoff : Z)
    (readings : list A) (d : A) :
  d ∈ List.filter (fun d => ts d >? cutoff) readings -> cutoff < ts d.
Proof.
  intros Hin. apply list_elem_of_In, filter_In in Hin.
  destruct Hin as [_ H]. now apply gtb_true.
Qed.

Lemma store_data_retained (self : EnhancedAlertCalculator)
    (weather_data : list WeatherData) (marine_data : list MarineData)
    (lightning_data : list LightningData) (now : datetime) :
  retained_after (store_data self weather_data marine_data lightning_data now)
                 (horizon self now).
Proof.
  unfold retained_after, store_data, horizon. simpl. repeat split.
  - intros name readings d Hlook Hin.
    rewrite lookup_fmap in Hlook.
    destruct (fold_left _ weather_data _ !! name) as [l0|]; simpl in Hlook; [|discriminate].
    inversion Hlook; subst readings. eapply elem_of_filter_newer, Hin.
  - intros name readings d Hlook Hin.
    rewrite lookup_fmap in Hlook.
    destruct (fold_left _ marine_data _ !! name) as [l0|]; simpl in Hlook; [|discriminate].
    inversion Hlook; subst readings. eapply elem_of_filter_newer, Hin.
  - intros d Hin. eapply elem_of_filter_newer, Hin.
Qed.

(** A reading at or beyond the horizon is dropped by the store operation
    that brings it; the key stays, with no reading. *)
Lemma store_expired_weather (self : EnhancedAlertCalculator) (old : WeatherData)
    (now : datetime) :
  historical_weather self !! station_name old = None ->
  w_timestamp old <= horizon self now ->
  historical_weather (store_data self [old] [] [] now) !! station_name old = Some [].
Proof.
  intros Hnone Hold. unfold store_data. simpl.
  rewrite lookup_fmap, lookup_append_at_eq, Hnone. simpl.
  fold (horizon self now).
  apply gtb_false in Hold. now rewrite Hold.
Qed.

Lemma store_expired_marine (self : EnhancedAlertCalculator) (old : MarineData)
    (now : datetime) :
  historical_marine self !! location old = None ->
  m_timestamp old <= horizon self now ->
  historical_marine (store_data self [] [old] [] now) !! location old = Some [].
Proof.
  intros Hnone Hold. unfold store_data. simpl.
  rewrite lookup_fmap, lookup_append_at_eq, Hnone. simpl.
  fold (horizon self now).
  apply gtb_false in Hold. now rewrite Hold.
Qed.

Lemma store_fresh_weather (self : EnhancedAlertCalculator) (fresh : WeatherData)
    (now : datetime) :
  historical_weather self !! station_name fresh = Some [] ->
  horizon self now < w_timestamp fresh ->
  historical_weather (store_data self [fresh] [] [] now) !! station_name fresh
  = Some [fresh].
Proof.
  intros Hempty Hfresh. unfold store_data. simpl.
  rewrite lookup_fmap, lookup_append_at_eq, Hempty. simpl.
  fold (horizon self now).
  apply gtb_true in Hfresh. now rewrite Hfresh.
Qed.

Lemma store_fresh_marine (self : EnhancedAlertCalculator) (fresh : MarineData)
    (now : datetime) :
  historical_marine self !! location fresh = Some [] ->
  horizon self now < m_timestamp fresh ->
  historical_marine (store_data self [] [fresh] [] now) !! location fresh
  = Some [fresh].
Proof.
  intros Hempty Hfresh. unfold store_data. simpl.
  rewrite lookup_fmap, lookup_append_at_eq, Hempty. simpl.
  fold (horizon self now).
  apply gtb_true in Hfresh. now rewrite Hfresh.
Qed.

Lemma store_data_config (self : EnhancedAlertCalculator)
    (weather_data : list WeatherData) (marine_data : list MarineData)
    (lightning_data : list LightningData) (now : datetime) :
  config (store_data self weather_data marine_data lightning_data now) = config self.
Proof. reflexivity. Qed.

(** C7: after a store operation at [now], every reading retained in the
    weather map, the marine map and the lightning list has a timestamp
    strictly newer than [now] minus the retention horizon; and storing a
    reading that is not newer than the horizon under a key that held nothing,
    then a fresh reading under the same key, leaves exactly the fresh reading
    under that key. *)
Theorem retention_window (self : EnhancedAlertCalculator)
    (weather_data : list WeatherData) (marine_data : list MarineData)
    (lightning_data : list LightningData) (now : datetime) :
  retained_after (store_data self weather_data marine_data lightning_data now)
                 (horizon self now)
  /\ (forall (old fresh : WeatherData) (later : datetime),
        historical_weather self !! station_name old = None ->
        station_name fresh = station_name old ->
        w_timestamp old <= horizon self now ->
        horizon self later < w_timestamp fresh ->
        historical_weather (store_data (store_data self [old] [] [] now)
                                       [fresh] [] [] later)
          !! station_name old = Some [fresh])
  /\ (forall (old fresh : MarineData) (later : datetime),
        historical_marine self !! location old = None ->
        location fresh = location old ->
        m_timestamp old <= horizon self now ->
        horizon self later < m_timestamp fresh ->
        historical_marine (store_data (store_data self [] [old] [] now)
                                      [] [fresh] [] later)
          !! location old = Some [fresh]).
Proof.
  split; [apply store_data_retained |]. split.
  - intros old fresh later Hnone Hkey Hold Hfresh.
    rewrite <- Hkey. apply store_fresh_weather.
    + rewrite Hkey. now apply store_expired_weather.
    + exact Hfresh.
  - intros old fresh later Hnone Hkey Hold Hfresh.
    rewrite <- Hkey. apply store_fresh_marine.
    + rewrite Hkey. now apply store_expired_marine.
    + exact Hfresh.
Qed.

Lemma retention_window_witness :
  historical_weather
    (store_data (store_data (new_calculator default_config)
                            [weather_at "Ancona" 0] [] [] 46800000000)
                [weather_at "Ancona" 46800000000] [] [] 46800000001)
    !! "Ancona" = Some [weather_at "Ancona" 46800000000].
Proof.
  apply (retention_window (new_calculator default_config) [] [] [] 46800000000).
  - reflexivity.
  - reflexivity.
  - unfold horizon, timedelta_hours. simpl. lia.
  - unfold horizon, timedelta_hours. simpl. lia.
Defined.

(** ** The Bora detector *)

Lemma str_in_list_iff (s : string) (names : list string) :
  Py.str_in_list s names = true <-> In s names.
Proof.
  unfold Py.str_in_list. rewrite existsb_exists. split.
  - intros [x [Hin Heq]]. apply String.eqb_eq in Heq. now subst x.
  - intros Hin. exists s. split; [exact Hin | apply String.eqb_refl].
Qed.

Lemma ne_stations_reference (weather_data : list WeatherData) :
  List.filter (fun d => Py.str_in_list (station_name d) ne_station_names) weather_data
  = reference_subset weather_data.
Proof.
  apply List.filter_ext. intros d. apply Bool.eq_iff_eq_true.
  rewrite str_in_list_iff, bool_decide_eq_true. unfold is_reference. simpl.
  intuition congruence.
Qed.

Lemma local_stations_local (weather_data : list WeatherData) :
  List.filter (fun d => Py.str_in_list (station_name d) local_station_names) weather_data
  = local_subset weather_data.
Proof.
  apply List.filter_ext. intros d. apply Bool.eq_iff_eq_true.
  rewrite str_in_list_iff, bool_decide_eq_true. unfold is_local. simpl.
  intuition congruence.
Qed.

Lemma fold_left_Qplus (xs : list Q) (a : Q) :
  (fold_left Qplus xs a == a + fold_right Qplus 0 xs)%Q.
Proof.
  revert a. induction xs as [|x xs IH]; intros a; simpl.
  - ring.
  - rewrite IH. ring.
Qed.

Lemma sum_mean (xs : list Q) : (Py.sum xs / Py.len xs == mean xs)%Q.
Proof.
  unfold Py.sum, Py.len, mean. now rewrite fold_left_Qplus, Qplus_0_l.
Qed.

Lemma sum_map_mean {A : Type} (f : A -> Q) (l : list A) :
  (Py.sum (map f l) / Py.len l == mean (map f l))%Q.
Proof.
  rewrite <- sum_mean. unfold Py.len. now rewrite length_map.
Qed.

Lemma max_is_maximum (x0 : Q) (xs : list Q) : is_maximum (Py.max x0 xs) (x0 :: xs).
Proof.
  unfold Py.max. revert x0. induction xs as [|x xs IH]; intros x0; simpl.
  - split; [now left |]. intros y [<- | []]. apply Qle_refl.
  - destruct (IH (if Py.gt x x0 then x else x0)) as [Hin Hub].
    assert (Hx0 : (x0 <= (if Py.gt x x0 then x else x0))%Q
                  /\ (x <= (if Py.gt x x0 then x else x0))%Q).
    { destruct (Py.gt x x0) eqn:E.
      - apply gt_true in E. split; [now apply Qlt_le_weak | apply Qle_refl].
      - apply gt_false in E. split; [apply Qle_refl | exact E]. }
    destruct Hx0 as [Hx0 Hx]. split.
    + destruct Hin as [Hin | Hin].
      * rewrite <- Hin. destruct (Py.gt x x0); [right; now left | now left].
      * right. now right.
    + intros y [<- | [<- | Hy]].
      * eapply Qle_trans; [exact Hx0 | apply Hub; now left].
      * eapply Qle_trans; [exact Hx | apply Hub; now left].
      * apply Hub. now right.
Qed.

Lemma max_gt_iff (x0 : Q) (xs : list Q) (t : Q) :
  Py.gt (Py.max x0 xs) t = true
  <-> exists m, is_maximum m (x0 :: xs) /\ (t < m)%Q.
Proof.
  rewrite gt_true. split.
  - intros H. exists (Py.max x0 xs). split; [apply max_is_maximum | exact H].
  - intros [m [[Hin _] Hlt]].
    eapply Qlt_le_trans; [exact Hlt |].
    now apply (max_is_maximum x0 xs).
Qed.

Lemma direction_gate_iff (stations : list WeatherData) :
  existsb (fun s => Py.gt (wind_speed s) 30
                    && (Qle_bool 0 (wind_direction s) && Qle_bool (wind_direction s) 90))
          stations = true
  <-> exists s, In s stations /\ (30 < wind_speed s)%Q
                /\ (0 <= wind_direction s)%Q /\ (wind_direction s <= 90)%Q.
Proof.
  rewrite existsb_exists. split; intros [s [Hin H]]; exists s; (split; [exact Hin |]).
  - rewrite !andb_true_iff, gt_true, !Qle_bool_iff in H. tauto.
  - rewrite !andb_true_iff, gt_true, !Qle_bool_iff. tauto.
Qed.

(** C3: [check_bora_pattern] reports a detection exactly when both station
    subsets are non-empty, the mean reference pressure exceeds the mean
    local pressure by strictly more than [BORA_PRESSURE_DIFF_THRESHOLD], the
    maximum reference wind speed is strictly above [BORA_WIND_THRESHOLD], and
    some reference reading has a wind speed above 30 and a direction within
    [0, 90]; with an empty subset the answer is [(False, "")]. *)
Theorem check_bora_pattern_detects (cfg : Configuration) (weather_data : list WeatherData) :
  (fst (check_bora_pattern cfg weather_data) = true <-> bora_conditions cfg weather_data)
  /\ (reference_subset weather_data = [] \/ local_subset weather_data = [] ->
      check_bora_pattern cfg weather_data = (false, "")).
Proof.
  unfold check_bora_pattern, bora_conditions.
  rewrite ne_stations_reference, local_stations_local.
  destruct (reference_subset weather_data) as [|s0 ne_rest] eqn:Ene.
  { split; [| reflexivity]. simpl. split; [discriminate | intros [H _]; congruence]. }
  destruct (local_subset weather_data) as [|l0 local_rest] eqn:Eloc.
  { split; [| reflexivity]. simpl. split; [discriminate | intros [_ [H _]]; congruence]. }
  split; [| intros [H | H]; discriminate].
  rewrite <- (max_gt_iff (wind_speed s0) (map wind_speed ne_rest)).
  rewrite <- direction_gate_iff.
  rewrite <- !sum_map_mean, <- gt_true.
  match goal with |- context [existsb ?f ?l] => generalize (existsb f l) end.
  generalize (Py.gt (Py.max (wind_speed s0) (map wind_speed ne_rest))
                    (BORA_WIND_THRESHOLD cfg)).
  match goal with |- context [Py.gt ?d (BORA_PRESSURE_DIFF_THRESHOLD cfg)] =>
    generalize (Py.gt d (BORA_PRESSURE_DIFF_THRESHOLD cfg)) end.
  intros [] [] []; simpl; split; try discriminate; try tauto.
  intros _. repeat split; discriminate.
Qed.

Lemma check_bora_pattern_detects_witness : bora_conditions default_config bora_day.
Proof.
  apply (check_bora_pattern_detects default_config bora_day). reflexivity.
Defined.

(** ** The scoring engine *)

(** *** Marine block *)

Lemma marine_loop_flat_map (cfg : Configuration) (marine_data : list MarineData)
    (acc : list string) :
  fold_left (marine_step cfg) marine_data acc
  = acc ++ flat_map (marine_fragments cfg) marine_data.
Proof.
  revert acc. induction marine_data as [|d ds IH]; intros acc; simpl.
  - now rewrite app_nil_r.
  - rewrite IH. unfold marine_step, marine_fragments.
    destruct (Py.lt _ _), (Py.gt _ _); simpl; rewrite <- ?app_assoc; reflexivity.
Qed.

Lemma marine_alerts_flat_map (cfg : Configuration) (marine_data : list MarineData) :
  marine_alerts_of cfg marine_data = flat_map (marine_fragments cfg) marine_data.
Proof. apply marine_loop_flat_map. Qed.

Lemma marine_fragments_nil (cfg : Configuration) (d : MarineData) :
  marine_fragments cfg d = [] <-> ~ marine_flagged cfg d.
Proof.
  unfold marine_fragments, marine_flagged.
  destruct (Py.lt _ _) eqn:E1; destruct (Py.gt _ _) eqn:E2; simpl.
  - apply lt_true in E1. split; [discriminate | tauto].
  - apply lt_true in E1. split; [discriminate | tauto].
  - apply gt_true in E2. split; [discriminate | tauto].
  - apply lt_false in E1. apply gt_false in E2. split; [| reflexivity].
    intros _ [H | H]; [exact (Qlt_not_le _ _ H E1) | exact (Qlt_not_le _ _ H E2)].
Qed.

Lemma marine_alerts_nil (cfg : Configuration) (marine_data : list MarineData) :
  flat_map (marine_fragments cfg) marine_data = []
  <-> ~ Exists (marine_flagged cfg) marine_data.
Proof.
  induction marine_data as [|d ds IH]; simpl.
  - split; [intros _ H; inversion H | reflexivity].
  - rewrite Exists_cons. split.
    + intros H. apply app_eq_nil in H as [H1 H2].
      apply marine_fragments_nil in H1. apply IH in H2. tauto.
    + intros H.
      assert (H1 : marine_fragments cfg d = []) by (apply marine_fragments_nil; tauto).
      assert (H2 : flat_map (marine_fragments cfg) ds = []) by (apply IH; tauto).
      now rewrite H1, H2.
Qed.

Lemma marine_conditions_flagged (cfg : Configuration) (marine_data : list MarineData)
    (score : Q) (reasons : list string) :
  Exists (marine_flagged cfg) marine_data ->
  marine_conditions cfg marine_data score reasons
  = ((score + 25)%Q, reasons ++ [marine_reason cfg marine_data]).
Proof.
  intros Hflag. unfold marine_conditions, marine_reason.
  destruct marine_data as [|d ds]; [inversion Hflag |].
  rewrite marine_alerts_flat_map.
  destruct (flat_map (marine_fragments cfg) (d :: ds)) eqn:E; [| reflexivity].
  apply marine_alerts_nil in E. contradiction.
Qed.

Lemma marine_conditions_unflagged (cfg : Configuration) (marine_data : list MarineData)
    (score : Q) (reasons : list string) :
  ~ Exists (marine_flagged cfg) marine_data ->
  marine_conditions cfg marine_data score reasons = (score, reasons).
Proof.
  intros Hflag. unfold marine_conditions.
  destruct marine_data as [|d ds]; [reflexivity |].
  rewrite marine_alerts_flat_map.
  apply marine_alerts_nil in Hflag. now rewrite Hflag.
Qed.

Lemma marine_conditions_spec (cfg : Configuration) (marine_data : list MarineData)
    (score : Q) (reasons : list string) :
  (fst (marine_conditions cfg marine_data score reasons)
   == score + marine_points cfg marine_data)%Q
  /\ snd (marine_conditions cfg marine_data score reasons)
     = reasons ++ marine_reasons cfg marine_data.
Proof.
  unfold marine_points, marine_reasons. case_bool_decide as Hflag.
  - rewrite marine_conditions_flagged by exact Hflag. simpl. split; reflexivity.
  - rewrite marine_conditions_unflagged by exact Hflag. simpl.
    rewrite app_nil_r. split; [ring | reflexivity].
Qed.

(** *** Lightning block *)

Lemma len_nonzero {A : Type} (xs : list A) :
  (0 < length xs)%nat -> Qeq_bool (Py.len xs) 0 = false.
Proof.
  intros H. apply not_true_iff_false. intros E. apply Qeq_bool_iff in E.
  unfold Py.len, Qeq in E. simpl in E. lia.
Qed.

Lemma lightning_activity_spec (cfg : Configuration) (lightning_data : list LightningData)
    (now : datetime) (score : Q) (reasons : list string) :
  sane cfg ->
  exists score',
    lightning_activity cfg lightning_data now score reasons
    = Some (score', reasons ++ lightning_reasons cfg lightning_data now)
    /\ (score' == score + lightning_points cfg lightning_data now)%Q.
Proof.
  intros Hsane. unfold sane in Hsane.
  unfold lightning_reasons, lightning_points, lightning_activity.
  destruct lightning_data as [|s0 rest].
  - exists score. rewrite app_nil_r. split; [reflexivity |].
    simpl. case_bool_decide; [lia | ring].
  - set (nearby := nearby_strikes_of cfg (s0 :: rest) now).
    destruct (Z.of_nat (length nearby) >? LIGHTNING_DENSITY_THRESHOLD cfg) eqn:E.
    + apply gtb_true in E.
      unfold Py.div. rewrite len_nonzero by lia. simpl.
      exists (score + 30)%Q. split; [reflexivity |].
      case_bool_decide; [reflexivity | lia].
    + apply gtb_false in E.
      exists score. rewrite app_nil_r. split; [reflexivity |].
      case_bool_decide; [lia | ring].
Qed.

(** *** Thermal block *)

Lemma temps_of_kind (kind : string) (weather_data : list WeatherData) :
  map temperature
      (List.filter (fun d => String.eqb (station_type d) kind) weather_data)
  = temperatures_of kind weather_data.
Proof.
  unfold temperatures_of. f_equal. apply List.filter_ext. intros d.
  apply Bool.eq_iff_eq_true. now rewrite String.eqb_eq, bool_decide_eq_true.
Qed.

Lemma gt_bool_decide (a b t : Q) :
  (a == b)%Q -> Py.gt a t = bool_decide (t < b)%Q.
Proof.
  intros Hab. apply Bool.eq_iff_eq_true.
  rewrite gt_true, bool_decide_eq_true. now rewrite Hab.
Qed.

Lemma thermal_gradient_spec (cfg : Configuration) (weather_data : list WeatherData)
    (score : Q) (reasons : list string) :
  (fst (thermal_gradient cfg weather_data score reasons)
   == score + thermal_points cfg weather_data)%Q
  /\ snd (thermal_gradient cfg weather_data score reasons)
     = reasons ++ thermal_reasons cfg weather_data.
Proof.
  unfold thermal_reasons, thermal_points, thermal_gradient.
  rewrite !temps_of_kind.
  destruct (temperatures_of "coastal" weather_data) as [|c cs] eqn:Ec;
    [simpl; rewrite app_nil_r; split; [ring | reflexivity] |].
  destruct (temperatures_of "inland" weather_data) as [|i ir] eqn:Ei;
    [simpl; rewrite app_nil_r; split; [ring | reflexivity] |].
  rewrite (gt_bool_decide _ (Qabs (mean (i :: ir) - mean (c :: cs))))
    by (now rewrite !sum_mean).
  case_bool_decide; simpl.
  - split; reflexivity.
  - rewrite app_nil_r. split; [ring | reflexivity].
Qed.

(** *** Per-station bucket *)

Lemma station_points_nonneg (cfg : Configuration) (d : WeatherData) :
  (0 <= station_points cfg d)%Q.
Proof.
  unfold station_points.
  destruct (Py.gt _ _), (Py.str_in_list _ _), (Py.gt _ _); vm_compute; discriminate.
Qed.

Lemma stations_total_nonneg (cfg : Configuration) (weather_data : list WeatherData) :
  (0 <= fold_right (fun d total => station_points cfg d + total) 0 weather_data)%Q.
Proof.
  induction weather_data as [|d ds IH]; simpl; [apply Qle_refl |].
  pose proof (station_points_nonneg cfg d). lra.
Qed.

Lemma traditional_loop_total (cfg : Configuration) (weather_data : list WeatherData)
    (acc : Q) :
  (fold_left (traditional_step cfg) weather_data acc
   == acc + fold_right (fun d total => station_points cfg d + total) 0 weather_data)%Q.
Proof.
  revert acc. induction weather_data as [|d ds IH]; intros acc; simpl.
  - ring.
  - rewrite IH. unfold traditional_step, station_points.
    destruct (Py.gt _ _), (Py.str_in_list _ _), (Py.gt _ _); ring.
Qed.

Lemma traditional_patterns_total (cfg : Configuration) (weather_data : list WeatherData) :
  (_calculate_traditional_patterns cfg weather_data
   == fold_right (fun d total => station_points cfg d + total) 0 weather_data)%Q.
Proof.
  unfold _calculate_traditional_patterns.
  rewrite traditional_loop_total. ring.
Qed.

(** *** The whole body *)

Lemma points_nonneg (cfg : Configuration) (weather_data : list WeatherData)
    (marine_data : list MarineData) (lightning_data : list LightningData)
    (now : datetime) :
  (0 <= bora_points cfg weather_data)%Q
  /\ (0 <= marine_points cfg marine_data)%Q
  /\ (0 <= lightning_points cfg lightning_data now)%Q
  /\ (0 <= thermal_points cfg weather_data)%Q.
Proof.
  unfold bora_points, marine_points, lightning_points, thermal_points.
  repeat split.
  - destruct (fst _); vm_compute; discriminate.
  - case_bool_decide; vm_compute; discriminate.
  - case_bool_decide; vm_compute; discriminate.
  - destruct (temperatures_of "coastal" _); [vm_compute; discriminate |].
    destruct (temperatures_of "inland" _); [vm_compute; discriminate |].
    case_bool_decide; vm_compute; discriminate.
Qed.

Lemma raw_sum_bounds (cfg : Configuration) (weather_data : list WeatherData)
    (marine_data : list MarineData) (lightning_data : list LightningData)
    (now : datetime) :
  (0 <= raw_sum cfg weather_data marine_data lightning_data now)%Q
  /\ (bora_points cfg weather_data
      <= raw_sum cfg weather_data marine_data lightning_data now)%Q.
Proof.
  unfold raw_sum.
  destruct (points_nonneg cfg weather_data marine_data lightning_data now)
    as (Hb & Hm & Hl & Ht).
  pose proof (stations_total_nonneg cfg weather_data) as Hs.
  split; lra.
Qed.

(** The locals of the engine: the score is the sum of the five buckets, the
    reasons are those of the four detectors in their fixed order, and the
    level is CRITICAL on a Bora detection, else follows the score. *)
Lemma alert_locals_spec (cfg : Configuration) (weather_data : list WeatherData)
    (marine_data : list MarineData) (lightning_data : list LightningData)
    (now : datetime) :
  sane cfg ->
  exists locals,
    alert_locals cfg weather_data marine_data lightning_data now = Some locals
    /\ (score locals == raw_sum cfg weather_data marine_data lightning_data now)%Q
    /\ reasons locals
       = bora_reasons cfg weather_data ++ marine_reasons cfg marine_data
         ++ lightning_reasons cfg lightning_data now ++ thermal_reasons cfg weather_data
    /\ bora_detected locals = fst (check_bora_pattern cfg weather_data)
    /\ alert_level locals
       = determine_alert_level
           (if fst (check_bora_pattern cfg weather_data) then "CRITICAL" else "LOW")
           (score locals).
Proof.
  intros Hsane. unfold alert_locals, raw_sum, bora_points, bora_reasons.
  destruct (check_bora_pattern cfg weather_data) as [detected bora_reason].
  cbn [fst snd].
  set (start := if detected
                then ((0 + 60)%Q, [] ++ ["🌪️ BORA: " +:+ bora_reason], "CRITICAL")
                else (0%Q, [], "LOW")).
  assert (Hstart : exists s0,
             start = (s0, (if detected then ["🌪️ BORA: " +:+ bora_reason] else []),
                      (if detected then "CRITICAL" else "LOW"))
             /\ (s0 == if detected then 60 else 0)%Q).
  { destruct detected; eexists; (split; [reflexivity |]); ring. }
  destruct Hstart as (s0 & -> & Hs0).
  destruct (marine_conditions_spec cfg marine_data s0
              (if detected then ["🌪️ BORA: " +:+ bora_reason] else [])) as [Hs1 Hr1].
  destruct (marine_conditions cfg marine_data s0 _) as [s1 r1].
  cbn [fst snd] in Hs1, Hr1. subst r1.
  destruct (lightning_activity_spec cfg lightning_data now s1
              ((if detected then ["🌪️ BORA: " +:+ bora_reason] else [])
               ++ marine_reasons cfg marine_data) Hsane) as (s2 & -> & Hs2).
  cbn [mbind option_bind].
  match goal with
  | |- context [thermal_gradient cfg weather_data s2 ?r] =>
      destruct (thermal_gradient_spec cfg weather_data s2 r) as [Hs3 Hr3];
      destruct (thermal_gradient cfg weather_data s2 r) as [s3 r3]
  end.
  cbn [fst snd] in Hs3, Hr3. subst r3.
  eexists. split; [reflexivity |]. cbn [score reasons bora_detected alert_level].
  repeat split.
  - rewrite Hs3, Hs2, Hs1, Hs0, traditional_patterns_total. ring.
  - now rewrite <- !app_assoc.
Qed.

Lemma min_clamp (s raw : Q) :
  (s == raw)%Q ->
  (Py.min s 100 == Qmin raw 100)%Q
  /\ (Py.min s 100 <= 100)%Q
  /\ forall lower, (lower <= raw)%Q -> (lower <= 100)%Q -> (lower <= Py.min s 100)%Q.
Proof.
  intros Hs. unfold Py.min. destruct (Py.lt 100 s) eqn:E.
  - apply lt_true in E. rewrite Hs in E. repeat split.
    + symmetry. apply Q.min_r. now apply Qlt_le_weak.
    + apply Qle_refl.
    + intros lower _ H. exact H.
  - apply lt_false in E. repeat split.
    + rewrite Hs in E. rewrite Hs. symmetry. now apply Q.min_l.
    + exact E.
    + intros lower H _. now rewrite Hs.
Qed.

(** C8: the final score is the raw sum of the five buckets cut at 100; the
    raw sum is never negative, so the final score lies within [0, 100]. *)
Theorem final_score_clamped (cfg : Configuration) (weather_data : list WeatherData)
    (marine_data : list MarineData) (lightning_data : list LightningData)
    (now : datetime) :
  sane cfg ->
  exists final_score reasons alert_level,
    calculate_enhanced_alerts cfg weather_data marine_data lightning_data now
    = Some (final_score, reasons, alert_level)
    /\ (0 <= raw_sum cfg weather_data marine_data lightning_data now)%Q
    /\ (final_score
        == Qmin (raw_sum cfg weather_data marine_data lightning_data now) 100)%Q
    /\ (0 <= final_score)%Q /\ (final_score <= 100)%Q.
Proof.
  intros Hsane. unfold calculate_enhanced_alerts.
  destruct (alert_locals_spec cfg weather_data marine_data lightning_data now Hsane)
    as (locals & -> & Hscore & _).
  cbn [mbind option_bind].
  destruct (min_clamp _ _ Hscore) as (Hmin & Hle & Hge).
  destruct (raw_sum_bounds cfg weather_data marine_data lightning_data now) as [Hraw _].
  do 3 eexists. split; [reflexivity |].
  repeat split; [exact Hraw | exact Hmin | | exact Hle].
  apply Hge; [exact Hraw | discriminate].
Qed.

Lemma final_score_clamped_witness :
  exists final_score reasons alert_level,
    calculate_enhanced_alerts default_config storm_weather rough_sea eleven_strikes just_now
    = Some (final_score, reasons, alert_level)
    /\ (0 <= raw_sum default_config storm_weather rough_sea eleven_strikes just_now)%Q
    /\ (final_score
        == Qmin (raw_sum default_config storm_weather rough_sea eleven_strikes just_now) 100)%Q
    /\ (0 <= final_score)%Q /\ (final_score <= 100)%Q.
Proof.
  apply (final_score_clamped default_config storm_weather rough_sea eleven_strikes just_now).
  unfold sane. simpl. lia.
Defined.

(** With every bucket firing the raw sum is 190 and the final score 100. *)
Example storm_scores_100 :
  score <$> alert_locals default_config storm_weather rough_sea eleven_strikes just_now
  = Some 190%Q
  /\ (fun r => fst (fst r))
       <$> calculate_enhanced_alerts default_config storm_weather rough_sea
                                     eleven_strikes just_now
     = Some 100%Q.
Proof. split; vm_compute; reflexivity. Qed.

(** C2: on a Bora detection the level is CRITICAL and the final score lies
    within [60, 100], whatever the other readings. *)
Theorem bora_forces_critical (cfg : Configuration) (weather_data : list WeatherData)
    (marine_data : list MarineData) (lightning_data : list LightningData)
    (now : datetime) :
  sane cfg ->
  fst (check_bora_pattern cfg weather_data) = true ->
  exists final_score reasons,
    calculate_enhanced_alerts cfg weather_data marine_data lightning_data now
    = Some (final_score, reasons, "CRITICAL")
    /\ (60 <= final_score)%Q /\ (final_score <= 100)%Q.
Proof.
  intros Hsane Hbora. unfold calculate_enhanced_alerts.
  destruct (alert_locals_spec cfg weather_data marine_data lightning_data now Hsane)
    as (locals & -> & Hscore & _ & _ & Hlevel).
  cbn [mbind option_bind].
  rewrite Hbora in Hlevel. rewrite Hlevel.
  destruct (min_clamp _ _ Hscore) as (_ & Hle & Hge).
  destruct (raw_sum_bounds cfg weather_data marine_data lightning_data now) as [_ Hraw].
  unfold bora_points in Hraw. rewrite Hbora in Hraw.
  do 2 eexists. split; [reflexivity |].
  split; [| exact Hle].
  apply Hge; [exact Hraw | discriminate].
Qed.

Lemma bora_forces_critical_witness :
  exists final_score reasons,
    calculate_enhanced_alerts default_config bora_day rough_sea eleven_strikes just_now
    = Some (final_score, reasons, "CRITICAL")
    /\ (60 <= final_score)%Q /\ (final_score <= 100)%Q.
Proof.
  apply (bora_forces_critical default_config bora_day rough_sea eleven_strikes just_now).
  - unfold sane. simpl. lia.
  - reflexivity.
Defined.

(** C9: with at least one flagged marine reading the engine adds 25 points
    once, however many readings are flagged, and appends one MARINE reason,
    the fragments of all readings joined with "; ": compared with the same
    call without marine data, the score is 25 higher and the reasons are the
    same with that one reason inserted. *)
Theorem marine_scored_once (cfg : Configuration) (weather_data : list WeatherData)
    (marine_data : list MarineData) (lightning_data : list LightningData)
    (now : datetime) :
  sane cfg ->
  Exists (marine_flagged cfg) marine_data ->
  exists flagged calm,
    alert_locals cfg weather_data marine_data lightning_data now = Some flagged
    /\ alert_locals cfg weather_data [] lightning_data now = Some calm
    /\ (score flagged == score calm + 25)%Q
    /\ exists before after,
         reasons calm = before ++ after
         /\ reasons flagged = before ++ marine_reason cfg marine_data :: after.
Proof.
  intros Hsane Hflag.
  destruct (alert_locals_spec cfg weather_data marine_data lightning_data now Hsane)
    as (flagged & Ef & Hsf & Hrf & _).
  destruct (alert_locals_spec cfg weather_data [] lightning_data now Hsane)
    as (calm & Ec & Hsc & Hrc & _).
  exists flagged, calm. repeat split; [exact Ef | exact Ec | |].
  - rewrite Hsf, Hsc. unfold raw_sum, marine_points.
    rewrite (bool_decide_eq_true_2 _ Hflag).
    rewrite bool_decide_eq_false_2 by (intros H; inversion H).
    ring.
  - exists (bora_reasons cfg weather_data),
           (lightning_reasons cfg lightning_data now ++ thermal_reasons cfg weather_data).
    rewrite Hrf, Hrc. unfold marine_reasons.
    rewrite (bool_decide_eq_true_2 _ Hflag).
    rewrite bool_decide_eq_false_2 by (intros H; inversion H).
    split; reflexivity.
Qed.

Lemma rough_sea_flagged : Exists (marine_flagged default_config) rough_sea.
Proof. apply Exists_cons_hd. left. reflexivity. Qed.

Lemma marine_scored_once_witness :
  exists flagged calm,
    alert_locals default_config storm_weather rough_sea eleven_strikes just_now
    = Some flagged
    /\ alert_locals default_config storm_weather [] eleven_strikes just_now = Some calm
    /\ (score flagged == score calm + 25)%Q
    /\ exists before after,
         reasons calm = before ++ after
         /\ reasons flagged = before ++ marine_reason default_config rough_sea :: after.
Proof.
  apply (marine_scored_once default_config storm_weather rough_sea eleven_strikes just_now).
  - unfold sane. simpl. lia.
  - exact rough_sea_flagged.
Defined.

(** Two flagged readings, one reason. *)
Example rough_sea_reason :
  marine_reason default_config rough_sea
  = "🌊 MARINE: Falconara_Offshore: Short wave period 3.0s; Falconara_Offshore: High waves 3.0m; Ancona_Bay: High waves 2.5m".
Proof. vm_compute. reflexivity. Qed.

(** ** The ETA bucket *)

Lemma str_in_mentions (c : ascii) (needle s : string) :
  Py.str_in (String c needle) s = true -> mentions_char c s = true.
Proof.
  induction s as [|a s IH]; simpl.
  - discriminate.
  - destruct (ascii_dec c a) as [-> | Hne].
    + intros _. now rewrite Ascii.eqb_refl.
    + simpl. intros H. rewrite IH by exact H. apply orb_true_r.
Qed.

Lemma mentions_char_app (c : ascii) (a b : string) :
  mentions_char c (a +:+ b) = mentions_char c a || mentions_char c b.
Proof.
  induction a as [|x a IH]; simpl; [reflexivity |].
  now rewrite IH, orb_assoc.
Qed.

Lemma plain_app (a b : string) : plain (a +:+ b) = plain a && plain b.
Proof.
  unfold plain. rewrite !mentions_char_app.
  destruct (mentions_char "G" a), (mentions_char "G" b),
           (mentions_char "F" a), (mentions_char "F" b); reflexivity.
Qed.

Lemma plain_no_station (s : string) :
  plain s = true -> Py.str_in "Gubbio" s || Py.str_in "Fabriano" s = false.
Proof.
  unfold plain. rewrite andb_true_iff, !negb_true_iff. intros [HG HF].
  apply orb_false_iff. split; apply not_true_iff_false; intros H;
    apply str_in_mentions in H; congruence.
Qed.

Lemma plain_string_of_uint (u : Decimal.uint) :
  plain (NilEmpty.string_of_uint u) = true.
Proof.
  induction u; simpl; try reflexivity;
    (change (String ?c ?s) with (String c "" +:+ s); rewrite plain_app, IHu; reflexivity).
Qed.

Lemma plain_str_of_N (n : N) : plain (Py.str_of_N n) = true.
Proof. apply plain_string_of_uint. Qed.

Lemma plain_format_1f (x : Q) : plain (Py.format_1f x) = true.
Proof.
  unfold Py.format_1f, Py.sign_str. rewrite !plain_app, !plain_str_of_N.
  destruct (Qle_bool 0 x); reflexivity.
Qed.

Lemma plain_bora_reason (cfg : Configuration) (weather_data : list WeatherData) :
  plain (snd (check_bora_pattern cfg weather_data)) = true.
Proof.
  unfold check_bora_pattern.
  destruct (List.filter _ weather_data) as [|s0 ne_rest]; [reflexivity |].
  destruct (List.filter _ weather_data) as [|l0 local_rest]; [reflexivity |].
  match goal with |- context [if ?c then _ else _] => destruct c end; [| reflexivity].
  cbn [snd]. rewrite !plain_app, !plain_format_1f. reflexivity.
Qed.

Lemma bora_reasons_plain (cfg : Configuration) (weather_data : list WeatherData) :
  Forall tagged_or_plain (bora_reasons cfg weather_data).
Proof.
  unfold bora_reasons. destruct (fst _); [| constructor].
  constructor; [| constructor]. right. right.
  rewrite plain_app, plain_bora_reason. reflexivity.
Qed.

Lemma marine_reasons_tagged (cfg : Configuration) (marine_data : list MarineData) :
  Forall tagged_or_plain (marine_reasons cfg marine_data).
Proof.
  unfold marine_reasons. case_bool_decide; [| constructor].
  constructor; [| constructor]. right. left. reflexivity.
Qed.

Lemma lightning_reasons_tagged (cfg : Configuration) (lightning_data : list LightningData)
    (now : datetime) :
  Forall tagged_or_plain (lightning_reasons cfg lightning_data now).
Proof.
  unfold lightning_reasons, lightning_activity.
  destruct lightning_data as [|s0 rest]; [constructor |].
  destruct (_ >? _); [| constructor].
  destruct (Py.div _ _) as [avg|]; [| constructor].
  cbn [mbind option_bind app]. constructor; [| constructor]. left. reflexivity.
Qed.

Lemma thermal_reasons_plain (cfg : Configuration) (weather_data : list WeatherData) :
  Forall tagged_or_plain (thermal_reasons cfg weather_data).
Proof.
  unfold thermal_reasons, thermal_gradient.
  destruct (map temperature _) as [|c cs]; [constructor |].
  destruct (map temperature _) as [|i ir]; [constructor |].
  destruct (Py.gt _ _); [| constructor].
  cbn [snd app]. constructor; [| constructor]. right. right.
  rewrite !plain_app, !plain_format_1f. reflexivity.
Qed.

Lemma eta_of_tagged_or_plain (reasons : list string) (bora : bool) :
  Forall tagged_or_plain reasons ->
  get_enhanced_eta reasons bora <> "1-2 hours".
Proof.
  intros Hall. unfold get_enhanced_eta.
  destruct bora; cbv iota; [discriminate |].
  destruct (existsb (Py.str_in "LIGHTNING") reasons) eqn:EL; [discriminate |].
  destruct (existsb (Py.str_in "MARINE") reasons) eqn:EM; [discriminate |].
  match goal with |- context [existsb ?f reasons] =>
    destruct (existsb f reasons) eqn:ES end; [| discriminate].
  exfalso.
  apply existsb_exists in ES as (r & Hin & Hr).
  rewrite Forall_forall in Hall.
  destruct (Hall r (proj2 (list_elem_of_In _ _) Hin)) as [H | [H | H]].
  - assert (existsb (Py.str_in "LIGHTNING") reasons = true)
      by (apply existsb_exists; eauto).
    congruence.
  - assert (existsb (Py.str_in "MARINE") reasons = true)
      by (apply existsb_exists; eauto).
    congruence.
  - apply plain_no_station in H. congruence.
Qed.

(** C10: the ETA computed from the reasons of the engine is never
    "1-2 hours", with the Bora flag of the engine or any other flag: the
    marine reason, the only one to carry names, also carries MARINE and is
    matched first, and no other reason mentions Gubbio or Fabriano. *)
Theorem eta_never_one_to_two_hours (cfg : Configuration)
    (weather_data : list WeatherData) (marine_data : list MarineData)
    (lightning_data : list LightningData) (now : datetime) :
  sane cfg ->
  exists locals eta,
    alert_locals cfg weather_data marine_data lightning_data now = Some locals
    /\ calculated_eta cfg weather_data marine_data lightning_data now = Some eta
    /\ eta = get_enhanced_eta (reasons locals) (bora_detected locals)
    /\ eta <> "1-2 hours"
    /\ forall flag, get_enhanced_eta (reasons locals) flag <> "1-2 hours".
Proof.
  intros Hsane. unfold calculated_eta.
  destruct (alert_locals_spec cfg weather_data marine_data lightning_data now Hsane)
    as (locals & -> & _ & Hreasons & _).
  assert (Hall : Forall tagged_or_plain (reasons locals)).
  { rewrite Hreasons. repeat apply Forall_app_2.
    - apply bora_reasons_plain.
    - apply marine_reasons_tagged.
    - apply lightning_reasons_tagged.
    - apply thermal_reasons_plain. }
  exists locals, (get_enhanced_eta (reasons locals) (bora_detected locals)).
  repeat split.
  - now apply eta_of_tagged_or_plain.
  - intros flag. now apply eta_of_tagged_or_plain.
Qed.

Lemma eta_never_one_to_two_hours_witness :
  exists locals eta,
    alert_locals default_config storm_weather rough_sea eleven_strikes just_now
    = Some locals
    /\ calculated_eta default_config storm_weather rough_sea eleven_strikes just_now
       = Some eta
    /\ eta = get_enhanced_eta (reasons locals) (bora_detected locals)
    /\ eta <> "1-2 hours"
    /\ forall flag, get_enhanced_eta (reasons locals) flag <> "1-2 hours".
Proof.
  apply (eta_never_one_to_two_hours default_config storm_weather rough_sea
                                    eleven_strikes just_now).
  unfold sane. simpl. lia.
Defined.

(** The bucket itself is reachable, from reasons the engine does not
    write. *)
Example eta_one_to_two_hours_by_hand :
  get_enhanced_eta ["Storm cell over Gubbio"] false = "1-2 hours".
Proof. reflexivity. Qed.

(** * Further properties *)

(** ** The gate, rule by rule *)

Lemma rule_fires (a b c : bool) :
  (if a && b then true else if c then true else false) = true
  <-> (a = true /\ b = true) \/ c = true.
Proof. destruct a, b, c; simpl; intuition discriminate. Qed.

(** X1: for the four levels and a configured minimum among them, the gate
    approves exactly when the level clears the floor and one of three rules
    fires: the level is CRITICAL; the score is above the level's threshold
    and there was no notification yet or the last one is strictly older
    than the level's cooldown; the score is more than 25 above the last
    notified score. *)
Theorem gate_decision (self : TelegramNotifier) (now : datetime) (score : Q)
    (level minimum : Level) :
  min_alert_level self = level_name minimum ->
  should_send_alert self now score (level_name level) = true
  <-> ordinal minimum <= ordinal level
      /\ (level = CRITICAL
          \/ ((score_threshold level < score)%Q
              /\ (last_alert_time self = None
                  \/ exists t, last_alert_time self = Some t
                               /\ cooldown level < now - t))
          \/ (last_alert_score self + 25 < score)%Q).
Proof.
  intros Hmin. unfold should_send_alert, no_alert_within. rewrite Hmin.
  destruct (alert_levels_name level) as [-> _].
  destruct (alert_levels_name minimum) as [_ ->].
  simpl default.
  destruct (ordinal level <? ordinal minimum) eqn:Hfloor.
  { apply Z.ltb_lt in Hfloor. split; [discriminate | intros [H _]; lia]. }
  apply Z.ltb_ge in Hfloor.
  assert (Hcool : forall delta,
             (match last_alert_time self with
              | Some t => now - t >? delta
              | None => true
              end) = true
             <-> (last_alert_time self = None
                  \/ exists t, last_alert_time self = Some t /\ delta < now - t)).
  { intros delta. destruct (last_alert_time self) as [t|].
    - rewrite gtb_true. split.
      + intros H. right. exists t. now split.
      + intros [H | (t' & H & Ht)]; [discriminate | congruence].
    - split; [now left | reflexivity]. }
  destruct level; cbn [level_name String.eqb Ascii.eqb Bool.eqb andb score_threshold cooldown];
    rewrite ?andb_true_r.
  4: { split; [intros _; split; [exact Hfloor | now left] | reflexivity]. }
  all: rewrite rule_fires, !gt_true, Hcool.
  all: split;
    [ intros H; split; [exact Hfloor | right; exact H]
    | intros [_ [Hcrit | H]]; [discriminate Hcrit | exact H] ].
Qed.

Lemma gate_decision_witness :
  cooldown MEDIUM < 86400000000 - 0
  /\ should_send_alert (notified "LOW" 0 45) 86400000000 45 "MEDIUM" = true.
Proof.
  split; [reflexivity |].
  apply (gate_decision (notified "LOW" 0 45) 86400000000 45 MEDIUM LOW); [reflexivity |].
  split; [simpl; lia |].
  right. left. split; [reflexivity |].
  right. exists 0. split; [reflexivity | reflexivity].
Defined.

(** X2: a configured minimum level that is not a key of the level table
    counts as MEDIUM: the gate answers as it does with "MEDIUM". *)
Theorem unknown_minimum_counts_as_medium (self : TelegramNotifier) (now : datetime)
    (score : Q) (alert_level : string) :
  alert_levels !! min_alert_level self = None ->
  should_send_alert self now score alert_level
  = should_send_alert (set_min_alert_level self "MEDIUM") now score alert_level.
Proof.
  intros Hnone. unfold should_send_alert, no_alert_within. cbn [min_alert_level
    set_min_alert_level last_alert_time last_alert_score].
  rewrite Hnone. reflexivity.
Qed.

Lemma unknown_minimum_counts_as_medium_witness :
  should_send_alert (notified "SEVERE" 0 10) 86400000000 30 "LOW"
  = should_send_alert (set_min_alert_level (notified "SEVERE" 0 10) "MEDIUM")
                      86400000000 30 "LOW".
Proof.
  apply (unknown_minimum_counts_as_medium (notified "SEVERE" 0 10) 86400000000 30 "LOW").
  reflexivity.
Defined.

Lemma minimum_value_positive (self : TelegramNotifier) :
  1 <= default 2 (alert_levels !! min_alert_level self).
Proof.
  destruct (alert_levels !! min_alert_level self) as [v|] eqn:E; simpl; [| lia].
  apply alert_levels_range in E. lia.
Qed.

(** X3: a level name other than the four exact upper-case names is
    compared for the floor after upper-casing, but matches none of the level
    rules: it is notified exactly when it clears the floor and the score is
    more than 25 above the last notified score.  A name that is no key of
    the table even after upper-casing never clears the floor. *)
Theorem other_level_names (self : TelegramNotifier) (now : datetime)
    (score : Q) (alert_level : string) :
  alert_level <> "CRITICAL" -> alert_level <> "HIGH" ->
  alert_level <> "MEDIUM" -> alert_level <> "LOW" ->
  (should_send_alert self now score alert_level = true
   <-> clears_floor self alert_level /\ (last_alert_score self + 25 < score)%Q)
  /\ (alert_levels !! Py.upper alert_level = None ->
      should_send_alert self now score alert_level = false).
Proof.
  intros Hc Hh Hm Hl.
  assert (Hfloor_none : alert_levels !! Py.upper alert_level = None ->
                        should_send_alert self now score alert_level = false).
  { intros Hnone. apply should_send_alert_floor. rewrite Hnone. simpl.
    pose proof (minimum_value_positive self). lia. }
  split; [| exact Hfloor_none].
  unfold should_send_alert, clears_floor.
  apply String.eqb_neq in Hc, Hh, Hm, Hl. rewrite Hc, Hh, Hm, Hl.
  cbn [andb].
  destruct (_ <? _) eqn:Hfloor.
  - apply Z.ltb_lt in Hfloor. split; [discriminate | intros [H _]; lia].
  - apply Z.ltb_ge in Hfloor. rewrite <- gt_true.
    destruct (Py.gt score _); intuition discriminate.
Qed.

Lemma other_level_names_witness :
  should_send_alert (notified "MEDIUM" 0 10) 60000000 65 "high" = true
  /\ should_send_alert (notified "MEDIUM" 0 10) 60000000 65 "SEVERE" = false.
Proof.
  split.
  - apply (other_level_names (notified "MEDIUM" 0 10) 60000000 65 "high");
      try discriminate.
    split; [unfold clears_floor; vm_compute; discriminate | reflexivity].
  - apply (other_level_names (notified "MEDIUM" 0 10) 60000000 65 "SEVERE");
      try discriminate.
    reflexivity.
Defined.

(** ** Markup and the retry of [send_message] *)

Lemma remove_char_filter (c : ascii) (s : string) :
  Py.remove_char c s = str_filter (fun a => negb (Ascii.eqb a c)) s.
Proof.
  induction s as [|a s IH]; simpl; [reflexivity |].
  rewrite IH. now destruct (Ascii.eqb a c).
Qed.

Lemma str_filter_filter (f g : ascii -> bool) (s : string) :
  str_filter f (str_filter g s) = str_filter (fun a => g a && f a) s.
Proof.
  induction s as [|a s IH]; simpl; [reflexivity |].
  destruct (g a); simpl; [destruct (f a) |]; now rewrite IH.
Qed.

Lemma str_filter_ext (f g : ascii -> bool) (s : string) :
  (forall a, f a = g a) -> str_filter f s = str_filter g s.
Proof.
  intros H. induction s as [|a s IH]; simpl; [reflexivity |].
  now rewrite H, IH.
Qed.

Lemma mentions_char_filter (keep : ascii -> bool) (c : ascii) (s : string) :
  keep c = false -> mentions_char c (str_filter keep s) = false.
Proof.
  intros Hc. induction s as [|a s IH]; simpl; [reflexivity |].
  destruct (keep a) eqn:Ka; [| exact IH]. simpl. rewrite IH, orb_false_r.
  apply Ascii.eqb_neq. intros ->. congruence.
Qed.

Lemma str_filter_id (keep : ascii -> bool) (s : string) :
  (forall c, mentions_char c s = true -> keep c = true) -> str_filter keep s = s.
Proof.
  induction s as [|a s IH]; simpl; intros H; [reflexivity |].
  rewrite (H a) by (now rewrite Ascii.eqb_refl).
  f_equal. apply IH. intros c Hc. apply H. rewrite Hc. apply orb_true_r.
Qed.

(** X4: [_strip_markdown] keeps exactly the characters other than
    [* _ ` [ ] ( )], in their order: none of the seven is left, and a text
    without them is returned as it is. *)
Theorem strip_markdown_keeps_the_rest (text : string) :
  _strip_markdown text = str_filter (fun c => negb (is_markdown_char c)) text
  /\ has_markdown (_strip_markdown text) = false
  /\ (has_markdown text = false -> _strip_markdown text = text).
Proof.
  assert (Heq : _strip_markdown text
                = str_filter (fun c => negb (is_markdown_char c)) text).
  { unfold _strip_markdown. rewrite !remove_char_filter, !str_filter_filter.
    apply str_filter_ext. intros a. unfold is_markdown_char, markdown_chars. simpl.
    repeat match goal with |- context [Ascii.eqb a ?c] => destruct (Ascii.eqb a c) end;
      reflexivity. }
  split; [exact Heq |]. split.
  - rewrite Heq. unfold has_markdown, markdown_chars. cbn [existsb].
    rewrite !mentions_char_filter; reflexivity.
  - intros Hplain. rewrite Heq. apply str_filter_id. intros c Hc.
    apply negb_true_iff, not_true_iff_false. intros Hmd.
    unfold is_markdown_char in Hmd. apply existsb_exists in Hmd as (m & Hin & Hcm).
    apply Ascii.eqb_eq in Hcm. subst m.
    assert (has_markdown text = true); [| congruence].
    unfold has_markdown. apply existsb_exists. eauto.
Qed.

Lemma strip_markdown_keeps_the_rest_witness :
  _strip_markdown "Wind 50 km/h" = "Wind 50 km/h".
Proof.
  apply (strip_markdown_keeps_the_rest "Wind 50 km/h"). reflexivity.
Defined.

(** X5: [send_message] calls the transport at most twice, and a second
    call carries no parse mode and none of the Markdown characters: a
    transport that refuses anything else is indistinguishable. *)
Theorem retry_is_single_and_plain (self : TelegramNotifier) (post : Transport)
    (now : datetime) (message : string) :
  send_message self post now message
  = send_message self (plain_retry_only post) now message.
Proof.
  unfold send_message. f_equal.
  assert (H : post_message self post message
              = post_message self (plain_retry_only post) message);
    [| now rewrite H].
  unfold post_message. cbn [plain_retry_only p_parse_mode p_text].
  destruct (post 0%nat _ _) as [|response]; [reflexivity |].
  cbn [mbind option_bind].
  destruct (status_code response =? 400); [| reflexivity].
  destruct (if String.prefix _ _ then _ else _) as [description|]; [| reflexivity].
  cbn [mbind option_bind].
  destruct (_ || _); [| reflexivity].
  destruct (strip_markdown_keeps_the_rest
              (if (4096 <? String.length message)%nat
               then Py.str_take 4090 message +:+ "..." else message))
    as (_ & -> & _).
  reflexivity.
Qed.

(** X6: a first answer 400 whose description mentions neither "parse" nor
    "markdown" is final: there is no retry, [send_message] returns [False]
    and the notifier is unchanged. *)
Theorem plain_bad_request_is_final (self : TelegramNotifier) (post : Transport)
    (now : datetime) (message : string) (response : Response) :
  (forall url doc, post 0%nat url doc = PostReturns response) ->
  plain_bad_request response ->
  send_message self post now message = (false, self).
Proof.
  intros Hfirst (Hstatus & description & Hdesc & Hparse & Hmd).
  unfold send_message, post_message. rewrite Hfirst. cbn [mbind option_bind].
  rewrite Hstatus. cbn [Z.eqb Pos.eqb]. rewrite Hdesc. cbn [mbind option_bind].
  rewrite Hparse, Hmd. cbn [orb mbind option_bind].
  unfold raises_for_status. rewrite Hstatus. reflexivity.
Qed.

Lemma plain_bad_request_is_final_witness :
  send_message (notified "MEDIUM" 0 10) (transport_first chat_not_found) 77 "alert"
  = (false, notified "MEDIUM" 0 10).
Proof.
  apply (plain_bad_request_is_final (notified "MEDIUM" 0 10)
           (transport_first chat_not_found) 77 "alert" chat_not_found).
  - reflexivity.
  - split; [reflexivity |]. exists (Some "Bad Request: chat not found").
    repeat split; reflexivity.
Defined.

(** A rejected markup followed by an accepted plain retry is a delivery. *)
Example parse_error_then_retry :
  fst (send_message (notified "MEDIUM" 0 10) (transport_first cannot_parse) 77 "*alert*")
  = true.
Proof. reflexivity. Qed.

(** ** The message *)

(** X7: [format_enhanced_message] shows the first six reasons only: the
    message built from a list of reasons is the message built from its first
    six. *)
Theorem message_shows_six_reasons (score : Q) (reasons : list string)
    (alert_level eta : string) (now : datetime) :
  format_enhanced_message score reasons alert_level eta now
  = format_enhanced_message score (take 6 reasons) alert_level eta now.
Proof.
  unfold format_enhanced_message.
  rewrite take_take, Nat.min_id.
  destruct reasons as [|r rs]; reflexivity.
Qed.

(** ** The engine: errors, levels, reasons *)






(** X9: without a Bora detection the level follows the raw sum of the
    buckets, not the score cut at 100: HIGH above 70, MEDIUM above 40 and up
    to 70, LOW up to 40; it is never CRITICAL. *)
Theorem level_follows_raw_sum (cfg : Configuration) (weather_data : list WeatherData)
    (marine_data : list MarineData) (lightning_data : list LightningData)
    (now : datetime) :
  sane cfg ->
  fst (check_bora_pattern cfg weather_data) = false ->
  exists final_score reasons alert_level,
    calculate_enhanced_alerts cfg weather_data marine_data lightning_data now
    = Some (final_score, reasons, alert_level)
    /\ ((70 < raw_sum cfg weather_data marine_data lightning_data now)%Q ->
        alert_level = "HIGH")
    /\ ((40 < raw_sum cfg weather_data marine_data lightning_data now)%Q ->
        (raw_sum cfg weather_data marine_data lightning_data now <= 70)%Q ->
        alert_level = "MEDIUM")
    /\ ((raw_sum cfg weather_data marine_data lightning_data now <= 40)%Q ->
        alert_level = "LOW")
    /\ alert_level <> "CRITICAL".
Proof.
  intros Hsane Hbora. unfold calculate_enhanced_alerts.
  destruct (alert_locals_spec cfg weather_data marine_data lightning_data now Hsane)
    as (locals & -> & Hscore & _ & _ & Hlevel).
  cbn [mbind option_bind]. rewrite Hbora in Hlevel.
  do 3 eexists. split; [reflexivity |].
  rewrite Hlevel. unfold determine_alert_level. cbn [String.eqb Ascii.eqb Bool.eqb negb].
  rewrite <- Hscore.
  destruct (Py.gt (score locals) 70) eqn:E70;
    [apply gt_true in E70 | apply gt_false in E70];
  destruct (Py.gt (score locals) 40) eqn:E40;
    [apply gt_true in E40 | apply gt_false in E40 | apply gt_true in E40
     | apply gt_false in E40];
  destruct (Py.gt (score locals) 20) eqn:E20;
  repeat split; intros; try reflexivity; try discriminate; exfalso; lra.
Qed.

Lemma level_follows_raw_sum_witness :
  exists final_score reasons alert_level,
    calculate_enhanced_alerts default_config rainy_day [] [] just_now
    = Some (final_score, reasons, alert_level)
    /\ ((70 < raw_sum default_config rainy_day [] [] just_now)%Q ->
        alert_level = "HIGH")
    /\ ((40 < raw_sum default_config rainy_day [] [] just_now)%Q ->
        (raw_sum default_config rainy_day [] [] just_now <= 70)%Q ->
        alert_level = "MEDIUM")
    /\ ((raw_sum default_config rainy_day [] [] just_now <= 40)%Q ->
        alert_level = "LOW")
    /\ alert_level <> "CRITICAL".
Proof.
  apply (level_follows_raw_sum default_config rainy_day [] [] just_now).
  - unfold sane. simpl. lia.
  - reflexivity.
Defined.

(** Stations alone reach HIGH: three rainy, windy, humid stations score 90. *)
Example rainy_day_is_high :
  calculate_enhanced_alerts default_config rainy_day [] [] just_now
  = Some (90%Q, [], "HIGH").
Proof. vm_compute. reflexivity. Qed.

(** X10: the first alert of the engine above LOW is always approved when
    its level clears the floor: for a notifier that has not notified yet, a
    result of level MEDIUM, HIGH or CRITICAL passes the gate, the score
    thresholds of the gate (40 and 60) being implied by the thresholds of the
    level assignment (40 and 70). *)
Theorem first_engine_alert_is_approved (cfg : Configuration)
    (weather_data : list WeatherData) (marine_data : list MarineData)
    (lightning_data : list LightningData) (now gate_now : datetime)
    (self : TelegramNotifier) (final_score : Q) (reasons : list string)
    (alert_level : string) :
  sane cfg ->
  calculate_enhanced_alerts cfg weather_data marine_data lightning_data now
  = Some (final_score, reasons, alert_level) ->
  alert_level <> "LOW" ->
  clears_floor self alert_level ->
  last_alert_time self = None ->
  should_send_alert self gate_now final_score alert_level = true.
Proof.
  intros Hsane Hcalc Hlow Hfloor Hnone. unfold calculate_enhanced_alerts in Hcalc.
  destruct (alert_locals_spec cfg weather_data marine_data lightning_data now Hsane)
    as (locals & E & _ & _ & _ & Hlevel).
  rewrite E in Hcalc. cbn [mbind option_bind] in Hcalc.
  injection Hcalc as Hs Hr Hl. subst final_score reasons alert_level.
  unfold should_send_alert, no_alert_within. rewrite Hnone.
  unfold clears_floor in Hfloor. apply Z.ltb_ge in Hfloor. rewrite Hfloor.
  clear Hfloor. rewrite Hlevel in Hlow |- *.
  unfold determine_alert_level in Hlow |- *.
  assert (Hmin : forall t, (t < 100)%Q -> Py.gt (score locals) t = true ->
                           Py.gt (Py.min (score locals) 100) t = true).
  { intros t Ht Hgt. apply gt_true in Hgt. apply gt_true. unfold Py.min.
    destruct (Py.lt 100 (score locals)); [exact Ht | exact Hgt]. }
  destruct (fst (check_bora_pattern cfg weather_data)); [reflexivity |].
  cbn [String.eqb Ascii.eqb Bool.eqb negb] in Hlow |- *.
  destruct (Py.gt (score locals) 70) eqn:E70.
  { cbn [String.eqb Ascii.eqb Bool.eqb andb].
    rewrite (Hmin 60%Q); [reflexivity | reflexivity |].
    apply gt_true in E70. apply gt_true. lra. }
  destruct (Py.gt (score locals) 40) eqn:E40.
  { cbn [String.eqb Ascii.eqb Bool.eqb andb].
    rewrite (Hmin 40%Q); [reflexivity | reflexivity | exact E40]. }
  destruct (Py.gt (score locals) 20); congruence.
Qed.

Lemma first_engine_alert_is_approved_witness :
  should_send_alert (fresh_notifier "MEDIUM") 60000000 90 "HIGH" = true.
Proof.
  apply (first_engine_alert_is_approved default_config rainy_day [] [] just_now
           60000000 (fresh_notifier "MEDIUM") 90 [] "HIGH").
  - unfold sane. simpl. lia.
  - vm_compute. reflexivity.
  - discriminate.
  - unfold clears_floor. vm_compute. discriminate.
  - reflexivity.
Defined.

Lemma lightning_reasons_short (cfg : Configuration) (lightning_data : list LightningData)
    (now : datetime) :
  (length (lightning_reasons cfg lightning_data now) <= 1)%nat.
Proof.
  unfold lightning_reasons, lightning_activity.
  destruct lightning_data as [|s0 rest]; [simpl; lia |].
  destruct (_ >? _); [| simpl; lia].
  destruct (Py.div _ _); simpl; lia.
Qed.

Lemma thermal_reasons_short (cfg : Configuration) (weather_data : list WeatherData) :
  (length (thermal_reasons cfg weather_data) <= 1)%nat.
Proof.
  unfold thermal_reasons, thermal_gradient.
  destruct (map temperature _) as [|c cs]; [simpl; lia |].
  destruct (map temperature _) as [|i ir]; [simpl; lia |].
  destruct (Py.gt _ _); simpl; lia.
Qed.

(** X11: the engine returns at most four reasons, one per detector, so the
    six-reason limit of the message never drops a reason of the engine. *)
Theorem engine_reasons_all_shown (cfg : Configuration)
    (weather_data : list WeatherData) (marine_data : list MarineData)
    (lightning_data : list LightningData) (now : datetime) :
  sane cfg ->
  exists final_score reasons alert_level,
    calculate_enhanced_alerts cfg weather_data marine_data lightning_data now
    = Some (final_score, reasons, alert_level)
    /\ (length reasons <= 4)%nat
    /\ take 6 reasons = reasons.
Proof.
  intros Hsane. unfold calculate_enhanced_alerts.
  destruct (alert_locals_spec cfg weather_data marine_data lightning_data now Hsane)
    as (locals & -> & _ & Hreasons & _).
  cbn [mbind option_bind]. do 3 eexists. split; [reflexivity |].
  assert (Hlen : (length (reasons locals) <= 4)%nat).
  { rewrite Hreasons, !length_app.
    pose proof (lightning_reasons_short cfg lightning_data now).
    pose proof (thermal_reasons_short cfg weather_data).
    assert (length (bora_reasons cfg weather_data) <= 1)%nat
      by (unfold bora_reasons; destruct (fst _); simpl; lia).
    assert (length (marine_reasons cfg marine_data) <= 1)%nat
      by (unfold marine_reasons; case_bool_decide; simpl; lia).
    lia. }
  split; [exact Hlen |]. apply take_ge. lia.
Qed.

Lemma engine_reasons_all_shown_witness :
  exists final_score reasons alert_level,
    calculate_enhanced_alerts default_config storm_weather rough_sea eleven_strikes
                              just_now
    = Some (final_score, reasons, alert_level)
    /\ (length reasons <= 4)%nat
    /\ take 6 reasons = reasons.
Proof.
  apply (engine_reasons_all_shown default_config storm_weather rough_sea eleven_strikes
                                  just_now).
  unfold sane. simpl. lia.
Defined.

(** ** The Bora detector and the other stations *)

Lemma filter_filter_implied {A : Type} (f g : A -> bool) (l : list A) :
  (forall a, f a = true -> g a = true) ->
  List.filter f (List.filter g l) = List.filter f l.
Proof.
  intros H. induction l as [|a l IH]; simpl; [reflexivity |].
  destruct (g a) eqn:Eg; simpl.
  - destruct (f a); now rewrite IH.
  - destruct (f a) eqn:Ef; [| exact IH]. apply H in Ef. congruence.
Qed.

(** X12: [check_bora_pattern] reads the readings of Trieste, Nova_Gorica,
    Rijeka, Ancona and Falconara only: dropping every other reading from
    its input changes neither the verdict nor the explanation. *)
Theorem bora_reads_five_stations (cfg : Configuration) (weather_data : list WeatherData) :
  check_bora_pattern cfg
    (List.filter (fun d => bool_decide (bora_station d)) weather_data)
  = check_bora_pattern cfg weather_data.
Proof.
  unfold check_bora_pattern.
  rewrite !(filter_filter_implied _ (fun d => bool_decide (bora_station d))).
  - reflexivity.
  - intros d H. apply str_in_list_iff in H. apply bool_decide_eq_true.
    right. unfold is_local. simpl in H. intuition congruence.
  - intros d H. apply str_in_list_iff in H. apply bool_decide_eq_true.
    left. unfold is_reference. simpl in H. intuition congruence.
Qed.

(** ** Tags in the reasons *)

Lemma append_assoc (a b c : string) : (a +:+ b) +:+ c = a +:+ (b +:+ c).
Proof.
  induction a as [|x a IH]; [reflexivity |].
  change (String x ((a +:+ b) +:+ c) = String x (a +:+ (b +:+ c))). now rewrite IH.
Qed.

Lemma append_nil_r (a : string) : a +:+ "" = a.
Proof.
  induction a as [|x a IH]; [reflexivity |].
  change (String x (a +:+ "") = String x a). now rewrite IH.
Qed.

Lemma prefix_mismatch (needle t rest : string) :
  mismatch needle t = true -> String.prefix needle (t +:+ rest) = false.
Proof.
  revert t. induction needle as [|x needle IH]; intros t; [discriminate |].
  destruct t as [|y t]; [discriminate |]. simpl.
  destruct (ascii_dec x y) as [-> | Hne].
  - rewrite Ascii.eqb_refl. apply IH.
  - reflexivity.
Qed.

Lemma str_in_clear (needle a rest : string) :
  clear_of needle a = true -> Py.str_in needle (a +:+ rest) = Py.str_in needle rest.
Proof.
  induction a as [|x a IH]; [reflexivity |].
  cbn [clear_of]. rewrite andb_true_iff. intros [Hm Hc].
  change (String x a +:+ rest) with (String x (a +:+ rest)).
  cbn [Py.str_in].
  change (String x (a +:+ rest)) with (String x a +:+ rest).
  rewrite (prefix_mismatch _ _ _ Hm). now apply IH.
Qed.

Lemma clear_of_first_char (c : ascii) (needle a : string) :
  mentions_char c a = false -> clear_of (String c needle) a = true.
Proof.
  induction a as [|x a IH]; [reflexivity |].
  cbn [mentions_char clear_of mismatch]. rewrite orb_false_iff. intros [Hx Ha].
  rewrite Ascii.eqb_sym, Hx. now rewrite IH.
Qed.

Lemma prefix_boundary (c : ascii) (needle a rest : string) :
  mentions_char c needle = false ->
  String.prefix needle (a +:+ String c rest) = String.prefix needle a.
Proof.
  revert needle. induction a as [|x a IH]; intros needle Hc.
  - destruct needle as [|y needle]; [reflexivity |].
    cbn [mentions_char] in Hc. apply orb_false_iff in Hc as [Hy _].
    simpl. destruct (ascii_dec y c) as [-> | Hne]; [| reflexivity].
    now rewrite Ascii.eqb_refl in Hy.
  - destruct needle as [|y needle]; [reflexivity |].
    cbn [mentions_char] in Hc. apply orb_false_iff in Hc as [_ Hneedle].
    simpl. destruct (ascii_dec y x); [now apply IH | reflexivity].
Qed.

Lemma str_in_boundary (c : ascii) (needle a rest : string) :
  mentions_char c needle = false ->
  Py.str_in needle (a +:+ String c rest)
  = Py.str_in needle a || Py.str_in needle (String c rest).
Proof.
  intros Hc. induction a as [|x a IH].
  - cbn [String.append]. destruct (Py.str_in needle "") eqn:E; [| reflexivity].
    destruct needle as [|y needle]; [reflexivity | discriminate].
  - change (String x a +:+ String c rest) with (String x (a +:+ String c rest)).
    cbn [Py.str_in]. rewrite IH.
    change (String x (a +:+ String c rest)) with (String x a +:+ String c rest).
    rewrite (prefix_boundary c needle (String x a) rest Hc).
    now rewrite orb_assoc.
Qed.

Lemma mentions_all_chars (p : ascii -> bool) (c : ascii) (s : string) :
  all_chars p s = true -> p c = false -> mentions_char c s = false.
Proof.
  intros Hall Hc. induction s as [|a s IH]; [reflexivity |].
  cbn [all_chars] in Hall. apply andb_true_iff in Hall as [Ha Hs].
  cbn [mentions_char]. rewrite (IH Hs), orb_false_r.
  apply Ascii.eqb_neq. intros ->. congruence.
Qed.

Lemma all_chars_app (p : ascii -> bool) (a b : string) :
  all_chars p (a +:+ b) = all_chars p a && all_chars p b.
Proof.
  induction a as [|x a IH]; simpl; [reflexivity |].
  now rewrite IH, andb_assoc.
Qed.

Lemma number_chars_string_of_uint (u : Decimal.uint) :
  all_chars is_number_char (NilEmpty.string_of_uint u) = true.
Proof. induction u; simpl; try reflexivity; exact IHu. Qed.

Lemma number_chars_format_1f (x : Q) : all_chars is_number_char (Py.format_1f x) = true.
Proof.
  unfold Py.format_1f, Py.sign_str, Py.str_of_N.
  rewrite !all_chars_app, !number_chars_string_of_uint.
  destruct (Qle_bool 0 x); reflexivity.
Qed.

Lemma format_1f_lacks (c : ascii) (x : Q) :
  is_number_char c = false -> mentions_char c (Py.format_1f x) = false.
Proof. apply mentions_all_chars, number_chars_format_1f. Qed.

Lemma str_of_N_lacks (c : ascii) (n : N) :
  is_number_char c = false -> mentions_char c (Py.str_of_N n) = false.
Proof. apply mentions_all_chars, number_chars_string_of_uint. Qed.

Lemma lacks_char_not_in (c : ascii) (needle s : string) :
  mentions_char c s = false -> Py.str_in (String c needle) s = false.
Proof.
  intros H. apply not_true_iff_false. intros Hin.
  apply str_in_mentions in Hin. congruence.
Qed.

Lemma str_in_before_literal (needle a lit rest : string) :
  match lit with
  | String c _ => negb (mentions_char c needle)
  | EmptyString => false
  end = true ->
  clear_of needle lit = true ->
  Py.str_in needle (a +:+ (lit +:+ rest)) = Py.str_in needle a || Py.str_in needle rest.
Proof.
  intros Hfirst Hclear. destruct lit as [|c lit]; [discriminate |].
  apply negb_true_iff in Hfirst.
  change (String c lit +:+ rest) with (String c (lit +:+ rest)).
  rewrite (str_in_boundary c needle a (lit +:+ rest) Hfirst).
  change (String c (lit +:+ rest)) with (String c lit +:+ rest).
  now rewrite (str_in_clear _ _ _ Hclear).
Qed.

Lemma marine_fragment_free (needle : string) (cfg : Configuration) (d : MarineData)
    (frag rest : string) :
  marine_safe needle = true ->
  Py.str_in needle (location d) = false ->
  In frag (marine_fragments cfg d) ->
  Py.str_in needle (frag +:+ rest) = Py.str_in needle rest.
Proof.
  intros Hsafe Hloc Hin. unfold marine_safe in Hsafe.
  destruct needle as [|c needle]; [discriminate |].
  rewrite !andb_true_iff, !negb_true_iff in Hsafe.
  destruct Hsafe as [[[[[[[Hnum Hcolon] _] Hshort] Hhigh] Hs] Hm] _].
  assert (Hfmt : forall x, clear_of (String c needle) (Py.format_1f x) = true)
    by (intros x; apply clear_of_first_char, format_1f_lacks, Hnum).
  unfold marine_fragments in Hin. apply in_app_or in Hin.
  destruct Hin as [Hin | Hin];
    match type of Hin with In _ (if ?b then _ else _) => destruct b end;
    try contradiction; destruct Hin as [<- | []]; rewrite !append_assoc.
  - rewrite str_in_before_literal, Hloc by (try apply negb_true_iff; assumption).
    cbn [orb]. now rewrite (str_in_clear _ _ _ (Hfmt _)), (str_in_clear _ _ _ Hs).
  - rewrite str_in_before_literal, Hloc by (try apply negb_true_iff; assumption).
    cbn [orb]. now rewrite (str_in_clear _ _ _ (Hfmt _)), (str_in_clear _ _ _ Hm).
Qed.

Lemma join_free (needle : string) (frags : list string) (rest : string) :
  (forall frag, In frag frags ->
                forall rest, Py.str_in needle (frag +:+ rest) = Py.str_in needle rest) ->
  clear_of needle "; " = true ->
  Py.str_in needle (Py.join "; " frags +:+ rest) = Py.str_in needle rest.
Proof.
  intros Hfrag Hsep. induction frags as [|p frags IH]; [reflexivity |].
  destruct frags as [|q frags].
  - apply Hfrag. now left.
  - change (Py.join "; " (p :: q :: frags))
      with (p +:+ "; " +:+ Py.join "; " (q :: frags)).
    rewrite !append_assoc, (Hfrag p) by (now left).
    rewrite (str_in_clear _ _ _ Hsep). apply IH.
    intros frag Hin. apply Hfrag. now right.
Qed.

(** The marine reason contains a safe needle only through a location. *)
Lemma marine_reason_free (needle : string) (cfg : Configuration)
    (marine_data : list MarineData) :
  marine_safe needle = true ->
  Forall (fun d => Py.str_in needle (location d) = false) marine_data ->
  Py.str_in needle (marine_reason cfg marine_data) = false.
Proof.
  intros Hsafe Hloc. unfold marine_reason.
  assert (Hparts := Hsafe). unfold marine_safe in Hparts.
  destruct needle as [|c needle]; [discriminate |].
  rewrite !andb_true_iff in Hparts.
  destruct Hparts as [[[[[[[_ _] Hprefix] _] _] _] _] Hsep].
  rewrite (str_in_clear _ _ _ Hprefix).
  rewrite <- (append_nil_r (Py.join _ _)).
  rewrite join_free; [reflexivity | | exact Hsep].
  intros frag Hin rest. apply in_flat_map in Hin as (d & Hd & Hin).
  rewrite Forall_forall in Hloc.
  apply (marine_fragment_free _ cfg d); [exact Hsafe | | exact Hin].
  apply Hloc. now apply list_elem_of_In.
Qed.

Lemma thermal_reasons_free (needle : string) (cfg : Configuration)
    (weather_data : list WeatherData) :
  thermal_safe needle = true ->
  existsb (Py.str_in needle) (thermal_reasons cfg weather_data) = false.
Proof.
  intros Hsafe. unfold thermal_safe in Hsafe.
  destruct needle as [|c needle]; [discriminate |].
  rewrite !andb_true_iff, !negb_true_iff in Hsafe.
  destruct Hsafe as [[[[Hnum H1] H2] H3] H4].
  assert (Hfmt : forall x, clear_of (String c needle) (Py.format_1f x) = true)
    by (intros x; apply clear_of_first_char, format_1f_lacks, Hnum).
  unfold thermal_reasons, thermal_gradient.
  destruct (map temperature _) as [|t0 ts]; [reflexivity |].
  destruct (map temperature _) as [|i0 ir]; [reflexivity |].
  destruct (Py.gt _ _); [| reflexivity].
  cbn [snd app existsb]. rewrite orb_false_r.
  rewrite (str_in_clear _ _ _ H1), (str_in_clear _ _ _ (Hfmt _)),
    (str_in_clear _ _ _ H2), (str_in_clear _ _ _ (Hfmt _)),
    (str_in_clear _ _ _ H3), (str_in_clear _ _ _ (Hfmt _)).
  exact H4.
Qed.

(** The lightning reasons: none when the bucket does not fire, else one,
    tagged LIGHTNING and without a capital B. *)
Lemma lightning_reasons_cases (cfg : Configuration) (lightning_data : list LightningData)
    (now : datetime) :
  sane cfg ->
  if bool_decide (LIGHTNING_DENSITY_THRESHOLD cfg
                  < Z.of_nat (length (nearby_strikes_of cfg lightning_data now)))
  then exists reason,
      lightning_reasons cfg lightning_data now = [reason]
      /\ Py.str_in "LIGHTNING" reason = true
      /\ mentions_char "B" reason = false
  else lightning_reasons cfg lightning_data now = [].
Proof.
  intros Hsane. unfold sane in Hsane. unfold lightning_reasons, lightning_activity.
  destruct lightning_data as [|s0 rest].
  { simpl. case_bool_decide; [lia | reflexivity]. }
  set (nearby := nearby_strikes_of cfg (s0 :: rest) now).
  destruct (Z.of_nat (length nearby) >? LIGHTNING_DENSITY_THRESHOLD cfg) eqn:E.
  - apply gtb_true in E. rewrite bool_decide_eq_true_2 by exact E.
    unfold Py.div. rewrite len_nonzero by lia. cbn [mbind option_bind app].
    eexists. split; [reflexivity |]. split; [reflexivity |].
    rewrite !mentions_char_app, str_of_N_lacks, format_1f_lacks; reflexivity.
  - apply gtb_false in E. rewrite bool_decide_eq_false_2 by lia. reflexivity.
Qed.

Lemma bora_reason_tagged (cfg : Configuration) (weather_data : list WeatherData) :
  existsb (Py.str_in "BORA") (bora_reasons cfg weather_data)
  = fst (check_bora_pattern cfg weather_data).
Proof. unfold bora_reasons. destruct (fst _); reflexivity. Qed.

Lemma thermal_reasons_lack_B (cfg : Configuration) (weather_data : list WeatherData) :
  existsb (Py.str_in "BORA") (thermal_reasons cfg weather_data) = false.
Proof. apply thermal_reasons_free. reflexivity. Qed.

(** X13: the ETA of the engine is decided by its detectors in the order
    Bora, lightning, marine, provided no marine location contains
    "LIGHTNING": the Bora bucket on a detection, else "30-60 minutes" when the
    lightning bucket fires, else "45-90 minutes" when a marine reading is
    flagged, else "2-3 hours"; the thermal reason and the stations never
    change it. *)
Theorem eta_follows_detectors (cfg : Configuration) (weather_data : list WeatherData)
    (marine_data : list MarineData) (lightning_data : list LightningData)
    (now : datetime) :
  sane cfg ->
  Forall (fun d => Py.str_in "LIGHTNING" (location d) = false) marine_data ->
  calculated_eta cfg weather_data marine_data lightning_data now
  = Some (eta_of_detectors cfg weather_data marine_data lightning_data now).
Proof.
  intros Hsane Hloc. unfold calculated_eta, eta_of_detectors.
  destruct (alert_locals_spec cfg weather_data marine_data lightning_data now Hsane)
    as (locals & -> & _ & Hreasons & Hflag & _).
  cbn [mbind option_bind]. f_equal. unfold get_enhanced_eta.
  rewrite Hflag. destruct (fst (check_bora_pattern cfg weather_data)) eqn:Hb;
    [reflexivity |].
  rewrite Hreasons. unfold bora_reasons. rewrite Hb. cbn [app].
  rewrite !existsb_app.
  rewrite !(thermal_reasons_free _ cfg weather_data) by reflexivity.
  rewrite !orb_false_r.
  assert (Hm : existsb (Py.str_in "LIGHTNING") (marine_reasons cfg marine_data) = false).
  { unfold marine_reasons. case_bool_decide; [| reflexivity].
    cbn [existsb]. rewrite marine_reason_free; [reflexivity | reflexivity | exact Hloc]. }
  rewrite Hm. cbn [orb].
  pose proof (lightning_reasons_cases cfg lightning_data now Hsane) as Hl.
  case_bool_decide.
  - destruct Hl as (reason & -> & Htag & _). cbn [existsb]. now rewrite Htag.
  - rewrite Hl. cbn [existsb]. rewrite !orb_false_r.
    unfold marine_reasons. case_bool_decide; [reflexivity |].
    cbn [existsb].
    pose proof (thermal_reasons_plain cfg weather_data) as Hplain.
    destruct (existsb _ (thermal_reasons cfg weather_data)) eqn:E; [| reflexivity].
    exfalso. apply existsb_exists in E as (r & Hin & Hr).
    rewrite Forall_forall in Hplain.
    destruct (Hplain r (proj2 (list_elem_of_In _ _) Hin)) as [H' | [H' | H']].
    + assert (existsb (Py.str_in "LIGHTNING") (thermal_reasons cfg weather_data) = true)
        by (apply existsb_exists; eauto).
      rewrite thermal_reasons_free in H1 by reflexivity. discriminate.
    + assert (existsb (Py.str_in "MARINE") (thermal_reasons cfg weather_data) = true)
        by (apply existsb_exists; eauto).
      rewrite thermal_reasons_free in H1 by reflexivity. discriminate.
    + apply plain_no_station in H'. congruence.
Qed.

Lemma eta_follows_detectors_witness :
  calculated_eta default_config rainy_day rough_sea eleven_strikes just_now
  = Some "30-60 minutes".
Proof.
  apply (eta_follows_detectors default_config rainy_day rough_sea eleven_strikes just_now).
  - unfold sane. simpl. lia.
  - repeat constructor.
Defined.

Lemma lightning_reasons_lack_B (cfg : Configuration) (lightning_data : list LightningData)
    (now : datetime) :
  sane cfg ->
  existsb (Py.str_in "BORA") (lightning_reasons cfg lightning_data now) = false.
Proof.
  intros Hsane.
  pose proof (lightning_reasons_cases cfg lightning_data now Hsane) as Hl.
  case_bool_decide.
  - destruct Hl as (reason & -> & _ & HB). cbn [existsb].
    now rewrite (lacks_char_not_in _ _ _ HB).
  - now rewrite Hl.
Qed.

(** X14: the message carries the ETA of the engine when no marine location
    contains "BORA": the Bora flag that [run_enhanced_check] reads back from
    the reasons is then the flag of the detector. *)
Theorem message_eta_is_engine_eta (cfg : Configuration) (weather_data : list WeatherData)
    (marine_data : list MarineData) (lightning_data : list LightningData)
    (now : datetime) :
  sane cfg ->
  Forall (fun d => Py.str_in "BORA" (location d) = false) marine_data ->
  exists locals,
    alert_locals cfg weather_data marine_data lightning_data now = Some locals
    /\ existsb (Py.str_in "BORA") (reasons locals) = bora_detected locals
    /\ message_eta (reasons locals)
       = get_enhanced_eta (reasons locals) (bora_detected locals).
Proof.
  intros Hsane Hloc.
  destruct (alert_locals_spec cfg weather_data marine_data lightning_data now Hsane)
    as (locals & E & _ & Hreasons & Hflag & _).
  exists locals. split; [exact E |].
  assert (Hsame : existsb (Py.str_in "BORA") (reasons locals) = bora_detected locals).
  { rewrite Hreasons, Hflag, !existsb_app, bora_reason_tagged.
    rewrite lightning_reasons_lack_B by exact Hsane.
    rewrite thermal_reasons_lack_B.
    assert (Hm : existsb (Py.str_in "BORA") (marine_reasons cfg marine_data) = false).
    { unfold marine_reasons. case_bool_decide; [| reflexivity].
      cbn [existsb].
      rewrite marine_reason_free; [reflexivity | reflexivity | exact Hloc]. }
    rewrite Hm. now rewrite !orb_false_r. }
  split; [exact Hsame |]. unfold message_eta. now rewrite Hsame.
Qed.

Lemma message_eta_is_engine_eta_witness :
  exists locals,
    alert_locals default_config rainy_day rough_sea eleven_strikes just_now = Some locals
    /\ existsb (Py.str_in "BORA") (reasons locals) = bora_detected locals
    /\ message_eta (reasons locals)
       = get_enhanced_eta (reasons locals) (bora_detected locals).
Proof.
  apply (message_eta_is_engine_eta default_config rainy_day rough_sea eleven_strikes
                                   just_now).
  - unfold sane. simpl. lia.
  - repeat constructor.
Defined.

Lemma str_in_app_r (needle a b : string) :
  Py.str_in needle b = true -> Py.str_in needle (a +:+ b) = true.
Proof.
  intros H. induction a as [|x a IH]; [exact H |].
  change (String x a +:+ b) with (String x (a +:+ b)).
  cbn [Py.str_in]. rewrite IH. apply orb_true_r.
Qed.

Lemma prefix_app_l (needle a b : string) :
  String.prefix needle a = true -> String.prefix needle (a +:+ b) = true.
Proof.
  revert a. induction needle as [|y needle IH]; intros a;
    [intros _; destruct (a +:+ b); reflexivity |].
  destruct a as [|x a]; [discriminate |]. simpl.
  destruct (ascii_dec y x); [apply IH | discriminate].
Qed.

Lemma str_in_app_l (needle a b : string) :
  Py.str_in needle a = true -> Py.str_in needle (a +:+ b) = true.
Proof.
  induction a as [|x a IH].
  - cbn [Py.str_in]. rewrite orb_false_r. intros H.
    destruct needle; [destruct b; reflexivity | discriminate].
  - change (String x a +:+ b) with (String x (a +:+ b)).
    cbn [Py.str_in]. rewrite !orb_true_iff. intros [H | H].
    + left. change (String x (a +:+ b)) with (String x a +:+ b).
      now apply prefix_app_l.
    + right. now apply IH.
Qed.

Lemma str_in_join (needle sep frag : string) (frags : list string) :
  In frag frags -> Py.str_in needle frag = true ->
  Py.str_in needle (Py.join sep frags) = true.
Proof.
  intros Hin Hfrag. induction frags as [|p frags IH]; [contradiction |].
  destruct frags as [|q frags].
  - destruct Hin as [-> | []]. exact Hfrag.
  - change (Py.join sep (p :: q :: frags))
      with (p +:+ sep +:+ Py.join sep (q :: frags)).
    destruct Hin as [-> | Hin].
    + now apply str_in_app_l.
    + apply str_in_app_r, str_in_app_r, IH, Hin.
Qed.

Lemma flagged_fragment (cfg : Configuration) (d : MarineData) :
  marine_flagged cfg d ->
  exists frag tail, In frag (marine_fragments cfg d) /\ frag = location d +:+ tail.
Proof.
  intros Hflag. unfold marine_fragments.
  destruct (Py.lt _ _) eqn:E1.
  - eexists _, _. split; [left; reflexivity | reflexivity].
  - destruct (Py.gt _ _) eqn:E2.
    + eexists _, _. split; [left; reflexivity | reflexivity].
    + exfalso. apply lt_false in E1. apply gt_false in E2.
      destruct Hflag as [H | H]; [exact (Qlt_not_le _ _ H E1) | exact (Qlt_not_le _ _ H E2)].
Qed.

(** X15: a flagged marine reading whose location contains "BORA" turns the
    ETA of the message into the Bora bucket although the detector found no
    Bora and the engine computed another ETA. *)
Theorem location_named_bora_changes_message_eta (cfg : Configuration)
    (weather_data : list WeatherData) (marine_data : list MarineData)
    (lightning_data : list LightningData) (now : datetime) :
  sane cfg ->
  fst (check_bora_pattern cfg weather_data) = false ->
  Exists (fun d => marine_flagged cfg d /\ Py.str_in "BORA" (location d) = true)
         marine_data ->
  exists locals,
    alert_locals cfg weather_data marine_data lightning_data now = Some locals
    /\ message_eta (reasons locals) = "15-45 minutes (BORA - IMMEDIATE DANGER)"
    /\ get_enhanced_eta (reasons locals) (bora_detected locals)
       <> "15-45 minutes (BORA - IMMEDIATE DANGER)".
Proof.
  intros Hsane Hbora Hex.
  destruct (alert_locals_spec cfg weather_data marine_data lightning_data now Hsane)
    as (locals & E & _ & Hreasons & Hflag & _).
  exists locals. split; [exact E |]. split.
  - unfold message_eta.
    assert (Hin : existsb (Py.str_in "BORA") (reasons locals) = true);
      [| now rewrite Hin].
    rewrite Hreasons, !existsb_app.
    assert (Hm : existsb (Py.str_in "BORA") (marine_reasons cfg marine_data) = true);
      [| rewrite Hm; now rewrite orb_true_r].
    apply Exists_exists in Hex as (d & Hd & Hflagged & Hname).
    unfold marine_reasons. rewrite bool_decide_eq_true_2.
    + cbn [existsb]. rewrite orb_false_r. unfold marine_reason.
      apply str_in_app_r.
      destruct (flagged_fragment cfg d Hflagged) as (frag & tail & Hfrag & ->).
      apply (str_in_join _ _ (location d +:+ tail)).
      * apply in_flat_map. exists d. split; [now apply list_elem_of_In | exact Hfrag].
      * now apply str_in_app_l.
    + apply Exists_exists. exists d. split; [exact Hd | exact Hflagged].
  - rewrite Hflag, Hbora. unfold get_enhanced_eta.
    repeat match goal with |- context [if ?c then _ else _] => destruct c end;
      discriminate.
Qed.

Lemma location_named_bora_changes_message_eta_witness :
  exists locals,
    alert_locals default_config rainy_day bora_bay [] just_now = Some locals
    /\ message_eta (reasons locals) = "15-45 minutes (BORA - IMMEDIATE DANGER)"
    /\ get_enhanced_eta (reasons locals) (bora_detected locals)
       <> "15-45 minutes (BORA - IMMEDIATE DANGER)".
Proof.
  apply (location_named_bora_changes_message_eta default_config rainy_day bora_bay []
                                                 just_now).
  - unfold sane. simpl. lia.
  - reflexivity.
  - apply Exists_cons_hd. split; [right; reflexivity | reflexivity].
Defined.

(** ** The store, key by key *)

Lemma fold_append_lookup {A : Type} (key : A -> string) (batch : list A)
    (h : gmap string (list A)) (name : string) :
  fold_left (append_at key) batch h !! name
  = match readings_of key name batch with
    | [] => h !! name
    | _ :: _ => Some (default [] (h !! name) ++ readings_of key name batch)
    end.
Proof.
  revert h. induction batch as [|d batch IH]; intros h; [reflexivity |].
  cbn [fold_left]. rewrite IH. unfold readings_of. cbn [List.filter].
  destruct (String.eqb (key d) name) eqn:E.
  - apply String.eqb_eq in E. subst name. rewrite lookup_append_at_eq. cbn [default].
    destruct (List.filter _ batch); [reflexivity | unfold id; now rewrite <- app_assoc].
  - apply String.eqb_neq in E.
    rewrite lookup_append_at_ne by congruence. reflexivity.
Qed.

(** X16: after [store_data] a key holds what it held before followed by the
    readings of the batch under that key, in their order and with their
    duplicates, from which the readings at or before the cutoff of this call
    are dropped, old and new alike; a key is created by its first reading,
    and the lightning list is treated the same way. *)
Theorem store_appends_then_prunes (self : EnhancedAlertCalculator)
    (weather_data : list WeatherData) (marine_data : list MarineData)
    (lightning_data : list LightningData) (now : datetime) (name : string) :
  historical_weather (store_data self weather_data marine_data lightning_data now) !! name
  = match historical_weather self !! name, readings_of station_name name weather_data with
    | None, [] => None
    | held, batch =>
        Some (List.filter (fun d => w_timestamp d >? horizon self now)
                          (default [] held ++ batch))
    end
  /\ historical_marine (store_data self weather_data marine_data lightning_data now) !! name
     = match historical_marine self !! name, readings_of location name marine_data with
       | None, [] => None
       | held, batch =>
           Some (List.filter (fun d => m_timestamp d >? horizon self now)
                             (default [] held ++ batch))
       end
  /\ historical_lightning (store_data self weather_data marine_data lightning_data now)
     = List.filter (fun d => l_timestamp d >? horizon self now)
                   (historical_lightning self ++ lightning_data).
Proof.
  unfold store_data, horizon. cbn [historical_weather historical_marine
    historical_lightning config].
  rewrite !lookup_fmap, !fold_append_lookup.
  repeat split.
  - destruct (readings_of station_name name weather_data);
      destruct (historical_weather self !! name); cbn; rewrite ?app_nil_r; reflexivity.
  - destruct (readings_of location name marine_data);
      destruct (historical_marine self !! name); cbn; rewrite ?app_nil_r; reflexivity.
Qed.

(** X17: the store never forgets a key: a station or location that has an
    entry keeps one after every later [store_data], empty once all its
    readings are beyond the retention horizon. *)
Theorem store_keeps_keys (self : EnhancedAlertCalculator)
    (weather_data : list WeatherData) (marine_data : list MarineData)
    (lightning_data : list LightningData) (now : datetime) (name : string) :
  (is_Some (historical_weather self !! name) ->
   is_Some (historical_weather
              (store_data self weather_data marine_data lightning_data now) !! name))
  /\ (is_Some (historical_marine self !! name) ->
      is_Some (historical_marine
                 (store_data self weather_data marine_data lightning_data now) !! name)).
Proof.
  unfold store_data. cbn [historical_weather historical_marine].
  rewrite !lookup_fmap, !fold_append_lookup.
  split; intros [held ->].
  - destruct (readings_of station_name name weather_data); cbn; eauto.
  - destruct (readings_of location name marine_data); cbn; eauto.
Qed.

Lemma store_keeps_keys_witness :
  is_Some (historical_weather
             (store_data (store_data (new_calculator default_config)
                                     [weather_at "Ancona" 0] [] [] 0)
                         [] [] [] 86400000000)
             !! "Ancona").
Proof.
  apply (store_keeps_keys (store_data (new_calculator default_config)
                                      [weather_at "Ancona" 0] [] [] 0)
                          [] [] [] 86400000000 "Ancona").
  vm_compute. eauto.
Defined.

(** A day later the entry of Ancona is still there, and empty. *)
Example ancona_entry_is_empty :
  historical_weather
    (store_data (store_data (new_calculator default_config)
                            [weather_at "Ancona" 0] [] [] 0)
                [] [] [] 86400000000)
    !! "Ancona" = Some [].
Proof. vm_compute. reflexivity. Qed.

(** ** One cycle under Bora *)

Lemma critical_passes (self : TelegramNotifier) (now : datetime) (score : Q) :
  should_send_alert self now score "CRITICAL" = true.
Proof.
  unfold should_send_alert.
  replace (alert_levels !! Py.upper "CRITICAL") with (Some 4) by reflexivity.
  assert (Hmin : default 2 (alert_levels !! min_alert_level self) <= 4).
  { destruct (alert_levels !! min_alert_level self) as [v|] eqn:E; simpl; [| lia].
    apply alert_levels_range in E. lia. }
  simpl default at 1. apply Z.ltb_ge in Hmin. rewrite Hmin. reflexivity.
Qed.

Lemma bora_result (cfg : Configuration) (weather_data : list WeatherData)
    (marine_data : list MarineData) (lightning_data : list LightningData)
    (now : datetime) :
  sane cfg ->
  fst (check_bora_pattern cfg weather_data) = true ->
  exists final_score reasons,
    calculate_enhanced_alerts cfg weather_data marine_data lightning_data now
    = Some (final_score, reasons, "CRITICAL")
    /\ (60 <= final_score)%Q /\ (final_score <= 100)%Q.
Proof.
  intros Hsane Hbora. unfold calculate_enhanced_alerts.
  destruct (alert_locals_spec cfg weather_data marine_data lightning_data now Hsane)
    as (locals & -> & Hscore & _ & _ & Hlevel).
  cbn [mbind option_bind]. rewrite Hbora in Hlevel. rewrite Hlevel.
  destruct (min_clamp _ _ Hscore) as (_ & Hle & Hge).
  destruct (raw_sum_bounds cfg weather_data marine_data lightning_data now) as [_ Hraw].
  unfold bora_points in Hraw. rewrite Hbora in Hraw.
  do 2 eexists. split; [reflexivity |]. split; [| exact Hle].
  apply Hge; [exact Hraw | discriminate].
Qed.

(** X18: a cycle in which the Bora pattern is detected and the transport
    accepts the first call always notifies, whatever was notified before and
    whenever: afterwards the notifier holds the send time of this cycle and
    this cycle's score, which is at least 60. *)
Theorem bora_cycle_notifies (self : EnhancedWeatherAlertSystem)
    (weather_data : list WeatherData) (marine_data : list MarineData)
    (lightning_data : list LightningData) (post : Transport) (clock : Clock)
    (response : Response) :
  sane (config (calculator self)) ->
  fst (check_bora_pattern (config (calculator self)) weather_data) = true ->
  (forall url doc, post 0%nat url doc = PostReturns response) ->
  raises_for_status response = false ->
  fst (run_enhanced_check self weather_data marine_data lightning_data post clock)
  = Returned
  /\ last_alert_time
       (notifier (snd (run_enhanced_check self weather_data marine_data lightning_data
                                          post clock)))
     = Some (now_sent clock)
  /\ (60 <= last_alert_score
             (notifier (snd (run_enhanced_check self weather_data marine_data
                                                lightning_data post clock))))%Q.
Proof.
  intros Hsane Hbora Hfirst Hok. unfold run_enhanced_check.
  destruct weather_data as [|w ws]; [discriminate Hbora |].
  rewrite store_data_config.
  destruct (bora_result (config (calculator self)) (w :: ws) marine_data lightning_data
              (now_calculate clock) Hsane Hbora) as (s & rs & -> & Hs & _).
  rewrite critical_passes, deliver_alert_cases.
  assert (Hpost : post_message (notifier self) post
                    (alert_message clock s rs "CRITICAL") = Some tt).
  { unfold post_message. rewrite Hfirst. cbn [mbind option_bind].
    assert (H400 : (status_code response =? 400) = false).
    { unfold raises_for_status in Hok. apply Z.eqb_neq. intros E.
      rewrite E in Hok. discriminate. }
    rewrite H400. cbn [mbind option_bind]. now rewrite Hok. }
  rewrite Hpost. cbn. repeat split. exact Hs.
Qed.

Lemma bora_cycle_notifies_witness :
  last_alert_time
    (notifier (snd (run_enhanced_check
                      (new_system default_config "token" "chat")
                      bora_day [] [] transport_ok noon)))
  = Some (now_sent noon).
Proof.
  apply (bora_cycle_notifies (new_system default_config "token" "chat")
                             bora_day [] [] transport_ok noon
                             {| status_code := 200; content_type := "";
                                json_description := None |}).
  - unfold sane. simpl. lia.
  - reflexivity.
  - reflexivity.
  - reflexivity.
Defined.

(** ** The fetchers *)

Tactic Notation "bind_in" hyp(H) constr(o) ident(x) :=
  destruct o as [x|]; cbn [mbind option_bind] in H; [| discriminate H].

Ltac step_bind H :=
  match type of H with
  | context [mbind _ ?o] => destruct o eqn:?; cbn [mbind option_bind] in H
  end.

Lemma or_else_number_nonzero (v : json) (fallback q : Q) :
  ~ (fallback == 0)%Q ->
  Json.number (Json.or_else v (JNum fallback)) = Some q ->
  ~ (q == 0)%Q.
Proof.
  intros Hfb. unfold Json.or_else.
  destruct (Json.truthy v) eqn:T; cbn [Json.number].
  - destruct v as [|b|x|s|items|members]; cbn [Json.number Json.truthy] in T |- *;
      try discriminate; intros [= <-].
    + rewrite T. discriminate.
    + intros Hx. apply Qeq_bool_iff in Hx. rewrite Hx in T. discriminate.
  - intros [= <-]. exact Hfb.
Qed.

Lemma hourly_value_nonzero (hourly : json) (key : string) (fallback : Q) (hour : nat)
    (v : json) (q : Q) :
  ~ (fallback == 0)%Q ->
  hourly_value hourly key fallback hour = Some v ->
  Json.number v = Some q -> ~ (q == 0)%Q.
Proof.
  intros Hfb Hv. unfold hourly_value in Hv.
  repeat step_bind Hv; try discriminate.
  injection Hv as <-. now apply or_else_number_nonzero.
Qed.

(** X19: a marine reading that [fetch_marine_data] returns carries the name
    of its point, the timestamp of the fetch, a sea temperature of 20 and a
    wave period that is not zero: a period that the provider gives as zero
    or null is replaced by 8. *)
Theorem fetched_marine_reading (point : MarinePoint) (response : option json)
    (hour_now now : datetime) (d : MarineData) :
  fetch_marine_data point response hour_now now = Reading d ->
  location d = mp_name point
  /\ m_timestamp d = now
  /\ sea_temperature d = 20%Q
  /\ ~ (wave_period d == 0)%Q.
Proof.
  unfold fetch_marine_data. intros H.
  destruct (mbind _ response) as [[[h p] dir]|] eqn:Efields; [| discriminate].
  destruct (Json.number dir) as [wd|]; [| discriminate].
  injection H as <-. cbn. repeat split.
  repeat step_bind Efields; try discriminate.
  injection Efields as <- <- <-.
  eapply (hourly_value_nonzero _ "wave_period" 8); [discriminate | eassumption | eassumption].
Qed.

Lemma fetched_marine_reading_witness :
  location null_period_reading = mp_name ancona_bay
  /\ m_timestamp null_period_reading = ten_o_clock
  /\ sea_temperature null_period_reading = 20%Q
  /\ ~ (wave_period null_period_reading == 0)%Q.
Proof.
  apply (fetched_marine_reading ancona_bay (Some null_period_document)
                                ten_o_clock ten_o_clock null_period_reading).
  vm_compute. reflexivity.
Defined.

Lemma index_default_series (fallback : Q) (hour : nat) :
  hour <> 0%nat -> Json.index (JArr [JNum fallback]) hour = None.
Proof. destruct hour; [congruence | reflexivity]. Qed.

Lemma hourly_value_missing (members : list (string * json)) (key : string)
    (fallback : Q) (hour : nat) :
  Json.lookup key members = None -> hour <> 0%nat ->
  hourly_value (JObj members) key fallback hour = None.
Proof.
  intros Hkey Hhour. unfold hourly_value. cbn [Json.get mbind option_bind].
  rewrite Hkey. cbn [default]. unfold id.
  now rewrite index_default_series.
Qed.

(** X20: a series that is missing from the hourly data is replaced by a
    list of one element, which only hour 0 can index: when one of the three
    series is missing, [fetch_marine_data] returns nothing at every hour but
    midnight; at midnight a document without hourly data gives the calm
    reading (0 m, 8 s, 0 degrees). *)
Theorem marine_series_missing (point : MarinePoint) (members series : list (string * json))
    (hour_now now : datetime) :
  default (JObj []) (Json.lookup "hourly" members) = JObj series ->
  (Json.lookup "wave_height" series = None
   \/ Json.lookup "wave_period" series = None
   \/ Json.lookup "wave_direction" series = None) ->
  (hour_of hour_now <> 0%nat ->
   fetch_marine_data point (Some (JObj members)) hour_now now = NoReading)
  /\ (hour_of hour_now = 0%nat -> series = [] ->
      fetch_marine_data point (Some (JObj members)) hour_now now
      = Reading {| m_timestamp := now; wave_height := 0; wave_period := 8;
                   wave_direction := 0; sea_temperature := 20;
                   location := mp_name point |}).
Proof.
  intros Hhourly Hmissing. unfold fetch_marine_data.
  cbn [mbind option_bind Json.get]. rewrite Hhourly. split.
  - intros Hhour.
    destruct (hourly_value (JObj series) "wave_height" 0 (hour_of hour_now))
      as [h|] eqn:Eh; [| reflexivity].
    destruct (hourly_value (JObj series) "wave_period" 8 (hour_of hour_now))
      as [p|] eqn:Ep; [| reflexivity].
    destruct (hourly_value (JObj series) "wave_direction" 0 (hour_of hour_now))
      as [dir|] eqn:Ed; [| reflexivity].
    exfalso. destruct Hmissing as [H | [H | H]];
      rewrite hourly_value_missing in * by assumption; discriminate.
  - intros -> ->. reflexivity.
Qed.

Lemma marine_series_missing_witness :
  fetch_marine_data ancona_bay (Some (JObj [])) ten_o_clock ten_o_clock = NoReading.
Proof.
  apply (marine_series_missing ancona_bay [] [] ten_o_clock ten_o_clock).
  - reflexivity.
  - now left.
  - discriminate.
Defined.

(** X21: a weather reading that [fetch_station_data] returns carries the
    name and the type of its station and the timestamp of the fetch; its
    wind speed is the provider's speed times 3.6 (m/s to km/h), and its wind
    direction is 0 when the provider gives no direction. *)
Theorem fetched_station_reading (station : WeatherStation) (response : option json)
    (now : datetime) (d : WeatherData) :
  fetch_station_data station response now = Reading d ->
  station_name d = ws_name station
  /\ station_type d = ws_station_type station
  /\ w_timestamp d = now
  /\ exists data wind speed v,
       response = Some data
       /\ Json.getitem data "wind" = Some wind
       /\ Json.getitem wind "speed" = Some speed
       /\ Json.number speed = Some v
       /\ wind_speed d = (v * (36 # 10))%Q
       /\ (Json.getitem wind "deg" = None -> wind_direction d = 0%Q).
Proof.
  unfold fetch_station_data. intros H.
  destruct response as [data|]; cbn [mbind option_bind] in H; [| discriminate H].
  bind_in H (Json.getitem data "main") main_obj.
  bind_in H (Json.getitem main_obj "temp") temp.
  bind_in H (Json.getitem main_obj "pressure") press.
  bind_in H (Json.getitem main_obj "humidity") hum.
  destruct (Json.getitem data "wind") as [wind|] eqn:Ewind;
    cbn [mbind option_bind] in H; [| discriminate H].
  destruct (Json.getitem wind "speed") as [speed|] eqn:Espeed;
    cbn [mbind option_bind] in H; [| discriminate H].
  destruct (Json.number speed) as [v|] eqn:Ev;
    cbn [mbind option_bind] in H; [| discriminate H].
  destruct (Json.get wind "deg" (JNum 0)) as [deg|] eqn:Edeg;
    cbn [mbind option_bind] in H; [| discriminate H].
  bind_in H (Json.get data "visibility" JNull) vis.
  bind_in H (Json.getitem data "weather") weather.
  bind_in H (Json.index weather 0) item.
  bind_in H (Json.getitem item "main") main_text.
  bind_in H (Json.number temp) t.
  bind_in H (Json.number press) p.
  assert (Hd0 : Json.getitem wind "deg" = None -> Json.number deg = Some 0%Q).
  { destruct wind as [| | | | |members]; cbn in Edeg |- *; try discriminate.
    intros Hnone. rewrite Hnone in Edeg. injection Edeg as <-. reflexivity. }
  destruct (Json.number hum) as [humidity|]; [| discriminate H].
  destruct (Json.number deg) as [wind_direction|]; [| discriminate H].
  destruct main_text as [| | |weather_main| |]; try discriminate H.
  destruct vis as [|b|x|s|items|members]; cbn [Json.number] in H;
    try discriminate H; injection H as <-; cbn;
    (repeat split; exists data, wind, speed, v; repeat split; try assumption;
     intros Hnone; specialize (Hd0 Hnone); congruence).
Qed.

Lemma fetched_station_reading_witness :
  station_name ancona_reading = ws_name ancona_station
  /\ station_type ancona_reading = ws_station_type ancona_station
  /\ w_timestamp ancona_reading = ten_o_clock
  /\ exists data wind speed v,
       Some (owm_document 15 1013 60 3 [] "Clear") = Some data
       /\ Json.getitem data "wind" = Some wind
       /\ Json.getitem wind "speed" = Some speed
       /\ Json.number speed = Some v
       /\ wind_speed ancona_reading = (v * (36 # 10))%Q
       /\ (Json.getitem wind "deg" = None -> wind_direction ancona_reading = 0%Q).
Proof.
  apply (fetched_station_reading ancona_station
           (Some (owm_document 15 1013 60 3 [] "Clear")) ten_o_clock ancona_reading).
  vm_compute. reflexivity.
Defined.

(** X22: [fetch_station_data] returns nothing for a document without
    "main", "wind" or "weather", with an empty "weather" list, or whose
    temperature is not a number (the format of the debug line raises). *)
Theorem station_fetch_fails_closed (station : WeatherStation) (data : json)
    (now : datetime) :
  (Json.getitem data "main" = None
   \/ Json.getitem data "wind" = None
   \/ Json.getitem data "weather" = None
   \/ Json.getitem data "weather" = Some (JArr [])
   \/ exists main temp,
        Json.getitem data "main" = Some main
        /\ Json.getitem main "temp" = Some temp
        /\ Json.number temp = None) ->
  fetch_station_data station (Some data) now = NoReading.
Proof.
  intros Hbad. unfold fetch_station_data. cbn [mbind option_bind].
  destruct (Json.getitem data "main") as [main|] eqn:Emain; [| reflexivity].
  cbn [mbind option_bind].
  destruct (Json.getitem main "temp") as [temp|] eqn:Etemp; [| reflexivity].
  cbn [mbind option_bind].
  destruct (Json.getitem main "pressure") as [press|]; [| reflexivity].
  cbn [mbind option_bind].
  destruct (Json.getitem main "humidity") as [hum|]; [| reflexivity].
  cbn [mbind option_bind].
  destruct (Json.getitem data "wind") as [wind|] eqn:Ewind; [| reflexivity].
  cbn [mbind option_bind].
  destruct (Json.getitem wind "speed") as [speed|]; [| reflexivity].
  cbn [mbind option_bind].
  destruct (Json.number speed) as [v|]; [| reflexivity].
  cbn [mbind option_bind].
  destruct (Json.get wind "deg" (JNum 0)) as [deg|]; [| reflexivity].
  cbn [mbind option_bind].
  destruct (Json.get data "visibility" JNull) as [vis|]; [| reflexivity].
  cbn [mbind option_bind].
  destruct (Json.getitem data "weather") as [weather|] eqn:Eweather; [| reflexivity].
  cbn [mbind option_bind].
  destruct (Json.index weather 0) as [item|] eqn:Eitem; [| reflexivity].
  cbn [mbind option_bind].
  destruct (Json.getitem item "main") as [main_text|]; [| reflexivity].
  cbn [mbind option_bind].
  destruct (Json.number temp) as [t|] eqn:Et; [| reflexivity].
  exfalso.
  destruct Hbad as [H | [H | [H | [H | (main' & temp' & H1 & H2 & H3)]]]];
    try discriminate.
  - injection H as ->. discriminate.
  - congruence.
Qed.

Lemma station_fetch_fails_closed_witness :
  fetch_station_data ancona_station
    (Some (JObj [("main", JObj [("temp", JStr "15"); ("pressure", JNum 1013);
                                ("humidity", JNum 60)]);
                 ("wind", JObj [("speed", JNum 3)]);
                 ("weather", JArr [JObj [("main", JStr "Clear")]])]))
    ten_o_clock
  = NoReading.
Proof.
  apply station_fetch_fails_closed.
  right. right. right. right.
  exists (JObj [("temp", JStr "15"); ("pressure", JNum 1013); ("humidity", JNum 60)]),
         (JStr "15").
  repeat split.
Defined.

(** *** The batch *)

Lemma collect_imap_sublist {Src A : Type} (f : nat -> Src -> Fetched A)
    (proj : A -> string) (name : Src -> string) (sources : list Src) (out : list A) :
  (forall i s a, f i s = Reading a -> proj a = name s) ->
  collect (imap f sources) = Some out ->
  sublist (map proj out) (map name sources).
Proof.
  revert f out. induction sources as [|s sources IH]; intros f out Hf Hout.
  - injection Hout as <-. constructor.
  - cbn [imap collect] in Hout.
    destruct (f 0%nat s) as [|a|] eqn:E0.
    + cbn [map]. apply sublist_cons. apply (IH (f ∘ S)); [| exact Hout].
      intros i s' a'. apply Hf.
    + destruct (collect (imap (f ∘ S) sources)) as [rest|] eqn:Erest; [| discriminate].
      injection Hout as <-. cbn [map].
      rewrite (Hf _ _ _ E0). apply sublist_skip.
      apply (IH (f ∘ S)); [| exact Erest]. intros i s' a'. apply Hf.
    + discriminate.
Qed.

Lemma collect_imap_elem {Src A : Type} (f : nat -> Src -> Fetched A)
    (sources : list Src) (out : list A) (a : A) :
  collect (imap f sources) = Some out -> In a out ->
  exists i s, sources !! i = Some s /\ f i s = Reading a.
Proof.
  revert f out. induction sources as [|s sources IH]; intros f out Hout Hin.
  - injection Hout as <-. contradiction.
  - cbn [imap collect] in Hout.
    destruct (f 0%nat s) as [|a0|] eqn:E0.
    + destruct (IH (f ∘ S) out Hout Hin) as (i & s' & Hs & Hf).
      exists (S i), s'. split; assumption.
    + destruct (collect (imap (f ∘ S) sources)) as [rest|] eqn:Erest; [| discriminate].
      injection Hout as <-. destruct Hin as [<- | Hin].
      * exists 0%nat, s. split; [reflexivity | exact E0].
      * destruct (IH (f ∘ S) rest Erest Hin) as (i & s' & Hs & Hf).
        exists (S i), s'. split; assumption.
    + discriminate.
Qed.

Lemma station_reading_name (station : WeatherStation) (response : option json)
    (now : datetime) (d : WeatherData) :
  fetch_station_data station response now = Reading d ->
  station_name d = ws_name station.
Proof.
  unfold fetch_station_data.
  destruct (mbind _ response) as [[[[[[[t p] hum] ws] deg] vis] main_text]|];
    [| discriminate].
  destruct (Json.number hum); [| discriminate].
  destruct (Json.number deg); [| discriminate].
  destruct main_text; try discriminate.
  destruct vis; cbn [Json.number]; try discriminate; intros [= <-]; reflexivity.
Qed.

Lemma marine_reading_name (point : MarinePoint) (response : option json)
    (hour_now now : datetime) (d : MarineData) :
  fetch_marine_data point response hour_now now = Reading d ->
  location d = mp_name point.
Proof.
  unfold fetch_marine_data.
  destruct (mbind _ response) as [[[h p] dir]|]; [| discriminate].
  destruct (Json.number dir); [| discriminate].
  intros [= <-]. reflexivity.
Qed.

(** X23: [fetch_all_data] returns the readings in the order of the stations
    and of the points, at most one per station and per point (the names of
    the readings are a sublist of the names asked for), and no lightning
    event at all. *)
Theorem fetch_all_data_shape (stations : list WeatherStation)
    (marine_points : list MarinePoint) (providers : Providers)
    (weather_data : list WeatherData) (marine_data : list MarineData)
    (lightning_data : list LightningData) :
  fetch_all_data stations marine_points providers
  = Some (weather_data, marine_data, lightning_data) ->
  sublist (map station_name weather_data) (map ws_name stations)
  /\ sublist (map location marine_data) (map mp_name marine_points)
  /\ lightning_data = [].
Proof.
  unfold fetch_all_data. intros H.
  destruct (collect (imap _ stations)) as [w|] eqn:Ew;
    cbn [mbind option_bind] in H; [| discriminate].
  destruct (collect (imap _ marine_points)) as [m|] eqn:Em;
    cbn [mbind option_bind] in H; [| discriminate].
  injection H as <- <- <-. repeat split.
  - eapply collect_imap_sublist; [| exact Ew].
    intros i s a. apply station_reading_name.
  - eapply collect_imap_sublist; [| exact Em].
    intros i s a. apply marine_reading_name.
Qed.

Lemma fetch_all_data_shape_witness :
  exists weather_data marine_data,
    fetch_all_data STATIONS MARINE_POINTS ancona_down = Some (weather_data, marine_data, [])
    /\ sublist (map station_name weather_data) (map ws_name STATIONS)
    /\ sublist (map location marine_data) (map mp_name MARINE_POINTS).
Proof.
  destruct (fetch_all_data STATIONS MARINE_POINTS ancona_down)
    as [[[w m] l]|] eqn:E; [| vm_compute in E; discriminate].
  destruct (fetch_all_data_shape STATIONS MARINE_POINTS ancona_down w m l E)
    as (Hw & Hm & ->).
  exists w, m. repeat split; assumption.
Defined.



Lemma filter_none {A : Type} (f : A -> bool) (l : list A) :
  (forall a, In a l -> f a = false) -> List.filter f l = [].
Proof.
  induction l as [|a l IH]; intros H; [reflexivity |].
  cbn [List.filter]. rewrite (H a) by (now left).
  apply IH. intros b Hb. apply H. now right.
Qed.

(** X25: with the configured stations the local side of the Bora detector
    is Ancona alone (no station is named Falconara): when the request for
    Ancona fails, no Bora is detected in that cycle, whatever the reference
    stations report. *)
Theorem bora_needs_ancona (providers : Providers) (cfg : Configuration)
    (weather_data : list WeatherData) (marine_data : list MarineData)
    (lightning_data : list LightningData) :
  fetch_all_data STATIONS MARINE_POINTS providers
  = Some (weather_data, marine_data, lightning_data) ->
  weather_response providers ancona_index = None ->
  check_bora_pattern cfg weather_data = (false, "").
Proof.
  unfold fetch_all_data. intros H Hdown.
  destruct (collect (imap _ STATIONS)) as [w|] eqn:Ew; cbn [mbind option_bind] in H;
    [| discriminate].
  destruct (collect (imap _ MARINE_POINTS)) as [m|]; cbn [mbind option_bind] in H;
    [| discriminate].
  injection H as <- _ _.
  assert (Hlocal : List.filter
                     (fun d => Py.str_in_list (station_name d) local_station_names) w
                   = []).
  { apply filter_none. intros d Hd. apply not_true_iff_false. intros Hname.
    apply str_in_list_iff in Hname.
    destruct (collect_imap_elem _ _ _ d Ew Hd) as (i & st & Hst & Hfetch).
    pose proof (station_reading_name _ _ _ _ Hfetch) as Hn. rewrite Hn in Hname.
    do 12 (destruct i as [|i];
           [ injection Hst as <-; cbn in Hname;
             try (destruct Hname as [Hname | [Hname | []]]; discriminate Hname);
             unfold ancona_index in Hdown; rewrite Hdown in Hfetch; discriminate Hfetch
           |]).
    discriminate Hst. }
  unfold check_bora_pattern. rewrite Hlocal. clear Hlocal.
  destruct (List.filter _ w); reflexivity.
Qed.

Lemma bora_needs_ancona_witness :
  exists weather_data marine_data,
    fetch_all_data STATIONS MARINE_POINTS ancona_down = Some (weather_data, marine_data, [])
    /\ check_bora_pattern default_config weather_data = (false, "").
Proof.
  destruct (fetch_all_data STATIONS MARINE_POINTS ancona_down)
    as [[[w m] l]|] eqn:E; [| vm_compute in E; discriminate].
  assert (Hl : l = []) by (vm_compute in E; now injection E as _ _ <-).
  subst l. exists w, m. split; [reflexivity |].
  apply (bora_needs_ancona ancona_down default_config w m [] E). reflexivity.
Defined.

(** ** The level filter of the logger *)

Lemma log_levels_range (name : string) (v : Z) :
  log_levels !! name = Some v -> 0 <= v <= 3.
Proof.
  unfold log_levels. rewrite !lookup_insert, lookup_empty.
  repeat case_decide; intros; simplify_eq; lia.
Qed.

(** X26: the logger never filters an ERROR message, whatever [LOG_LEVEL]
    holds; it prints a DEBUG message exactly when the level is "DEBUG"; and a
    level that is none of the four names filters as "INFO" does. *)
Theorem error_is_always_logged (log_level : string) :
  _should_log log_level "ERROR" = true
  /\ (_should_log log_level "DEBUG" = true <-> log_level = "DEBUG")
  /\ (log_levels !! log_level = None ->
      forall level, _should_log log_level level = _should_log "INFO" level).
Proof.
  unfold _should_log. repeat split.
  - replace (log_levels !! "ERROR") with (Some 3) by reflexivity. cbn [default].
    unfold id. apply Z.geb_le.
    destruct (log_levels !! log_level) as [v|] eqn:E; cbn; [| lia].
    apply log_levels_range in E. lia.
  - replace (log_levels !! "DEBUG") with (Some 0) by reflexivity. cbn [default].
    unfold id. intros H. apply Z.geb_le in H.
    unfold log_levels in H |- *. rewrite !lookup_insert, lookup_empty in H.
    repeat case_decide; cbn in H; try lia. congruence.
  - intros ->. reflexivity.
  - intros Hnone level. now rewrite Hnone.
Qed.

Lemma error_is_always_logged_witness :
  _should_log "VERBOSE" "WARNING" = _should_log "INFO" "WARNING".
Proof.
  apply (error_is_always_logged "VERBOSE"). reflexivity.
Defined.

(** ** After a delivery *)

(** X27: once a result below CRITICAL has been delivered, the gate rejects
    the same level again until its cooldown has strictly elapsed, as long as
    the score is not more than 25 above the delivered score. *)
Theorem no_repeat_within_cooldown (self : TelegramNotifier) (post : Transport)
    (clock : Clock) (score later_score : Q) (reasons : list string) (level : Level)
    (later : datetime) :
  fst (send_message self post (now_sent clock)
                    (alert_message clock score reasons (level_name level))) = true ->
  level <> CRITICAL ->
  later - now_sent clock <= cooldown level ->
  (later_score <= score + 25)%Q ->
  should_send_alert (deliver_alert self post clock score reasons (level_name level))
                    later later_score (level_name level)
  = false.
Proof.
  intros Hsent Hlevel Hsoon Hscore.
  rewrite deliver_alert_cases.
  apply send_message_verdict in Hsent. rewrite Hsent.
  apply (gate_within_cooldown _ later (now_sent clock)); try assumption; reflexivity.
Qed.

Lemma no_repeat_within_cooldown_witness :
  should_send_alert (deliver_alert (fresh_notifier "MEDIUM") transport_ok noon 80
                                   ["reason"] "HIGH")
                    (now_sent noon + timedelta_minutes 20) 90 "HIGH"
  = false.
Proof.
  apply (no_repeat_within_cooldown (fresh_notifier "MEDIUM") transport_ok noon 80 90
                                   ["reason"] HIGH (now_sent noon + timedelta_minutes 20)).
  - reflexivity.
  - discriminate.
  - simpl. lia.
  - vm_compute. discriminate.
Defined.

(** ** What the message contains *)

Lemma prefix_refl (s : string) : String.prefix s s = true.
Proof.
  induction s as [|a s IH]; [reflexivity |]. simpl.
  destruct (ascii_dec a a); [exact IH | congruence].
Qed.

Lemma str_in_refl (s : string) : Py.str_in s s = true.
Proof. destruct s; cbn [Py.str_in]; now rewrite prefix_refl. Qed.

Lemma reason_lines_appended (lines : list string) (acc : string) :
  (exists tail,
      fold_left (fun message reason =>
                   let safe_reason :=
                     Py.remove_char "`" (Py.remove_char "_" (Py.remove_char "*" reason)) in
                   message +:+ "• " +:+ safe_reason +:+ newline)
                lines acc = acc +:+ tail)
  /\ forall r, In r lines ->
       Py.str_in (reason_line r)
         (fold_left (fun message reason =>
                       let safe_reason :=
                         Py.remove_char "`"
                           (Py.remove_char "_" (Py.remove_char "*" reason)) in
                       message +:+ "• " +:+ safe_reason +:+ newline)
                    lines acc) = true.
Proof.
  revert acc. induction lines as [|l lines IH]; intros acc.
  - split; [exists ""; now rewrite append_nil_r | contradiction].
  - cbn [fold_left]. destruct (IH (acc +:+ "• " +:+ safe_reason l +:+ newline))
      as [[tail Htail] Hin].
    split.
    + exists (reason_line l +:+ tail). unfold safe_reason in Htail. rewrite Htail.
      unfold reason_line. now rewrite !append_assoc.
    + intros r [<- | Hr]; [| now apply Hin].
      unfold safe_reason in Htail. rewrite Htail.
      apply str_in_app_l, str_in_app_r. apply str_in_refl.
Qed.

(** X28: the message contains the ETA it was given, the score as a whole
    percentage, one line per reason among the first six, without the
    characters [*], [_] and the backquote, and, for the level CRITICAL, the
    advisory. *)
Theorem message_contents (score : Q) (reasons : list string) (alert_level eta : string)
    (now : datetime) :
  Py.str_in eta (format_enhanced_message score reasons alert_level eta now) = true
  /\ Py.str_in (Py.format_0f score +:+ "%")
               (format_enhanced_message score reasons alert_level eta now) = true
  /\ (forall r, In r (take 6 reasons) ->
                Py.str_in (reason_line r)
                          (format_enhanced_message score reasons alert_level eta now)
                = true)
  /\ (alert_level = "CRITICAL" ->
      Py.str_in "IMMEDIATE ACTION REQUIRED"
                (format_enhanced_message score reasons alert_level eta now) = true).
Proof.
  unfold format_enhanced_message.
  set (head := "*" +:+ default "📊 ALERT" (level_icons !! alert_level)
               +:+ " - Falconara Marittima*" +:+ newline).
  set (scored := head +:+ "*Risk Score:* " +:+ Py.format_0f score +:+ "%" +:+ newline).
  set (arrival := scored +:+ "*Estimated Arrival:* " +:+ eta +:+ newline +:+ newline).
  set (listed := match reasons with
                 | [] => arrival
                 | _ :: _ => fold_left _ (take 6 reasons) _
                 end).
  assert (Hlisted : (exists tail, listed = arrival +:+ tail)
                    /\ forall r, In r (take 6 reasons) ->
                                 Py.str_in (reason_line r) listed = true).
  { subst listed. destruct reasons as [|r0 rs].
    - split; [exists ""; now rewrite append_nil_r | contradiction].
    - destruct (reason_lines_appended (take 6 (r0 :: rs))
                  (arrival +:+ "*⚡ Active Conditions:*" +:+ newline)) as [[tail Ht] Hin].
      split; [| exact Hin].
      exists (("*⚡ Active Conditions:*" +:+ newline) +:+ tail).
      etransitivity; [exact Ht |]. now rewrite !append_assoc. }
  destruct Hlisted as [[tail Htail] Hlines].
  set (advised := if String.eqb alert_level "CRITICAL" then _ else listed).
  assert (Hadvised : exists tail', advised = listed +:+ tail').
  { subst advised. destruct (String.eqb alert_level "CRITICAL").
    - eexists. reflexivity.
    - exists "". now rewrite append_nil_r. }
  destruct Hadvised as [tail' Htail'].
  assert (Hkeep : forall needle, Py.str_in needle listed = true ->
                                 Py.str_in needle (advised +:+ newline +:+ "*🕐 Time:* "
                                                   +:+ strftime_HM_dmY now) = true).
  { intros needle H. apply str_in_app_l. rewrite Htail'. now apply str_in_app_l. }
  repeat split.
  - apply Hkeep. rewrite Htail. apply str_in_app_l. subst arrival.
    apply str_in_app_r, str_in_app_r, str_in_app_l, str_in_refl.
  - apply Hkeep. rewrite Htail. apply str_in_app_l. subst arrival.
    apply str_in_app_l. subst scored.
    apply str_in_app_r, str_in_app_r.
    rewrite <- append_assoc. apply str_in_app_l, str_in_refl.
  - intros r Hr. apply Hkeep. now apply Hlines.
  - intros ->. apply str_in_app_l. subst advised. cbn [String.eqb Ascii.eqb Bool.eqb].
    apply str_in_app_r, str_in_app_r. reflexivity.
Qed.

Lemma message_contents_witness :
  Py.str_in "IMMEDIATE ACTION REQUIRED"
            (format_enhanced_message 85 ["Bora_wind"] "CRITICAL" "soon" jan_15_2024_14_30)
  = true.
Proof.
  apply (message_contents 85 ["Bora_wind"] "CRITICAL" "soon" jan_15_2024_14_30).
  reflexivity.
Defined.

(** ** The per-station bucket *)

(** X29: the per-station bucket adds between 0 and 30 points per weather
    reading, and nothing bounds it but the number of readings. *)
Theorem traditional_patterns_bounds (cfg : Configuration) (weather_data : list WeatherData) :
  (0 <= _calculate_traditional_patterns cfg weather_data)%Q
  /\ (_calculate_traditional_patterns cfg weather_data
      <= 30 * Py.len weather_data)%Q.
Proof.
  rewrite traditional_patterns_total. split; [apply stations_total_nonneg |].
  unfold Py.len. induction weather_data as [|d ds IH].
  - cbn. discriminate.
  - cbn [fold_right length]. rewrite Nat2Z.inj_succ, <- Z.add_1_r, inject_Z_plus.
    assert (Hd : (station_points cfg d <= 30)%Q).
    { unfold station_points.
      destruct (Py.gt _ _), (Py.str_in_list _ _), (Py.gt _ _); vm_compute; discriminate. }
    change (inject_Z 1) with 1%Q. lra.
Qed.
